(** * portfolio.AI: the position ledger, the spreadsheet importers and the
    agent tools, embedded from

    - [api/portfolio_actions.py] (module [Actions]),
    - [api/main.py]              (module [Api]),
    - [agent/tools/tools.py]     (module [Tools]),
    - [agent/agent.py]           (module [Agent]).

    Conventions of the embedding.

    - A Python [str] is a [string] of 8-bit characters; [upper], [lower] and
      [strip] act on the ASCII range, as they do on tickers and headers.
    - A Python [float] is a [pyfloat]: a finite value, idealised as an exact
      rational (rounding and the infinities are outside the model), or NaN,
      which pandas uses as the marker of a missing cell.  A statement about
      a quantity is therefore a statement about a finite quantity.
    - The [positions] table is the list of its rows in insertion order; a
      session that commits is a function from the table to the new table and
      the outcome of the call (a value or the exception raised).
    - What pandas, requests, BeautifulSoup and urllib compute is no code of
      the repository: an uploaded file is the frame [pd.read_excel] reads
      from it ([excel_bytes]), and the element-wise behaviour of the
      libraries, the exceptions they raise included, is the content of the
      records [Pandas] and [Web].
    - An HTTP handler is embedded by the value its body returns or the
      exception it raises; how the framework encodes the value is outside
      the model. *)

From Stdlib Require Import List String Ascii Bool ZArith NArith QArith Lqa Lia.
From Stdlib Require Import Permutation Sorted.
Import ListNotations.

Local Open Scope string_scope.
Local Open Scope list_scope.

(* ------------------------------------------------------------------ *)
(** ** Python strings *)

Module PyStr.

Definition is_lower (c : ascii) : bool :=
  ((97 <=? N_of_ascii c) && (N_of_ascii c <=? 122))%N.

Definition is_upper (c : ascii) : bool :=
  ((65 <=? N_of_ascii c) && (N_of_ascii c <=? 90))%N.

Definition upper_char (c : ascii) : ascii :=
  if is_lower c then ascii_of_N (N_of_ascii c - 32) else c.

Definition lower_char (c : ascii) : ascii :=
  if is_upper c then ascii_of_N (N_of_ascii c + 32) else c.

(** [s.upper()] *)
Fixpoint upper (s : string) : string :=
  match s with
  | EmptyString => EmptyString
  | String c r => String (upper_char c) (upper r)
  end.

(** [s.lower()] *)
Fixpoint lower (s : string) : string :=
  match s with
  | EmptyString => EmptyString
  | String c r => String (lower_char c) (lower r)
  end.

(** [c.isspace()] on the ASCII range: TAB, LF, VT, FF, CR, FS, GS, RS, US
    and the blank. *)
Definition is_space (c : ascii) : bool :=
  (((9 <=? N_of_ascii c) && (N_of_ascii c <=? 13))
   || ((28 <=? N_of_ascii c) && (N_of_ascii c <=? 32)))%N.

Fixpoint lstrip (s : string) : string :=
  match s with
  | EmptyString => EmptyString
  | String c r => if is_space c then lstrip r else s
  end.

Fixpoint rstrip (s : string) : string :=
  match s with
  | EmptyString => EmptyString
  | String c r =>
      match rstrip r with
      | EmptyString => if is_space c then EmptyString else String c EmptyString
      | r' => String c r'
      end
  end.

(** [s.strip()] *)
Definition strip (s : string) : string := rstrip (lstrip s).

(** Truth value of a string: the empty string is falsy. *)
Definition truthy (s : string) : bool :=
  match s with EmptyString => false | _ => true end.

Fixpoint all_space (s : string) : bool :=
  match s with
  | EmptyString => true
  | String c r => is_space c && all_space r
  end.

(** [x in xs] on a list of strings. *)
Definition mem (x : string) (xs : list string) : bool :=
  existsb (String.eqb x) xs.

End PyStr.

(* ------------------------------------------------------------------ *)
(** ** Python floats *)

Module PyFloat.

Inductive pyfloat : Type :=
| Fin (q : Q)
| NaN.

Definition zero : pyfloat := Fin 0.

(** [x <= y]; every comparison with NaN is false. *)
Definition fle (x y : pyfloat) : bool :=
  match x, y with
  | Fin a, Fin b => Qle_bool a b
  | _, _ => false
  end.

(** [x < y] *)
Definition flt (x y : pyfloat) : bool :=
  match x, y with
  | Fin a, Fin b => negb (Qle_bool b a)
  | _, _ => false
  end.

(** [x + y] *)
Definition fadd (x y : pyfloat) : pyfloat :=
  match x, y with
  | Fin a, Fin b => Fin (a + b)
  | _, _ => NaN
  end.

(** [-x] *)
Definition fneg (x : pyfloat) : pyfloat :=
  match x with
  | Fin a => Fin (- a)
  | NaN => NaN
  end.

(** [x * y] *)
Definition fmul (x y : pyfloat) : pyfloat :=
  match x, y with
  | Fin a, Fin b => Fin (a * b)
  | _, _ => NaN
  end.

(** Truth value of a float: zero is falsy, NaN is truthy. *)
Definition truthy (x : pyfloat) : bool :=
  match x with
  | Fin a => negb (Qeq_bool a 0)
  | NaN => true
  end.

(** [x or 0.0] *)
Definition or_zero (x : pyfloat) : pyfloat :=
  if truthy x then x else zero.

(** [max(a, b)]: the builtin keeps its first argument unless a later one
    compares greater. *)
Definition pymax (a b : pyfloat) : pyfloat :=
  if flt a b then b else a.

(** [pd.notna(x)] *)
Definition notna (x : pyfloat) : bool :=
  match x with Fin _ => true | NaN => false end.

(** [x - y] *)
Definition fsub (x y : pyfloat) : pyfloat :=
  match x, y with
  | Fin a, Fin b => Fin (a - b)
  | _, _ => NaN
  end.

(** [x == y] *)
Definition feq (x y : pyfloat) : bool :=
  match x, y with
  | Fin a, Fin b => Qeq_bool a b
  | _, _ => false
  end.

(** The value is a number greater than zero. *)
Definition positive (x : pyfloat) : Prop := flt zero x = true.

End PyFloat.

Export PyFloat.

(* ------------------------------------------------------------------ *)
(** ** Exceptions and outcomes *)

(** The text of an exception: a literal, or one of the two formatted
  messages of the sources kept in structured form. *)
Inductive message : Type :=
| Text (s : string)
| MissingRequired (missing found : list string).
  (* f"Missing required columns: {missing}. Found: {list(df.columns)}" *)

Inductive exn : Type :=
| ValueError (m : message)
| AssertionError
| AttributeError (m : message)
| TypeError (m : message)
| KeyError (key : string)
| IOError (m : message)
| HTTPException (status_code : Z) (detail : exn).
  (* detail = f"Upload/parse error: {e}", kept as the wrapped [e] *)

Inductive outcome (A : Type) : Type :=
| Ok (a : A)
| Raise (e : exn).

Arguments Ok {A} a.
Arguments Raise {A} e.

Definition bind {A B : Type} (m : outcome A) (k : A -> outcome B) : outcome B :=
match m with
| Ok a => k a
| Raise e => Raise e
end.

Notation "x <- m ;; k" := (bind m (fun x => k))
(at level 61, m at next level, right associativity).

Definition raised {A : Type} (o : outcome A) : bool :=
match o with Ok _ => false | Raise _ => true end.

(** The two failures of the mutator, by the names the specification gives
  them; in the code both are [ValueError] and differ by their text. *)
Definition InvalidQuantity : exn := ValueError (Text "Quantity must be positive.").
Definition InsufficientShares : exn := ValueError (Text "Not enough shares to sell.").

(* ------------------------------------------------------------------ *)
(** ** pandas frames *)

Module Frame.

(** A cell of a sheet as [pd.read_excel] delivers it: a number, NaN for
    an empty cell, or a text. *)
Inductive cell : Type :=
| CFloat (x : pyfloat)
| CStr (s : string).

Definition missing : cell := CFloat NaN.

(** [pd.notna(c)] / [pd.isna(c)] *)
Definition cell_notna (c : cell) : bool :=
  match c with
  | CFloat x => notna x
  | CStr _ => true
  end.

(** Column labels (possibly repeated) and the rows, each row one cell per
    label. *)
Record DataFrame : Type := mkDF {
  columns : list string;
  rows : list (list cell)
}.

(** The uploaded bytes stand for what [pd.read_excel] makes of them: the
    frame of the first sheet, or the exception of an unreadable file. *)
Definition excel_bytes : Type := outcome DataFrame.

Definition read_excel (content : excel_bytes) : outcome DataFrame := content.

(** Element-wise library behaviour the sources rely on. *)
Record Pandas : Type := mkPandas {
  (** [pd.to_numeric(..., errors="coerce")] on a text: its number, NaN
      when the text is not numeric *)
  to_numeric_str : string -> pyfloat;
  (** [float(s)] on a text; [None] where Python raises [ValueError] *)
  float_of_str : string -> option pyfloat;
  (** [astype(str)] on a float element (the text of the number; for NaN
      the text "nan" or, in later versions, still a missing value) *)
  astype_str_float : pyfloat -> cell;
  (** [str(x)] on a float *)
  str_of_float : pyfloat -> string;
  (** [str(s)] on the sub-series a repeated label selects from a row *)
  str_of_series : list cell -> string;
  (** [x / y] in IEEE arithmetic (a zero divisor gives an infinity or NaN) *)
  fdiv : pyfloat -> pyfloat -> pyfloat
}.

(** Positions of the label [name] among [cols], counted from [i]. *)
Fixpoint indices (name : string) (cols : list string) (i : nat) : list nat :=
  match cols with
  | [] => []
  | c :: r =>
      if String.eqb c name then i :: indices name r (S i)
      else indices name r (S i)
  end.

(** [df[name]] / [row[name]]: a missing label, one column, or the
    sub-frame of a repeated label. *)
Inductive selection : Type :=
| NoColumn
| Series (i : nat)
| SubFrame (idx : list nat).

Definition getitem (name : string) (cols : list string) : selection :=
  match indices name cols 0 with
  | [] => NoColumn
  | [i] => Series i
  | idx => SubFrame idx
  end.

Definition cell_at (i : nat) (row : list cell) : cell := nth i row missing.

Fixpoint update_nth {A : Type} (i : nat) (f : A -> A) (l : list A) : list A :=
  match l, i with
  | [], _ => []
  | x :: r, O => f x :: r
  | x :: r, S j => x :: update_nth j f r
  end.

(** [df[c] = f(df[c])] for the single column at position [i]. *)
Definition map_col (i : nat) (f : cell -> cell) (rs : list (list cell))
  : list (list cell) :=
  map (update_nth i f) rs.

(** [.astype(str)], [.str.upper()], [.str.strip()] element by element; the
    [.str] accessor leaves a missing value missing. *)
Definition astype_str (L : Pandas) (c : cell) : cell :=
  match c with
  | CStr s => CStr s
  | CFloat x => astype_str_float L x
  end.

Definition str_upper (c : cell) : cell :=
  match c with
  | CStr s => CStr (PyStr.upper s)
  | CFloat _ => missing
  end.

Definition str_strip (c : cell) : cell :=
  match c with
  | CStr s => CStr (PyStr.strip s)
  | CFloat _ => missing
  end.

(** [pd.to_numeric(c, errors="coerce")] *)
Definition to_numeric (L : Pandas) (c : cell) : pyfloat :=
  match c with
  | CFloat x => x
  | CStr s => to_numeric_str L s
  end.

(** [.fillna(0.0)] *)
Definition fillna0 (x : pyfloat) : pyfloat :=
  if notna x then x else zero.

(** [str(c)] *)
Definition py_str (L : Pandas) (c : cell) : string :=
  match c with
  | CStr s => s
  | CFloat x => str_of_float L x
  end.

(** [float(c)] *)
Definition py_float (L : Pandas) (c : cell) : outcome pyfloat :=
  match c with
  | CFloat x => Ok x
  | CStr s =>
      match float_of_str L s with
      | Some x => Ok x
      | None => Raise (ValueError (Text "could not convert string to float"))
      end
  end.

(** A Python [dict] with text keys, in insertion order. *)
Definition dict : Type := list (string * string).

Fixpoint dict_get (d : dict) (k : string) : option string :=
  match d with
  | [] => None
  | (k', v) :: r => if String.eqb k' k then Some v else dict_get r k
  end.

(** [d[k] = v] *)
Fixpoint dict_set (d : dict) (k v : string) : dict :=
  match d with
  | [] => [(k, v)]
  | (k', v') :: r =>
      if String.eqb k' k then (k', v) :: r else (k', v') :: dict_set r k v
  end.

(** [df.rename(columns=d)]: labels that are keys of [d] are replaced. *)
Definition rename (d : dict) (cols : list string) : list string :=
  map (fun c => match dict_get d c with Some v => v | None => c end) cols.

End Frame.

Export Frame.

(* ------------------------------------------------------------------ *)
(** ** api/portfolio_actions.py *)

Module Actions.

(** Modelled from the spec: the ORM class [data.models.Position] is not
    among the sources.  The specification's data model gives it the four
    fields below, [ticker] being the key of the table and the two prices
    nullable. *)
Record Position : Type := mkPosition {
  ticker : string;
  qty : pyfloat;
  exec_price : option pyfloat;
  current_price : option pyfloat
}.

(** The committed content of the table, oldest row first. *)
Definition Table : Type := list Position.

Definition pyfloat_eq_dec (x y : pyfloat) : {x = y} + {x <> y}.
Proof.
  decide equality.
  destruct q as [a b], q0 as [c d].
  destruct (Z.eq_dec a c); [|right; congruence].
  destruct (Pos.eq_dec b d); [left|right]; congruence.
Defined.

Definition price_eq_dec (x y : option pyfloat) : {x = y} + {x <> y}.
Proof. decide equality. apply pyfloat_eq_dec. Defined.

Definition Position_eq_dec (p q : Position) : {p = q} + {p <> q}.
Proof.
  decide equality.
  - apply price_eq_dec.
  - apply price_eq_dec.
  - apply pyfloat_eq_dec.
  - apply string_dec.
Defined.

(* ---------- Query helpers ---------- *)

(** [ORDER BY ticker]: insertion into a list sorted by ticker. *)
Fixpoint insert_sorted (p : Position) (l : list Position) : list Position :=
  match l with
  | [] => [p]
  | q :: r =>
      if String.leb (ticker p) (ticker q) then p :: l
      else q :: insert_sorted p r
  end.

Definition list_positions (db : Table) : list Position :=
  fold_right insert_sorted [] db.

(** [db.scalar(select(Position).where(Position.ticker == ticker.upper()))]:
    the first row of the result. *)
Definition get_position (db : Table) (ticker_ : string) : option Position :=
  find (fun p => String.eqb (ticker p) (PyStr.upper ticker_)) db.

(* ---------- Mutations ---------- *)

(** The row object a query returned is the first row carrying its ticker;
    flushing a change to it rewrites that row, [db.delete] removes it. *)
Fixpoint update_row (t : string) (p' : Position) (db : Table) : Table :=
  match db with
  | [] => []
  | p :: r =>
      if String.eqb (ticker p) t then p' :: r else p :: update_row t p' r
  end.

Fixpoint delete_row (t : string) (db : Table) : Table :=
  match db with
  | [] => []
  | p :: r =>
      if String.eqb (ticker p) t then r else p :: delete_row t r
  end.

(** [x if x is not None else y] *)
Definition or_else {A : Type} (x y : option A) : option A :=
  match x with Some _ => x | None => y end.

Definition insert_position (db : Table) (ticker_ : string) (qty_delta : pyfloat)
    (exec_price_ current_price_ : option pyfloat) : Table * option Position :=
  let t := PyStr.upper ticker_ in
  match get_position db t with
  | None =>
      let pos := {| ticker := t;
                    qty := pymax qty_delta zero;
                    exec_price := or_else exec_price_ current_price_;
                    current_price := or_else current_price_ exec_price_ |} in
      (db ++ [pos], Some pos)
  | Some pos =>
      let key := ticker pos in
      let pos := {| ticker := ticker pos;
                    qty := fadd (or_zero (qty pos)) qty_delta;
                    exec_price := exec_price pos;
                    current_price := current_price pos |} in
      let pos := match exec_price_ with
                 | Some e => {| ticker := ticker pos; qty := qty pos;
                                exec_price := Some e;
                                current_price := current_price pos |}
                 | None => pos
                 end in
      let pos := match current_price_ with
                 | Some c => {| ticker := ticker pos; qty := qty pos;
                                exec_price := exec_price pos;
                                current_price := Some c |}
                 | None => pos
                 end in
      if fle (qty pos) zero
      then (delete_row key db, None)
      else (update_row key pos db, Some pos)
  end.

Definition buy_stock (db : Table) (ticker_ : string) (qty_ : pyfloat)
    (exec_price_ current_price_ : option pyfloat) : Table * outcome Position :=
  if fle qty_ zero then (db, Raise InvalidQuantity)
  else
    let '(db', pos) :=
      insert_position db ticker_ qty_ exec_price_ current_price_ in
    match pos with
    | None => (db', Raise AssertionError)
    | Some p => (db', Ok p)
    end.

Definition sell_stock (db : Table) (ticker_ : string) (qty_ : pyfloat)
    : Table * outcome (option Position) :=
  if fle qty_ zero then (db, Raise InvalidQuantity)
  else
    match get_position db ticker_ with
    | None => (db, Raise InsufficientShares)
    | Some pos =>
        if flt (or_zero (qty pos)) qty_ then (db, Raise InsufficientShares)
        else
          let '(db', r) := insert_position db ticker_ (fneg qty_) None None in
          (db', Ok r)
    end.

(* ---------- Excel ingestion ---------- *)

Definition RENAME : dict :=
  [ ("Ticker (RIC)", "ticker");
    ("Company Name", "company");
    ("quantity", "qty") ].

Definition required : list string := ["ticker"; "qty"].

Definition df_from_excel_bytes (L : Pandas) (content : excel_bytes)
    : outcome DataFrame :=
  df <- read_excel content ;;
  let d := filter (fun kv => PyStr.mem (fst kv) (columns df)) RENAME in
  let cols := rename d (columns df) in
  if negb (forallb (fun c => PyStr.mem c (map PyStr.lower cols)) required)
  then Raise (ValueError (Text "Excel must include columns: ticker, qty"))
  else
    let cols := map PyStr.lower cols in
    rs <- match getitem "ticker" cols with
          | Series i =>
              Ok (map_col i (fun c => str_upper (astype_str L c)) (rows df))
          | SubFrame _ =>
              Raise (AttributeError
                       (Text "'DataFrame' object has no attribute 'str'"))
          | NoColumn => Raise (KeyError "ticker")
          end ;;
    rs <- match getitem "qty" cols with
          | Series i =>
              Ok (map_col i (fun c => CFloat (fillna0 (to_numeric L c))) rs)
          | SubFrame _ =>
              Raise (TypeError
                       (Text "arg must be a list, tuple, 1-d array, or Series"))
          | NoColumn => Raise (KeyError "qty")
          end ;;
    Ok (mkDF cols rs).

(** [db.delete(p)] for a row object [p] of the table. *)
Fixpoint db_delete (p : Position) (db : Table) : Table :=
  match db with
  | [] => []
  | q :: r => if Position_eq_dec q p then r else q :: db_delete p r
  end.

(** [float(row[name]) if name in df.columns and pd.notna(row.get(name))
    else None] *)
Definition optional_price (L : Pandas) (name : string) (cols : list string)
    (row : list cell) : outcome (option pyfloat) :=
  match getitem name cols with
  | NoColumn => Ok None
  | Series i =>
      if cell_notna (cell_at i row)
      then x <- py_float L (cell_at i row) ;; Ok (Some x)
      else Ok None
  | SubFrame _ =>
      Raise (ValueError (Text "The truth value of a Series is ambiguous."))
  end.

(** The body of the loop over [df.iterrows()]. *)
Definition row_position (L : Pandas) (cols : list string) (row : list cell)
    : outcome Position :=
  t <- match getitem "ticker" cols with
       | NoColumn => Raise (KeyError "ticker")
       | Series i => Ok (PyStr.upper (py_str L (cell_at i row)))
       | SubFrame idx =>
           Ok (PyStr.upper
                 (str_of_series L (map (fun i => cell_at i row) idx)))
       end ;;
  q <- match getitem "qty" cols with
       | NoColumn => Raise (KeyError "qty")
       | Series i => py_float L (cell_at i row)
       | SubFrame _ =>
           Raise (TypeError (Text "cannot convert the series to float"))
       end ;;
  e <- optional_price L "exec_price" cols row ;;
  c <- optional_price L "current_price" cols row ;;
  Ok {| ticker := t; qty := q; exec_price := e; current_price := c |}.

Fixpoint row_positions (L : Pandas) (cols : list string)
    (rs : list (list cell)) : outcome (list Position) :=
  match rs with
  | [] => Ok []
  | row :: rest =>
      p <- row_position L cols row ;;
      ps <- row_positions L cols rest ;;
      Ok (p :: ps)
  end.

(** The table is cleared and committed first; the new rows are added and
    committed only when every row of the frame converted.  The rows are
    appended as they are: the key of the table is declared in
    [data.models], which is not among the sources, so what the final
    commit does with a frame that repeats a ticker is outside the
    embedding, and a statement that an import completes assumes the
    tickers of the frame distinct where it depends on it. *)
Definition load_df_into_db (L : Pandas) (db : Table) (df : DataFrame)
    : Table * outcome unit :=
  let db := fold_left (fun d p => db_delete p d) (list_positions db) db in
  match row_positions L (columns df) (rows df) with
  | Raise e => (db, Raise e)
  | Ok ps => (db ++ ps, Ok tt)
  end.

(** The import of an uploaded sheet into the ledger: the frame of
    [df_from_excel_bytes] handed to [load_df_into_db]. *)
Definition import_excel (L : Pandas) (db : Table) (content : excel_bytes)
    : Table * outcome unit :=
  match df_from_excel_bytes L content with
  | Raise e => (db, Raise e)
  | Ok df => load_df_into_db L db df
  end.

End Actions.

(* ------------------------------------------------------------------ *)
(** ** api/main.py *)

Module Api.

(** map your Excel headers to simple snake_case columns *)
Definition COL_RENAME : dict :=
  [ ("Ticker (RIC)", "ticker");
    ("Company Name", "company");
    ("qunatity", "qty");
    ("quantity", "qty");
    ("Sector", "sector");
    ("Execution Price", "exec_price");
    ("Current Price", "current_price");
    ("Daily Change (%)", "daily_change_pct");
    ("Change Since Traded (%)", "since_traded_pct") ].

Definition NUMERIC_COLS : list string :=
  ["qty"; "exec_price"; "current_price"; "daily_change_pct"; "since_traded_pct"].

(** The set [required], listed in a fixed order (the order in which Python
    walks the set only shows in the text of the error). *)
Definition required : list string :=
  ["ticker"; "qty"; "exec_price"; "current_price"].

(** [lower_map = {c.lower(): c for c in df.columns}] *)
Definition lower_map (cols : list string) : dict :=
  fold_left (fun d c => dict_set d (PyStr.lower c) c) cols [].

(** The loop over [COL_RENAME.items()] that fills [rename_map]. *)
Definition rename_map (cols : list string) : dict :=
  fold_left
    (fun d kv =>
       match dict_get (lower_map cols) (PyStr.lower (fst kv)) with
       | Some c => dict_set d c (snd kv)
       | None => d
       end)
    COL_RENAME [].

(** [missing = [c for c in required if c not in df.columns]] *)
Definition missing_columns (cols : list string) : list string :=
  filter (fun c => negb (PyStr.mem c cols)) required.

(** [for c in NUMERIC_COLS: if c in df.columns: df[c] = pd.to_numeric(...)] *)
Fixpoint coerce_numeric (L : Pandas) (names cols : list string)
    (rs : list (list cell)) : outcome (list (list cell)) :=
  match names with
  | [] => Ok rs
  | c :: rest =>
      match getitem c cols with
      | NoColumn => coerce_numeric L rest cols rs
      | Series i =>
          coerce_numeric L rest cols
            (map_col i (fun x => CFloat (to_numeric L x)) rs)
      | SubFrame _ =>
          Raise (TypeError
                   (Text "arg must be a list, tuple, 1-d array, or Series"))
      end
  end.

(** [df.dropna(subset=names)]: a row stays when none of the named cells is
    missing. *)
Definition dropna (names cols : list string) (rs : list (list cell))
    : list (list cell) :=
  filter
    (fun row =>
       forallb
         (fun c => forallb (fun i => cell_notna (cell_at i row))
                     (indices c cols 0))
         names)
    rs.

(** The float a coerced cell holds. *)
Definition num_of (c : cell) : pyfloat :=
  match c with
  | CFloat x => x
  | CStr _ => NaN
  end.

Fixpoint set_all {A : Type} (idx : list nat) (v : A) (l : list A) : list A :=
  match idx with
  | [] => l
  | i :: r => set_all r v (update_nth i (fun _ => v) l)
  end.

(** [df[name] = f(row)]: a new last column, or the overwriting of every
    column that carries the label already. *)
Definition assign (name : string) (f : list cell -> cell) (df : DataFrame)
    : DataFrame :=
  match indices name (columns df) 0 with
  | [] => mkDF (columns df ++ [name]) (map (fun r => r ++ [f r]) (rows df))
  | idx => mkDF (columns df) (map (fun r => set_all idx (f r) r) (rows df))
  end.

(** The value of the single column [name] in a row. *)
Definition value (name : string) (cols : list string) (row : list cell)
    : pyfloat :=
  match getitem name cols with
  | Series i => num_of (cell_at i row)
  | _ => NaN
  end.

Definition _load_excel_to_df (L : Pandas) (path : excel_bytes)
    : outcome DataFrame :=
  df <- read_excel path ;;
  let cols := rename (rename_map (columns df)) (columns df) in
  match missing_columns cols with
  | (_ :: _) as missing => Raise (ValueError (MissingRequired missing cols))
  | [] =>
      rs <- match getitem "ticker" cols with
            | Series i =>
                Ok (map_col i
                      (fun c => str_upper (str_strip (astype_str L c)))
                      (rows df))
            | SubFrame _ =>
                Raise (AttributeError
                         (Text "'DataFrame' object has no attribute 'str'"))
            | NoColumn => Raise (KeyError "ticker")
            end ;;
      rs <- coerce_numeric L NUMERIC_COLS cols rs ;;
      let rs := dropna ["ticker"; "qty"] cols rs in
      let df := mkDF cols rs in
      let df :=
        assign "market_value"
          (fun r => CFloat (fmul (value "qty" cols r)
                                 (value "current_price" cols r))) df in
      let cols' := columns df in
      let df :=
        assign "pnl_pct"
          (fun r =>
             CFloat (fmul
                       (fdiv L
                          (fadd (value "current_price" cols' r)
                                (fneg (value "exec_price" cols' r)))
                          (value "exec_price" cols' r))
                       (Fin 100))) df in
      Ok df
  end.

(** The multipart upload: whether writing the temporary copy succeeded, and
    the bytes. *)
Record UploadFile : Type := mkUpload {
  saved : outcome unit;
  content : excel_bytes
}.

(** [{"rows_loaded": n}] *)
Inductive response : Type :=
| RowsLoaded (n : nat).

(** [POST /portfolio/upload]; the state is the global [PORTFOLIO_DF]. *)
Definition upload_portfolio (L : Pandas) (PORTFOLIO_DF : option DataFrame)
    (file : UploadFile) : option DataFrame * outcome response :=
  match (_ <- saved file ;; _load_excel_to_df L (content file)) with
  | Ok df => (Some df, Ok (RowsLoaded (List.length (rows df))))
  | Raise e => (PORTFOLIO_DF, Raise (HTTPException 400 e))
  end.

(** [GET /health] *)
Definition health : list (string * string) := [("status", "ok")].

(** [df.empty]: one of the two axes has length zero. *)
Definition empty (df : DataFrame) : bool :=
  match columns df, rows df with
  | [], _ => true
  | _, [] => true
  | _, _ => false
  end.

(** A row of [df.to_dict(orient="records")]: the dict of label and cell,
    the later column of a repeated label overwriting the earlier. *)
Fixpoint record_set (d : list (string * cell)) (k : string) (v : cell)
    : list (string * cell) :=
  match d with
  | [] => [(k, v)]
  | (k', v') :: r =>
      if String.eqb k' k then (k', v) :: r else (k', v') :: record_set r k v
  end.

Definition to_record (cols : list string) (row : list cell)
    : list (string * cell) :=
  fold_left (fun d kv => record_set d (fst kv) (snd kv)) (combine cols row) [].

(** The handler of [GET /portfolio]: the value it returns under the key
    ["positions"]. *)
Definition get_portfolio (PORTFOLIO_DF : option DataFrame)
    : list (list (string * cell)) :=
  match PORTFOLIO_DF with
  | None => []
  | Some df =>
      if empty df then [] else map (to_record (columns df)) (rows df)
  end.

End Api.

(* ------------------------------------------------------------------ *)
(** ** agent/tools/tools.py *)

(** The tools are embedded by their bodies.  The argument schemas
    ([BuyArgs], [SellArgs]: [qty > 0]) are checked by the tool framework
    before a body runs; the session a body opens and closes reads and
    commits the table it is given. *)
Module Tools.

Import Actions.

Inductive json : Type :=
| JNull
| JStr (s : string)
| JNum (x : pyfloat).

Definition json_of_price (x : option pyfloat) : json :=
  match x with
  | Some v => JNum v
  | None => JNull
  end.

Definition _position_to_dict (p : option Position) : list (string * json) :=
  match p with
  | None => []
  | Some p =>
      [ ("ticker", JStr (ticker p));
        ("qty", JNum (qty p));
        ("exec_price", json_of_price (exec_price p));
        ("current_price", json_of_price (current_price p)) ]
  end.

Definition show_portfolio_tool (db : Table) : list (list (string * json)) :=
  map (fun p => _position_to_dict (Some p)) (list_positions db).

Definition buy_stock_tool (db : Table) (ticker_ : string) (qty_ : pyfloat)
    (exec_price_ current_price_ : option pyfloat)
    : Table * outcome (list (string * json)) :=
  let '(db', r) := buy_stock db ticker_ qty_ exec_price_ current_price_ in
  (db', pos <- r ;; Ok (_position_to_dict (Some pos))).

Definition sell_stock_tool (db : Table) (ticker_ : string) (qty_ : pyfloat)
    : Table * outcome (list (string * json)) :=
  let '(db', r) := sell_stock db ticker_ qty_ in
  (db', pos <- r ;;
        Ok (match pos with
            | Some _ => _position_to_dict pos
            | None => []
            end)).

(* ---------- web_search ---------- *)

(** What the selectors find in one [div.result]. *)
Record Anchor : Type := mkAnchor {
  href : option string;          (* the attribute, when the tag has one *)
  anchor_text : string           (* a.get_text(" ", strip=True) *)
}.

Record ResultDiv : Type := mkResultDiv {
  result__a : option Anchor;             (* select_one("a.result__a") *)
  a_result__snippet : option string;     (* text of a.result__snippet *)
  div_result__snippet : option string    (* text of div.result__snippet *)
}.

Record ParseResult : Type := mkParseResult {
  netloc : string;
  path : string;
  query : string
}.

(** The network and the libraries around [web_search_tool]. *)
Record Web : Type := mkWeb {
  (** [requests.post] followed by [raise_for_status]: the body, or the
      exception of a failed request *)
  post : string -> outcome string;
  (** [BeautifulSoup(text, "html.parser").select("div.result")]: the
      results of the page, or the exception the parser raises on markup it
      rejects *)
  select_results : string -> outcome (list ResultDiv);
  (** [urllib.parse.urlparse], which raises [ValueError] on a malformed
      network location *)
  urlparse : string -> outcome ParseResult;
  (** [urllib.parse.parse_qs] *)
  parse_qs : string -> list (string * list string);
  (** [urllib.parse.unquote] *)
  unquote : string -> string
}.

Record SearchResult : Type := mkSearchResult {
  title : string;
  url : string;
  snippet : string
}.

(** [s.endswith(suffix)] *)
Definition endswith (s suffix : string) : bool :=
  (String.length suffix <=? String.length s)%nat
  && String.eqb
       (substring (String.length s - String.length suffix)
                  (String.length suffix) s)
       suffix.

Fixpoint qs_get (qs : list (string * list string)) (k : string)
    : option (list string) :=
  match qs with
  | [] => None
  | (k', v) :: r => if String.eqb k' k then Some v else qs_get r k
  end.

(** The redirect unwrapping applied to one link. *)
Definition real_url (W : Web) (href_ : string) : outcome string :=
  parsed <- urlparse W href_ ;;
  if endswith (netloc parsed) "duckduckgo.com" && String.eqb (path parsed) "/l/"
  then
    match qs_get (parse_qs W (query parsed)) "uddg" with
    | Some (v :: _) => Ok (unquote W v)
    | _ => Ok href_
    end
  else Ok href_.

(** The loop over [soup.select("div.result")], with the list [results]
    built so far. *)
Fixpoint collect (W : Web) (max_results : Z) (divs : list ResultDiv)
    (results : list SearchResult) : outcome (list SearchResult) :=
  match divs with
  | [] => Ok results
  | result :: rest =>
      match result__a result with
      | None => collect W max_results rest results
      | Some a =>
          let href_ := match href a with Some h => h | None => "" end in
          let title_ := anchor_text a in
          let snippet_ :=
            match or_else (a_result__snippet result)
                          (div_result__snippet result) with
            | Some s => s
            | None => ""
            end in
          match real_url W href_ with
          | Raise e => Raise e
          | Ok u =>
              let results :=
                results ++ [ {| title := title_; url := u;
                                snippet := snippet_ |} ] in
              if (Z.of_nat (List.length results) >=? max_results)%Z
              then Ok results
              else collect W max_results rest results
          end
      end
  end.

(** The result carries the queries sent over the network, in order. *)
Definition web_search_tool (W : Web) (query_ : string) (num_results : Z)
    : list string * outcome (list SearchResult) :=
  if negb (PyStr.truthy query_) || negb (PyStr.truthy (PyStr.strip query_))
  then ([], Ok [])
  else
    match post W query_ with
    | Raise _ => ([query_], Ok [])
    | Ok text =>
        match select_results W text with
        | Raise e => ([query_], Raise e)
        | Ok divs =>
            let max_results := Z.max 1 (Z.min 10 num_results) in
            ([query_], collect W max_results divs [])
        end
    end.

End Tools.

(* ------------------------------------------------------------------ *)
(** ** agent/agent.py *)

(** The command line of the agent.  The language model and the tool loop
    behind [agent.invoke] are a parameter: a function from its state and the
    text to the new state and what the call does.  The terminal is the list
    of what the successive calls of [input] do; when it is used up, [input]
    raises [EOFError].  The prompt of [input] is not part of the printed
    lines. *)
Module Agent.

(** The exceptions of this module, with their texts. *)
Inductive failure : Type :=
| RuntimeError (msg : string)
| LibraryError (msg : string).

Inductive result (A : Type) : Type :=
| Done (a : A)
| Failed (f : failure).

Arguments Done {A} a.
Arguments Failed {A} f.

(** [str(e)] *)
Definition failure_text (f : failure) : string :=
  match f with
  | RuntimeError msg => msg
  | LibraryError msg => msg
  end.

(** The argument is [os.getenv("OPENAI_API_KEY")] once [load_dotenv] has
    run. *)
Definition _load_openai_key_from_env (OPENAI_API_KEY : option string)
    : result unit :=
  match OPENAI_API_KEY with
  | Some (String _ _) => Done tt
  | _ =>
      Failed (RuntimeError
        "OPENAI_API_KEY is not set. Add it to your environment or a .env file.")
  end.

(** What [get_agent] hands to [AgentExecutor]. *)
Record AgentExecutor : Type := mkAgentExecutor {
  model : string;
  temperature : pyfloat;
  tools : list string;            (* the names of the tools *)
  verbose : bool;
  handle_parsing_errors : bool;
  max_iterations : Z
}.

(** [built] is what the constructors of the libraries do ([ChatOpenAI],
    the prompt, [create_openai_tools_agent], [AgentExecutor]): they return
    or raise. *)
Definition get_agent (OPENAI_API_KEY : option string) (built : result unit)
    (model_ : string) (temperature_ : pyfloat) : result AgentExecutor :=
  match _load_openai_key_from_env OPENAI_API_KEY with
  | Failed f => Failed f
  | Done _ =>
      match built with
      | Failed f => Failed f
      | Done _ =>
          Done {| model := model_;
                  temperature := temperature_;
                  tools := ["show_portfolio"; "buy_stock"; "sell_stock"];
                  verbose := true;
                  handle_parsing_errors := true;
                  max_iterations := 6 |}
      end
  end.

(** A call of [input]: a line, or [KeyboardInterrupt] / [EOFError]. *)
Inductive event : Type :=
| Line (s : string)
| Interrupt.

(** A call of [agent.invoke]: the text of its output, an [Exception] with
    its text, or an exception the loop does not catch
    ([KeyboardInterrupt]). *)
Inductive reply : Type :=
| Answer (output : string)
| Error (msg : string)
| Abort.

(** What a session did: the texts given to the agent, the lines printed,
    and whether it ended by an exception leaving [run_cli]. *)
Record Session : Type := mkSession {
  asked : list string;
  printed : list string;
  escaped : bool
}.

Definition ask (user_input line : string) (s : Session) : Session :=
  {| asked := user_input :: asked s;
     printed := line :: printed s;
     escaped := escaped s |}.

(** The [while True] loop of [run_cli]. *)
Fixpoint loop {S : Type} (invoke : S -> string -> S * reply) (st : S)
    (terminal : list event) : Session :=
  match terminal with
  | [] => {| asked := []; printed := [""]; escaped := false |}
  | Interrupt :: _ => {| asked := []; printed := [""]; escaped := false |}
  | Line s :: rest =>
      let user_input := PyStr.strip s in
      if PyStr.mem (PyStr.lower user_input) ["exit"; "quit"]
      then {| asked := []; printed := []; escaped := false |}
      else if negb (PyStr.truthy user_input)
      then loop invoke st rest
      else
        match invoke st user_input with
        | (st', Answer output) =>
            ask user_input ("Agent> " ++ output) (loop invoke st' rest)
        | (st', Error msg) =>
            ask user_input ("Agent error: " ++ msg) (loop invoke st' rest)
        | (_, Abort) =>
            {| asked := [user_input]; printed := []; escaped := true |}
        end
  end.

Definition run_cli {S : Type} (OPENAI_API_KEY : option string)
    (built : result unit) (invoke : S -> string -> S * reply) (st : S)
    (terminal : list event) : Session :=
  let banner := "Finsight Assistant - type 'exit' to quit" in
  match get_agent OPENAI_API_KEY built "gpt-4" zero with
  | Failed f =>
      {| asked := [];
         printed := [banner;
                     ("Failed to initialize agent: " ++ failure_text f)%string];
         escaped := false |}
  | Done _ =>
      let s := loop invoke st terminal in
      {| asked := asked s; printed := banner :: printed s;
         escaped := escaped s |}
  end.

End Agent.

(* ------------------------------------------------------------------ *)
(** ** Library behaviour used by the worked examples *)

(** The core of CPython's [urllib.parse.urlsplit] and [urlparse] on ASCII
    text: scheme, network location with its bracket check, fragment, query
    and path parameters.  The sanitising of control characters that recent
    versions add in front of it is left out. *)
Module UrlLib.

Import Tools.

Fixpoint find_char (c : ascii) (s : string) : option nat :=
  match s with
  | EmptyString => None
  | String d r =>
      if Ascii.eqb d c then Some 0%nat else option_map S (find_char c r)
  end.

Definition has (c : ascii) (s : string) : bool :=
  match find_char c s with Some _ => true | None => false end.

Definition take (n : nat) (s : string) : string := substring 0 n s.

Definition drop (n : nat) (s : string) : string :=
  substring n (String.length s - n) s.

Fixpoint forall_chars (f : ascii -> bool) (s : string) : bool :=
  match s with
  | EmptyString => true
  | String c r => f c && forall_chars f r
  end.

Definition is_alpha (c : ascii) : bool := PyStr.is_lower c || PyStr.is_upper c.

Definition is_digit (c : ascii) : bool :=
  ((48 <=? N_of_ascii c) && (N_of_ascii c <=? 57))%N.

Definition scheme_chars (c : ascii) : bool :=
  is_alpha c || is_digit c
  || Ascii.eqb c "+" || Ascii.eqb c "-" || Ascii.eqb c ".".

Definition split_scheme (url_ : string) : string * string :=
  match find_char ":" url_, url_ with
  | Some (S i), String c0 _ =>
      if is_alpha c0 && forall_chars scheme_chars (take (S i) url_)
      then (PyStr.lower (take (S i) url_), drop (S (S i)) url_)
      else ("", url_)
  | _, _ => ("", url_)
  end.

(** [_splitnetloc]: the text up to the first of [/], [?] and [#]. *)
Fixpoint span_netloc (s : string) : string * string :=
  match s with
  | EmptyString => ("", "")
  | String c r =>
      if Ascii.eqb c "/" || Ascii.eqb c "?" || Ascii.eqb c "#" then ("", s)
      else let '(a, b) := span_netloc r in (String c a, b)
  end.

(** [s.split(c, 1)] for a text that holds [c]. *)
Definition split1 (c : ascii) (s : string) : string * string :=
  match find_char c s with
  | Some i => (take i s, drop (S i) s)
  | None => (s, "")
  end.

(** Index of the last [c] of [s]. *)
Fixpoint rfind (c : ascii) (s : string) : option nat :=
  match s with
  | EmptyString => None
  | String d r =>
      match rfind c r with
      | Some i => Some (S i)
      | None => if Ascii.eqb d c then Some 0%nat else None
      end
  end.

Definition uses_params : list string :=
  [""; "ftp"; "hdl"; "prospero"; "http"; "imap"; "https"; "shttp"; "rtsp";
   "rtspu"; "sip"; "sips"; "mms"; "sftp"; "tel"].

(** [_splitparams], keeping the path. *)
Definition strip_params (p : string) : string :=
  match rfind "/" p with
  | Some k =>
      match find_char ";" (drop k p) with
      | Some j => take (k + j) p
      | None => p
      end
  | None =>
      match find_char ";" p with
      | Some j => take j p
      | None => p
      end
  end.

Definition urlparse (url_ : string) : outcome ParseResult :=
  let '(scheme, rest) := split_scheme url_ in
  nr <- (if String.eqb (take 2 rest) "//"
         then
           let '(nl, r) := span_netloc (drop 2 rest) in
           if (has "[" nl && negb (has "]" nl))
              || (has "]" nl && negb (has "[" nl))
           then Raise (ValueError (Text "Invalid IPv6 URL"))
           else Ok (nl, r)
         else Ok ("", rest)) ;;
  let '(nl, r) := nr in
  let r := if has "#" r then fst (split1 "#" r) else r in
  let '(p, q) := if has "?" r then split1 "?" r else (r, "") in
  let p := if PyStr.mem scheme uses_params && has ";" p
           then strip_params p else p in
  Ok {| netloc := nl; path := p; query := q |}.

(** [parse_qs] on a query string without escapes and without empty
    values: the fields between [&], each split at its first [=]. *)
Fixpoint split_all (c : ascii) (s : string) (fuel : nat) : list string :=
  match fuel with
  | O => [s]
  | S n =>
      match find_char c s with
      | Some i => take i s :: split_all c (drop (S i) s) n
      | None => [s]
      end
  end.

Definition parse_qs (q : string) : list (string * list string) :=
  map (fun kv => let '(k, v) := split1 "=" kv in (k, [v]))
      (split_all "&" q (String.length q)).

(** A network that answers every request with a page whose results are
    [divs]. *)
Definition serving (divs : list ResultDiv) : Web :=
  {| post := fun _ => Ok "";
     select_results := fun _ => Ok divs;
     Tools.urlparse := urlparse;
     Tools.parse_qs := parse_qs;
     unquote := fun s => s |}.

End UrlLib.

(** pandas on the cells the worked examples hold: a text of decimal digits
    is numeric, every other text is not; [astype(str)] and [str] give a
    missing cell the text "nan".  The text of a number, the text of a
    sub-series and a division by zero occur in no example; their entries
    only complete the record. *)
Module PandasLib.

Definition digit_value (c : ascii) : option Z :=
  if UrlLib.is_digit c then Some (Z.of_N (N_of_ascii c) - 48)%Z else None.

Fixpoint digits (s : string) (acc : Z) : option Z :=
  match s with
  | EmptyString => Some acc
  | String c r =>
      match digit_value c with
      | Some d => digits r (10 * acc + d)%Z
      | None => None
      end
  end.

Definition number (s : string) : option pyfloat :=
  match s with
  | EmptyString => None
  | _ => option_map (fun z => Fin (inject_Z z)) (digits s 0%Z)
  end.

Definition str_of_float (x : pyfloat) : string :=
  match x with
  | NaN => "nan"
  | Fin _ => "<float>"
  end.

Definition pandas : Pandas :=
  {| to_numeric_str := fun s => match number s with Some x => x | None => NaN end;
     float_of_str := number;
     astype_str_float := fun x => CStr (str_of_float x);
     Frame.str_of_float := str_of_float;
     str_of_series := fun _ => "<series>";
     fdiv := fun x y =>
               match x, y with
               | Fin a, Fin b => if Qeq_bool b 0 then NaN else Fin (a / b)
               | _, _ => NaN
               end |}.

End PandasLib.

(* ================================================================== *)
(** * Vocabulary of the statements *)

Import Actions.

(** Modelled from the spec: the declaration of the table is not among the
    sources; the specification's data model makes [ticker] its unique key.
    The embedding does not build the constraint in: a property that needs
    it assumes [key_unique]. *)
Definition key_unique (db : Table) : Prop := NoDup (map ticker db).

(** The invariant of the data model: every row holds a quantity above
    zero. *)
Definition all_positive (db : Table) : Prop :=
  Forall (fun p => positive (qty p)) db.

(** The row [insert_position] computes for a ticker that is held. *)
Definition adjusted (p : Position) (d : pyfloat) (e c : option pyfloat)
    : Position :=
  {| ticker := ticker p;
     qty := fadd (or_zero (qty p)) d;
     exec_price := or_else e (exec_price p);
     current_price := or_else c (current_price p) |}.

(** The public operations on the ledger. *)
Inductive op : Type :=
| Buy (t : string) (q : pyfloat) (e c : option pyfloat)
| Sell (t : string) (q : pyfloat)
| Import (content : excel_bytes).

(** The table an operation leaves, whether it completed or raised. *)
Definition run_op (L : Pandas) (db : Table) (o : op) : Table :=
  match o with
  | Buy t q e c => fst (buy_stock db t q e c)
  | Sell t q => fst (sell_stock db t q)
  | Import content => fst (import_excel L db content)
  end.

Definition run (L : Pandas) (db : Table) (ops : list op) : Table :=
  fold_left (run_op L) ops db.

(** The cells of the one column labelled [name]. *)
Definition column_cells (name : string) (df : DataFrame) : list cell :=
  match getitem name (columns df) with
  | Series i => map (cell_at i) (rows df)
  | _ => []
  end.

(** Every quantity of the normalised sheet is a number above zero. *)
Definition sheet_positive (L : Pandas) (content : excel_bytes) : Prop :=
  forall df, df_from_excel_bytes L content = Ok df ->
    Forall (fun c => exists x, c = CFloat x /\ positive x)
           (column_cells "qty" df).

(** Trades with a number for quantity, imports of sheets with quantities
    above zero. *)
Definition admissible (L : Pandas) (o : op) : Prop :=
  match o with
  | Buy _ q _ _ => notna q = true
  | Sell _ q => notna q = true
  | Import content => sheet_positive L content
  end.

(** A ledger of one holding, for the worked examples. *)
Definition aapl (q : Q) : Position :=
  {| ticker := "AAPL"; qty := Fin q;
     exec_price := Some (Fin 150); current_price := Some (Fin 160) |}.

(** The tickers of a frame as [load_df_into_db] reads them: the texts of
    the ticker column, upper-cased. *)
Definition frame_tickers (L : Pandas) (df : DataFrame) : list string :=
  map (fun c => PyStr.upper (py_str L c)) (column_cells "ticker" df).

(** Sheets for the worked examples: a quantity that is no number, a
    negative quantity, and a well-formed sheet with prices. *)
Definition unfilled_sheet : excel_bytes :=
  Ok (mkDF ["Ticker (RIC)"; "quantity"] [[CStr "aapl"; CStr "n/a"]]).

Definition short_sheet : excel_bytes :=
  Ok (mkDF ["ticker"; "qty"] [[CStr "AAPL"; CFloat (Fin (-10))]]).

Definition priced_sheet : excel_bytes :=
  Ok (mkDF ["Ticker (RIC)"; "quantity"; "Exec_Price"; "Current_Price"]
        [[CStr "aapl"; CFloat (Fin 10); CFloat (Fin 150); CFloat (Fin 160)];
         [CStr "msft"; CStr "4"; CFloat NaN; CStr "310"]]).

(** A frame as pandas keeps it: every row has one cell per label. *)
Definition rectangular (df : DataFrame) : Prop :=
  Forall (fun r => List.length r = List.length (columns df)) (rows df).

(** The two normalisations of a ticker cell and the coercion of a numeric
    cell, as the specification words them. *)
Definition trimmed_upper (L : Pandas) (c : cell) : cell :=
  str_upper (str_strip (astype_str L c)).

Definition upper_only (L : Pandas) (c : cell) : cell :=
  str_upper (astype_str L c).

Definition coerced (L : Pandas) (c : cell) : cell :=
  CFloat (to_numeric L c).

Definition coerced_or_zero (L : Pandas) (c : cell) : cell :=
  CFloat (fillna0 (to_numeric L c)).

(** The frame of the full pipeline against the sheet [raw]: rows of the
    sheet, in their order, each with its ticker trimmed and upper-cased and
    every numeric column coerced.  A row whose quantity is missing after
    the coercion is not among them; a row whose ticker cell holds a text
    and whose quantity is a number after the coercion is.  (Of a row whose
    ticker cell is empty the form says nothing.) *)
Definition full_normal_form (L : Pandas) (raw df : DataFrame) : Prop :=
  exists it iq (keep : list cell -> bool),
    getitem "ticker" (columns df) = Series it
    /\ getitem "qty" (columns df) = Series iq
    /\ (forall r0, cell_notna (coerced L (cell_at iq r0)) = false ->
          keep r0 = false)
    /\ (forall r0 s, cell_at it r0 = CStr s ->
          cell_notna (coerced L (cell_at iq r0)) = true -> keep r0 = true)
    /\ Forall2
         (fun r0 r =>
            cell_at it r = trimmed_upper L (cell_at it r0)
            /\ forall c i, In c Api.NUMERIC_COLS ->
                 getitem c (columns df) = Series i ->
                 cell_at i r = coerced L (cell_at i r0))
         (filter keep (rows raw))
         (rows df).

(** The frame of the minimal path against the sheet [raw]: row for row the
    sheet, with the ticker upper-cased, the quantity coerced and a missing
    one replaced by zero, every other cell as read. *)
Definition minimal_normal_form (L : Pandas) (raw df : DataFrame) : Prop :=
  exists it iq,
    getitem "ticker" (columns df) = Series it
    /\ getitem "qty" (columns df) = Series iq
    /\ Forall2
         (fun r0 r =>
            cell_at it r = upper_only L (cell_at it r0)
            /\ cell_at iq r = coerced_or_zero L (cell_at iq r0)
            /\ forall i, i <> it -> i <> iq -> cell_at i r = cell_at i r0)
         (rows raw)
         (rows df).

(** The row of the coercion loop of [_load_excel_to_df]. *)
Definition coerce_step (L : Pandas) (cols : list string) (r : list cell)
    (c : string) : list cell :=
  match getitem c cols with
  | Series i => update_nth i (coerced L) r
  | _ => r
  end.

Definition coerce_row (L : Pandas) (names cols : list string)
    (r : list cell) : list cell :=
  fold_left (coerce_step L cols) names r.

Definition other_sheet : excel_bytes :=
  Ok (mkDF ["ticker"; "qty"] [[CStr "tsla"; CFloat (Fin 7)]]).

(** A sheet both importers accept: a ticker to trim, a quantity that is no
    number, an empty quantity. *)
Definition mixed_sheet : DataFrame :=
  mkDF ["Ticker (RIC)"; "quantity"; "exec_price"; "current_price"]
    [[CStr " aapl "; CStr "10"; CFloat (Fin 150); CStr "160"];
     [CStr "msft"; CStr "n/a"; CFloat (Fin 300); CFloat (Fin 310)];
     [CStr "tsla"; CFloat NaN; CStr "-"; CFloat (Fin 200)]].

(** A sheet with a ticker to trim, a quantity that is no number, and a row
    whose ticker cell is empty. *)
Definition gapped_sheet : DataFrame :=
  mkDF ["Ticker (RIC)"; "quantity"; "exec_price"; "current_price"]
    [[CStr " aapl "; CStr "10"; CFloat (Fin 150); CStr "160"];
     [CStr "msft"; CStr "n/a"; CFloat (Fin 300); CFloat (Fin 310)];
     [CFloat NaN; CFloat (Fin 3); CFloat (Fin 20); CFloat (Fin 21)]].

(** The header after the resolution of the aliases, on each path. *)
Definition resolved_full (raw : DataFrame) : list string :=
  rename (Api.rename_map (columns raw)) (columns raw).

Definition resolved_minimal (raw : DataFrame) : list string :=
  map PyStr.lower
    (rename (filter (fun kv => PyStr.mem (fst kv) (columns raw)) RENAME)
       (columns raw)).

(** [SchemaError] of the specification: the [ValueError] of the check of
    the required columns, on each path. *)
Definition schema_error_full (o : outcome DataFrame) : Prop :=
  exists missing found, o = Raise (ValueError (MissingRequired missing found)).

Definition schema_error_minimal (o : outcome DataFrame) : Prop :=
  o = Raise (ValueError (Text "Excel must include columns: ticker, qty")).

(** Sheets with a misspelt and with no quantity column. *)
Definition typo_sheet : DataFrame :=
  mkDF ["TICKER (RIC)"; "Qunatity"; "execution price"; "Current Price"]
    [[CStr "aapl"; CFloat (Fin 10); CFloat (Fin 150); CFloat (Fin 160)]].

Definition no_quantity_sheet : DataFrame :=
  mkDF ["Ticker (RIC)"; "Execution Price"; "Current Price"]
    [[CStr "aapl"; CFloat (Fin 150); CFloat (Fin 160)]].

(** A result whose link has an unbalanced bracket. *)
Definition bracket_result : Tools.ResultDiv :=
  Tools.mkResultDiv (Some (Tools.mkAnchor (Some "//[") "Rocq")) None None.

Definition redirect_result : Tools.ResultDiv :=
  Tools.mkResultDiv
    (Some (Tools.mkAnchor
             (Some "//duckduckgo.com/l/?uddg=https://rocq-prover.org/&rut=0")
             "Rocq"))
    None (Some "The Rocq prover").

(* ================================================================== *)
(** * Vocabulary of the further properties *)

(** The order [list_positions] asks the database for. *)
Definition ticker_le (p q : Position) : Prop :=
  String.leb (ticker p) (ticker q) = true.

(** Every ticker of the table is in upper case. *)
Definition all_upper (db : Table) : Prop :=
  Forall (fun p => PyStr.upper (ticker p) = ticker p) db.

(** Trades, and imports of sheets whose tickers are distinct. *)
Definition keyed (L : Pandas) (o : op) : Prop :=
  match o with
  | Import content =>
      forall df, df_from_excel_bytes L content = Ok df ->
        NoDup (frame_tickers L df)
  | _ => True
  end.

(** The titles, in page order, of the results that carry a link. *)
Definition linked_titles (divs : list Tools.ResultDiv) : list string :=
  flat_map
    (fun d => match Tools.result__a d with
              | Some a => [Tools.anchor_text a]
              | None => []
              end)
    divs.

(** Every link of the page is one [urlparse] accepts. *)
Definition links_parse (W : Tools.Web) (divs : list Tools.ResultDiv) : Prop :=
  forall d a, In d divs -> Tools.result__a d = Some a ->
    exists r,
      Tools.urlparse W (match Tools.href a with Some h => h | None => "" end)
      = Ok r.

(** A page with a result without a link and three with one. *)
Definition sample_page : list Tools.ResultDiv :=
  [ Tools.mkResultDiv None (Some "an advertisement") None;
    redirect_result;
    Tools.mkResultDiv
      (Some (Tools.mkAnchor (Some "https://example.org/") "Example"))
      None None;
    redirect_result ].

(** The word ends the session of the command line. *)
Definition leaves (s : string) : bool :=
  PyStr.mem (PyStr.lower (PyStr.strip s)) ["exit"; "quit"].

(** The lines of a terminal, trimmed, that are not blank. *)
Fixpoint questions (terminal : list Agent.event) : list string :=
  match terminal with
  | [] => []
  | Agent.Interrupt :: rest => questions rest
  | Agent.Line s :: rest =>
      if PyStr.truthy (PyStr.strip s) then PyStr.strip s :: questions rest
      else questions rest
  end.

(** A terminal that is only lines, none of them ending the session. *)
Definition uninterrupted (terminal : list Agent.event) : Prop :=
  Forall (fun ev => match ev with
                    | Agent.Line s => leaves s = false
                    | Agent.Interrupt => False
                    end) terminal.

(** An agent that answers or fails, and echoes what it is asked. *)
Definition echo (n : nat) (u : string) : nat * Agent.reply :=
  (Datatypes.S n,
   if String.eqb u "fail" then Agent.Error "no model" else Agent.Answer u).

(** A sheet with the headers of the full pipeline in another case. *)
Definition shouted_sheet : DataFrame :=
  mkDF ["TICKER (RIC)"; "QUANTITY"; "Execution price"; "CURRENT PRICE"; "Notes"]
    [[CStr "aapl"; CFloat (Fin 2); CFloat (Fin 100); CFloat (Fin 110);
      CStr "core"];
     [CStr "msft"; CFloat (Fin 3); CFloat (Fin 0); CFloat NaN; CStr ""]].

(* ================================================================== *)
(** * Properties *)

(* ------------------------------------------------------------------ *)
(** ** Strings and floats *)

Lemma upper_char_idempotent (c : ascii) :
  PyStr.upper_char (PyStr.upper_char c) = PyStr.upper_char c.
Proof.
  destruct c as [[] [] [] [] [] [] [] []]; reflexivity.
Qed.

Lemma upper_idempotent (s : string) :
  PyStr.upper (PyStr.upper s) = PyStr.upper s.
Proof.
  induction s as [|c r IH]; simpl.
  - reflexivity.
  - now rewrite upper_char_idempotent, IH.
Qed.

Lemma strip_blank (s : string) :
  PyStr.all_space s = true -> PyStr.strip s = EmptyString.
Proof.
  unfold PyStr.strip.
  induction s as [|c r IH]; simpl; intros H.
  - reflexivity.
  - apply andb_true_iff in H as [Hc Hr]. rewrite Hc. now apply IH.
Qed.

Lemma positive_inv (x : pyfloat) :
  positive x -> exists a, x = Fin a /\ (0 < a)%Q.
Proof.
  unfold positive, flt, zero. destruct x as [a|]; [|discriminate].
  intros H. exists a. split; [reflexivity|].
  apply negb_true_iff in H.
  destruct (Qlt_le_dec 0 a) as [Hlt|Hle]; [exact Hlt|].
  apply Qle_bool_iff in Hle. congruence.
Qed.

Lemma positive_Fin (a : Q) : (0 < a)%Q -> positive (Fin a).
Proof.
  intros H. unfold positive, flt, zero. apply negb_true_iff.
  destruct (Qle_bool a 0) eqn:E; [|reflexivity].
  apply Qle_bool_iff in E. lra.
Qed.

Lemma Qle_bool_false (a b : Q) : Qle_bool a b = false <-> (b < a)%Q.
Proof.
  split; intros H.
  - destruct (Qlt_le_dec b a) as [Hlt|Hle]; [exact Hlt|].
    apply Qle_bool_iff in Hle. congruence.
  - destruct (Qle_bool a b) eqn:E; [|reflexivity].
    apply Qle_bool_iff in E. lra.
Qed.

Lemma Qeq_bool_false (a b : Q) : Qeq_bool a b = false <-> ~ (a == b)%Q.
Proof.
  split; intros H.
  - intros E. apply Qeq_bool_iff in E. congruence.
  - destruct (Qeq_bool a b) eqn:E; [|reflexivity].
    apply Qeq_bool_iff in E. contradiction.
Qed.

(** Boolean comparisons of finite floats, read as order facts on [Q]. *)
Ltac float_facts :=
  repeat match goal with
    | H : positive _ |- _ =>
        apply positive_inv in H; destruct H as (? & ? & ?); subst
    | H : negb _ = true |- _ => apply negb_true_iff in H
    | H : negb _ = false |- _ => apply negb_false_iff in H
    | H : Qle_bool _ _ = true |- _ => apply Qle_bool_iff in H
    | H : Qle_bool _ _ = false |- _ => apply Qle_bool_false in H
    | H : Qeq_bool _ _ = true |- _ => apply Qeq_bool_iff in H
    | H : Qeq_bool _ _ = false |- _ => apply Qeq_bool_false in H
    end.

Lemma or_zero_positive (x : pyfloat) : positive x -> or_zero x = x.
Proof.
  intros H. float_facts. unfold or_zero, truthy.
  destruct (Qeq_bool x0 0) eqn:E; [|reflexivity].
  float_facts. lra.
Qed.

Lemma pymax_positive (x : pyfloat) : positive x -> pymax x zero = x.
Proof.
  intros H. float_facts. unfold pymax, flt, zero.
  destruct (Qle_bool 0 x0) eqn:E; [reflexivity|].
  float_facts. lra.
Qed.

Lemma positive_not_le (x : pyfloat) : positive x -> fle x zero = false.
Proof.
  intros H. float_facts. unfold fle, zero.
  apply Qle_bool_false. assumption.
Qed.

Lemma positive_add (x y : pyfloat) :
  positive x -> positive y -> positive (fadd x y).
Proof.
  intros Hx Hy. float_facts. simpl. apply positive_Fin. lra.
Qed.

(** [(x or 0.0) < s] decides as [x < s] does. *)
Lemma flt_or_zero (x s : pyfloat) : flt (or_zero x) s = flt x s.
Proof.
  unfold or_zero, truthy. destruct x as [a|]; [|reflexivity].
  destruct (Qeq_bool a 0) eqn:E; simpl; [|reflexivity].
  destruct s as [b|]; simpl; [|reflexivity].
  float_facts. f_equal.
  destruct (Qle_bool b 0) eqn:E0, (Qle_bool b a) eqn:E1;
    try reflexivity; float_facts; lra.
Qed.

(** What is left of a holding after a smaller sale stays on the books. *)
Lemma remainder_positive (x s : pyfloat) :
  flt s x = true -> positive (fadd x (fneg s)).
Proof.
  destruct x as [a|], s as [b|]; simpl; try discriminate.
  intros H. float_facts. apply positive_Fin. lra.
Qed.

Lemma remainder_closed (x s : pyfloat) :
  feq s x = true -> fle (fadd x (fneg s)) zero = true.
Proof.
  destruct x as [a|], s as [b|]; simpl; try discriminate.
  intros H. float_facts. apply Qle_bool_iff. lra.
Qed.

Lemma feq_not_lt (x s : pyfloat) : feq s x = true -> flt x s = false.
Proof.
  destruct x as [a|], s as [b|]; simpl; try discriminate.
  intros H. float_facts. apply negb_false_iff, Qle_bool_iff. lra.
Qed.

Lemma flt_asym (x s : pyfloat) : flt s x = true -> flt x s = false.
Proof.
  destruct x as [a|], s as [b|]; simpl; try discriminate.
  intros H. float_facts. apply negb_false_iff, Qle_bool_iff. lra.
Qed.

(* ------------------------------------------------------------------ *)
(** ** The table: queries, row updates, the key *)

Lemma get_position_upper (db : Table) (t : string) :
  get_position db (PyStr.upper t) = get_position db t.
Proof. unfold get_position. now rewrite upper_idempotent. Qed.

Lemma get_position_some (db : Table) (t : string) (p : Position) :
  get_position db t = Some p -> In p db /\ ticker p = PyStr.upper t.
Proof.
  unfold get_position. intros H. apply find_some in H as [Hin Heq].
  apply String.eqb_eq in Heq. now split.
Qed.

Lemma get_position_none (db : Table) (t : string) :
  get_position db t = None <-> ~ In (PyStr.upper t) (map ticker db).
Proof.
  unfold get_position. split.
  - intros H Hin. apply in_map_iff in Hin as (p & Hp & Hin).
    apply (find_none _ _ H) in Hin. apply String.eqb_neq in Hin. congruence.
  - intros H. induction db as [|p r IH]; simpl; [reflexivity|].
    destruct (String.eqb_spec (ticker p) (PyStr.upper t)) as [E|E].
    + exfalso. apply H. simpl. now left.
    + apply IH. intros Hin. apply H. simpl. now right.
Qed.

Lemma get_position_app_new (db : Table) (t : string) (p : Position) :
  get_position db t = None -> ticker p = PyStr.upper t ->
  get_position (db ++ [p]) t = Some p.
Proof.
  unfold get_position. intros Hn Ht.
  induction db as [|q r IH]; simpl in *.
  - rewrite Ht, String.eqb_refl. reflexivity.
  - destruct (String.eqb (ticker q) (PyStr.upper t)); [discriminate|].
    now apply IH.
Qed.

Lemma get_position_update (db : Table) (t : string) (p p' : Position) :
  get_position db t = Some p -> ticker p' = ticker p ->
  get_position (update_row (ticker p) p' db) t = Some p'.
Proof.
  intros Hg Ht. pose proof (get_position_some _ _ _ Hg) as [_ Hk].
  rewrite Hk. unfold get_position in *.
  induction db as [|q r IH]; simpl in *; [discriminate|].
  destruct (String.eqb (ticker q) (PyStr.upper t)) eqn:E; simpl.
  - rewrite Ht, Hk, String.eqb_refl. reflexivity.
  - rewrite E. now apply IH.
Qed.

Lemma get_position_delete (db : Table) (t : string) (p : Position) :
  key_unique db -> get_position db t = Some p ->
  get_position (delete_row (ticker p) db) t = None.
Proof.
  intros Hu Hg. pose proof (get_position_some _ _ _ Hg) as [_ Hk].
  rewrite Hk. clear Hk. unfold get_position, key_unique in *.
  induction db as [|q r IH]; simpl in *; [discriminate|].
  inversion Hu as [|? ? Hnotin Hu']; subst.
  destruct (String.eqb (ticker q) (PyStr.upper t)) eqn:E; simpl.
  - apply String.eqb_eq in E. rewrite E in Hnotin.
    now apply get_position_none.
  - rewrite E. now apply IH.
Qed.

Lemma update_row_other (k : string) (p' : Position) (db : Table) (t : string) :
  ticker p' = k -> PyStr.upper t <> k ->
  get_position (update_row k p' db) t = get_position db t.
Proof.
  intros Hk Hne. unfold get_position.
  induction db as [|q r IH]; simpl; [reflexivity|].
  destruct (String.eqb_spec (ticker q) k) as [E|E]; simpl.
  - rewrite Hk, E.
    destruct (String.eqb_spec k (PyStr.upper t)); [congruence|reflexivity].
  - now rewrite IH.
Qed.

Lemma Forall_update_row (P : Position -> Prop) (k : string) (p' : Position)
    (db : Table) :
  Forall P db -> P p' -> Forall P (update_row k p' db).
Proof.
  intros H Hp. induction H as [|q r Hq Hr IH]; simpl; [constructor|].
  destruct (String.eqb (ticker q) k); constructor; assumption.
Qed.

Lemma Forall_delete_row (P : Position -> Prop) (k : string) (db : Table) :
  Forall P db -> Forall P (delete_row k db).
Proof.
  intros H. induction H as [|q r Hq Hr IH]; simpl; [constructor|].
  destruct (String.eqb (ticker q) k); [assumption|now constructor].
Qed.

Lemma map_ticker_update_row (k : string) (p' : Position) (db : Table) :
  ticker p' = k -> map ticker (update_row k p' db) = map ticker db.
Proof.
  intros Hk. induction db as [|q r IH]; simpl; [reflexivity|].
  destruct (String.eqb_spec (ticker q) k) as [E|E]; simpl.
  - now rewrite Hk, E.
  - now rewrite IH.
Qed.

Lemma key_unique_delete_row (k : string) (db : Table) :
  key_unique db -> key_unique (delete_row k db).
Proof.
  unfold key_unique. induction db as [|q r IH]; simpl; intros H.
  - constructor.
  - inversion H as [|? ? Hnotin Hr]; subst.
    destruct (String.eqb (ticker q) k); [assumption|].
    simpl. constructor; [|now apply IH].
    intros Hin. apply Hnotin. clear -Hin.
    induction r as [|x r IH]; simpl in *; [contradiction|].
    destruct (String.eqb (ticker x) k); simpl in *; tauto.
Qed.

(* ---------- insert_position, case by case ---------- *)

Lemma insert_position_new (db : Table) (t : string) (d : pyfloat)
    (e c : option pyfloat) :
  get_position db t = None ->
  insert_position db t d e c =
    (let pos := {| ticker := PyStr.upper t; qty := pymax d zero;
                   exec_price := or_else e c;
                   current_price := or_else c e |} in
     (db ++ [pos], Some pos)).
Proof.
  intros H. unfold insert_position. now rewrite get_position_upper, H.
Qed.

Lemma insert_position_held (db : Table) (t : string) (d : pyfloat)
    (e c : option pyfloat) (p : Position) :
  get_position db t = Some p ->
  insert_position db t d e c =
    if fle (qty (adjusted p d e c)) zero
    then (delete_row (ticker p) db, None)
    else (update_row (ticker p) (adjusted p d e c) db,
          Some (adjusted p d e c)).
Proof.
  intros H. unfold insert_position. rewrite get_position_upper, H.
  unfold adjusted. destruct e, c; reflexivity.
Qed.

(* ---------- buy_stock and sell_stock, case by case ---------- *)

Lemma buy_stock_rejects (db : Table) (t : string) (q : pyfloat)
    (e c : option pyfloat) :
  fle q zero = true -> buy_stock db t q e c = (db, Raise InvalidQuantity).
Proof. intros H. unfold buy_stock. now rewrite H. Qed.

Lemma buy_stock_new (db : Table) (t : string) (q : pyfloat)
    (e c : option pyfloat) :
  positive q -> get_position db t = None ->
  buy_stock db t q e c =
    (let pos := {| ticker := PyStr.upper t; qty := q;
                   exec_price := or_else e c;
                   current_price := or_else c e |} in
     (db ++ [pos], Ok pos)).
Proof.
  intros Hq Hg. unfold buy_stock.
  rewrite (positive_not_le _ Hq), (insert_position_new _ _ _ _ _ Hg).
  simpl. now rewrite (pymax_positive _ Hq).
Qed.

Lemma buy_stock_held (db : Table) (t : string) (q : pyfloat)
    (e c : option pyfloat) (p : Position) :
  positive q -> get_position db t = Some p -> positive (qty p) ->
  buy_stock db t q e c =
    (let pos := {| ticker := ticker p; qty := fadd (qty p) q;
                   exec_price := or_else e (exec_price p);
                   current_price := or_else c (current_price p) |} in
     (update_row (ticker p) pos db, Ok pos)).
Proof.
  intros Hq Hg Hp. unfold buy_stock.
  rewrite (positive_not_le _ Hq), (insert_position_held _ _ _ _ _ _ Hg).
  unfold adjusted. simpl. rewrite (or_zero_positive _ Hp).
  now rewrite (positive_not_le _ (positive_add _ _ Hp Hq)).
Qed.

Lemma or_zero_sum_above_zero (x q : pyfloat) :
  fle zero x = true -> positive q -> fle (fadd (or_zero x) q) zero = false.
Proof.
  intros Hx Hq. float_facts. destruct x as [a|]; [|discriminate].
  simpl in Hx. float_facts. unfold or_zero, truthy.
  destruct (Qeq_bool a 0) eqn:E; simpl; float_facts;
    apply Qle_bool_false; lra.
Qed.

(** [(x or 0.0) + q == x + q] *)
Lemma or_zero_sum_equal (x q : pyfloat) :
  notna x = true -> notna q = true ->
  feq (fadd (or_zero x) q) (fadd x q) = true.
Proof.
  destruct x as [a|], q as [b|]; try discriminate. intros _ _.
  unfold or_zero, truthy.
  destruct (Qeq_bool a 0) eqn:E; simpl; float_facts;
    apply Qeq_bool_iff; lra.
Qed.

(** A buy into a row whose quantity is not negative. *)
Lemma buy_stock_adds (db : Table) (t : string) (q : pyfloat)
    (e c : option pyfloat) (p : Position) :
  positive q -> get_position db t = Some p -> fle zero (qty p) = true ->
  buy_stock db t q e c =
    (update_row (ticker p) (adjusted p q e c) db, Ok (adjusted p q e c)).
Proof.
  intros Hq Hg Hp. unfold buy_stock.
  rewrite (positive_not_le _ Hq), (insert_position_held _ _ _ _ _ _ Hg).
  cbn [adjusted qty]. now rewrite (or_zero_sum_above_zero _ _ Hp Hq).
Qed.

Lemma sell_stock_rejects (db : Table) (t : string) (q : pyfloat) :
  fle q zero = true -> sell_stock db t q = (db, Raise InvalidQuantity).
Proof. intros H. unfold sell_stock. now rewrite H. Qed.

Lemma sell_stock_absent (db : Table) (t : string) (q : pyfloat) :
  positive q -> get_position db t = None ->
  sell_stock db t q = (db, Raise InsufficientShares).
Proof.
  intros Hq Hg. unfold sell_stock.
  now rewrite (positive_not_le _ Hq), Hg.
Qed.

Lemma sell_stock_short (db : Table) (t : string) (q : pyfloat) (p : Position) :
  positive q -> get_position db t = Some p -> flt (qty p) q = true ->
  sell_stock db t q = (db, Raise InsufficientShares).
Proof.
  intros Hq Hg Hs. unfold sell_stock.
  now rewrite (positive_not_le _ Hq), Hg, flt_or_zero, Hs.
Qed.

Lemma flt_positive (x s : pyfloat) : positive s -> flt s x = true -> positive x.
Proof.
  intros Hs H. destruct x as [a|], s as [b|]; simpl in *; try discriminate.
  float_facts. apply positive_Fin.
  match goal with E : Fin _ = Fin _ |- _ => injection E as <- end. lra.
Qed.

Lemma feq_positive (x s : pyfloat) : positive s -> feq s x = true -> positive x.
Proof.
  intros Hs H. destruct x as [a|], s as [b|]; simpl in *; try discriminate.
  float_facts. apply positive_Fin.
  match goal with E : Fin _ = Fin _ |- _ => injection E as <- end. lra.
Qed.

Lemma sell_stock_part (db : Table) (t : string) (s : pyfloat) (p : Position) :
  positive s -> get_position db t = Some p -> flt s (qty p) = true ->
  sell_stock db t s =
    (let pos := {| ticker := ticker p; qty := fadd (qty p) (fneg s);
                   exec_price := exec_price p;
                   current_price := current_price p |} in
     (update_row (ticker p) pos db, Ok (Some pos))).
Proof.
  intros Hs Hg Hlt. unfold sell_stock.
  rewrite (positive_not_le _ Hs), Hg, flt_or_zero, (flt_asym _ _ Hlt).
  rewrite (insert_position_held _ _ _ _ _ _ Hg). unfold adjusted. simpl.
  rewrite (or_zero_positive _ (flt_positive _ _ Hs Hlt)).
  now rewrite (positive_not_le _ (remainder_positive _ _ Hlt)).
Qed.

Lemma sell_stock_all (db : Table) (t : string) (s : pyfloat) (p : Position) :
  positive s -> get_position db t = Some p -> feq s (qty p) = true ->
  sell_stock db t s = (delete_row (ticker p) db, Ok None).
Proof.
  intros Hs Hg He. unfold sell_stock.
  rewrite (positive_not_le _ Hs), Hg, flt_or_zero, (feq_not_lt _ _ He).
  rewrite (insert_position_held _ _ _ _ _ _ Hg). unfold adjusted. simpl.
  rewrite (or_zero_positive _ (feq_positive _ _ Hs He)).
  now rewrite (remainder_closed _ _ He).
Qed.

Lemma fadd_fneg (x y : pyfloat) : fadd x (fneg y) = fsub x y.
Proof. destruct x, y; reflexivity. Qed.

(* ------------------------------------------------------------------ *)
(** ** The position mutator *)

(** Where a buy does what the data model says.  A buy of a quantity above
    zero: for a ticker without a row it appends a row with the upper-cased
    ticker, exactly that quantity, and each price taken from the other when
    only one is given; for a ticker with a row it stores the sum of the
    held quantity and the quantity bought, and replaces a price only when
    the argument is given, unless that sum is zero or below.  Either way
    the row is what [get_position] finds afterwards. *)
Lemma buy_creates_or_adds (db : Table) (t : string) (q : pyfloat)
    (e c : option pyfloat) :
  positive q ->
  (get_position db t = None ->
   exists pos,
     buy_stock db t q e c = (db ++ [pos], Ok pos)
     /\ ticker pos = PyStr.upper t
     /\ qty pos = q
     /\ exec_price pos = match e with Some _ => e | None => c end
     /\ current_price pos = match c with Some _ => c | None => e end
     /\ get_position (db ++ [pos]) t = Some pos)
  /\
  (forall p, get_position db t = Some p ->
   fle (fadd (or_zero (qty p)) q) zero = false ->
   exists pos,
     buy_stock db t q e c = (update_row (ticker p) pos db, Ok pos)
     /\ ticker pos = ticker p
     /\ qty pos = fadd (or_zero (qty p)) q
     /\ (notna (qty p) = true -> feq (qty pos) (fadd (qty p) q) = true)
     /\ (positive (qty p) -> qty pos = fadd (qty p) q)
     /\ exec_price pos = match e with Some _ => e | None => exec_price p end
     /\ current_price pos =
          match c with Some _ => c | None => current_price p end
     /\ get_position (update_row (ticker p) pos db) t = Some pos).
Proof.
  intros Hq. split.
  - intros Hg. eexists. split; [apply (buy_stock_new _ _ _ _ _ Hq Hg)|].
    simpl. repeat split. now apply get_position_app_new.
  - intros p Hg Hp. exists (adjusted p q e c).
    split.
    { unfold buy_stock.
      rewrite (positive_not_le _ Hq), (insert_position_held _ _ _ _ _ _ Hg).
      cbn [adjusted qty]. now rewrite Hp. }
    split; [reflexivity|]. split; [reflexivity|]. split.
    { intros Hn. cbn [adjusted qty]. apply or_zero_sum_equal; [exact Hn|].
      unfold positive in Hq. destruct q; [reflexivity|discriminate]. }
    split.
    { intros Hpos. cbn [adjusted qty]. now rewrite or_zero_positive. }
    split; [reflexivity|]. split; [reflexivity|].
    now apply get_position_update.
Qed.

Example buy_creates_or_adds_on_a_holding :
  (exists pos,
     buy_stock [] "aapl" (Fin 10) (Some (Fin 150)) None = ([] ++ [pos], Ok pos)
     /\ ticker pos = "AAPL" /\ qty pos = Fin 10
     /\ exec_price pos = Some (Fin 150) /\ current_price pos = Some (Fin 150))
  /\
  (exists pos,
     buy_stock [aapl 5] "aapl" (Fin 3) None (Some (Fin 170))
       = (update_row "AAPL" pos [aapl 5], Ok pos)
     /\ qty pos = Fin (5 + 3)
     /\ exec_price pos = Some (Fin 150) /\ current_price pos = Some (Fin 170)).
Proof.
  split.
  - destruct (buy_creates_or_adds [] "aapl" (Fin 10) (Some (Fin 150)) None
                eq_refl) as [H _].
    destruct (H eq_refl) as (pos & H1 & H2 & H3 & H4 & H5 & _).
    exists pos. repeat split; assumption.
  - destruct (buy_creates_or_adds [aapl 5] "aapl" (Fin 3) None
                (Some (Fin 170)) eq_refl) as [_ H].
    destruct (H (aapl 5) eq_refl eq_refl)
      as (pos & H1 & _ & _ & _ & H3 & H4 & H5 & _).
    exists pos. repeat split; try assumption. exact (H3 eq_refl).
Qed.


Lemma key_unique_aapl (q : Q) : key_unique [aapl q].
Proof. repeat constructor. simpl. tauto. Defined.


(** C4.  A buy or a sale of a quantity [<= 0] raises [InvalidQuantity]; a
    sale of a quantity above zero raises [InsufficientShares] when the
    ticker has no row or the row holds less than is sold.  The table the
    failed call leaves is the table it found. *)
Theorem rejected_trades_change_nothing (db : Table) (t : string)
    (q : pyfloat) (e c : option pyfloat) :
  (fle q zero = true ->
   buy_stock db t q e c = (db, Raise InvalidQuantity)
   /\ sell_stock db t q = (db, Raise InvalidQuantity))
  /\
  (positive q -> get_position db t = None ->
   sell_stock db t q = (db, Raise InsufficientShares))
  /\
  (positive q ->
   forall p, get_position db t = Some p -> flt (qty p) q = true ->
   sell_stock db t q = (db, Raise InsufficientShares)).
Proof.
  repeat split.
  - now apply buy_stock_rejects.
  - now apply sell_stock_rejects.
  - intros. now apply sell_stock_absent.
  - intros Hq p Hg Hs. now apply (sell_stock_short _ _ _ p).
Qed.

Lemma rejected_trades_change_nothing_witness :
  (buy_stock [aapl 5] "AAPL" (Fin 0) None None
     = ([aapl 5], Raise InvalidQuantity)
   /\ sell_stock [aapl 5] "AAPL" (Fin 0) = ([aapl 5], Raise InvalidQuantity))
  /\ sell_stock [aapl 5] "MSFT" (Fin 1) = ([aapl 5], Raise InsufficientShares)
  /\ sell_stock [aapl 5] "AAPL" (Fin 6) = ([aapl 5], Raise InsufficientShares).
Proof.
  split; [|split].
  - exact (proj1 (rejected_trades_change_nothing [aapl 5] "AAPL" (Fin 0)
                    None None) eq_refl).
  - exact (proj1 (proj2 (rejected_trades_change_nothing [aapl 5] "MSFT"
                           (Fin 1) None None)) eq_refl eq_refl).
  - exact (proj2 (proj2 (rejected_trades_change_nothing [aapl 5] "AAPL"
                           (Fin 6) None None)) eq_refl (aapl 5) eq_refl
             eq_refl).
Defined.

(** C10.  A sale of less than is held ([0 < s < q]) rewrites the quantity
    of the row and nothing else: ticker, execution price and current price
    of the returned, stored row are those the row had before. *)
Theorem partial_sell_changes_quantity_only (db : Table) (t : string)
    (s : pyfloat) (p : Position) :
  get_position db t = Some p -> positive s -> flt s (qty p) = true ->
  exists pos,
    sell_stock db t s = (update_row (ticker p) pos db, Ok (Some pos))
    /\ get_position (update_row (ticker p) pos db) t = Some pos
    /\ ticker pos = ticker p
    /\ exec_price pos = exec_price p
    /\ current_price pos = current_price p
    /\ qty pos = fsub (qty p) s.
Proof.
  intros Hg Hs Hlt. eexists.
  split; [apply (sell_stock_part _ _ _ _ Hs Hg Hlt)|].
  simpl. split; [now apply get_position_update|].
  repeat split. apply fadd_fneg.
Qed.

Lemma partial_sell_changes_quantity_only_witness :
  exists pos,
    sell_stock [aapl 5] "aapl" (Fin 2)
      = (update_row "AAPL" pos [aapl 5], Ok (Some pos))
    /\ get_position (update_row "AAPL" pos [aapl 5]) "aapl" = Some pos
    /\ ticker pos = "AAPL"
    /\ exec_price pos = Some (Fin 150)
    /\ current_price pos = Some (Fin 160)
    /\ qty pos = Fin (5 - 2).
Proof.
  exact (partial_sell_changes_quantity_only [aapl 5] "aapl" (Fin 2) (aapl 5)
           eq_refl eq_refl eq_refl).
Defined.

(* ------------------------------------------------------------------ *)
(** ** The import into the ledger *)

Lemma insert_sorted_perm (p : Position) (l : list Position) :
  Permutation (insert_sorted p l) (p :: l).
Proof.
  induction l as [|q r IH]; simpl.
  - apply Permutation_refl.
  - destruct (String.leb (ticker p) (ticker q)).
    + apply Permutation_refl.
    + eapply Permutation_trans; [apply perm_skip, IH|apply perm_swap].
Qed.

Lemma list_positions_perm (db : Table) : Permutation (list_positions db) db.
Proof.
  unfold list_positions. induction db as [|p r IH]; simpl.
  - constructor.
  - eapply Permutation_trans; [apply insert_sorted_perm|].
    now apply perm_skip.
Qed.

Lemma db_delete_perm (p : Position) (db : Table) :
  In p db -> Permutation db (p :: db_delete p db).
Proof.
  induction db as [|q r IH]; simpl; intros Hin; [contradiction|].
  destruct (Position_eq_dec q p) as [->|Hne].
  - apply Permutation_refl.
  - destruct Hin as [E|Hin]; [congruence|].
    eapply Permutation_trans; [apply perm_skip, IH, Hin|apply perm_swap].
Qed.

(** Deleting the rows of a table one by one, in any order, empties it. *)
Lemma delete_each (l db : Table) :
  Permutation l db -> fold_left (fun d p => db_delete p d) l db = [].
Proof.
  revert db. induction l as [|p l IH]; intros db Hp; simpl.
  - apply Permutation_nil. exact Hp.
  - apply IH.
    assert (Hin : In p db) by (eapply Permutation_in; [exact Hp|now left]).
    apply Permutation_cons_inv with (a := p).
    eapply Permutation_trans; [exact Hp|]. now apply db_delete_perm.
Qed.

Lemma load_df_into_db_result (L : Pandas) (db : Table) (df : DataFrame) :
  load_df_into_db L db df =
    match row_positions L (columns df) (rows df) with
    | Raise e => ([], Raise e)
    | Ok ps => (ps, Ok tt)
    end.
Proof.
  unfold load_df_into_db.
  rewrite (delete_each _ _ (list_positions_perm db)).
  destruct (row_positions L (columns df) (rows df)); reflexivity.
Qed.

(** What a converted row holds: ticker and quantity are read off the one
    column of that label. *)
Lemma row_position_ok (L : Pandas) (cols : list string) (row : list cell)
    (p : Position) :
  row_position L cols row = Ok p ->
  (exists i, getitem "qty" cols = Series i
             /\ py_float L (cell_at i row) = Ok (qty p))
  /\ (forall i, getitem "ticker" cols = Series i ->
                ticker p = PyStr.upper (py_str L (cell_at i row))).
Proof.
  unfold row_position.
  destruct (getitem "ticker" cols) as [|it|idx]; simpl; [discriminate| |];
    (destruct (getitem "qty" cols) as [|iq|idq]; simpl; [discriminate| |discriminate];
     destruct (py_float L (cell_at iq row)) as [q|] eqn:Eq; simpl;
       [|discriminate];
     destruct (optional_price L "exec_price" cols row) as [e|]; simpl;
       [|discriminate];
     destruct (optional_price L "current_price" cols row) as [c|]; simpl;
       [|discriminate];
     intros H; injection H as <-; simpl; split;
     [exists iq; now split|intros i Hi; congruence]).
Qed.

Lemma row_positions_ok (L : Pandas) (cols : list string)
    (rs : list (list cell)) (ps : list Position) :
  row_positions L cols rs = Ok ps ->
  Forall2 (fun row p => row_position L cols row = Ok p) rs ps.
Proof.
  revert ps. induction rs as [|row rest IH]; simpl; intros ps H.
  - injection H as <-. constructor.
  - destruct (row_position L cols row) as [p|] eqn:Ep; simpl in H;
      [|discriminate].
    destruct (row_positions L cols rest) as [ps'|]; simpl in H;
      [|discriminate].
    injection H as <-. constructor; [assumption|now apply IH].
Qed.

(** The frame [df_from_excel_bytes] returns, in terms of the sheet. *)
Lemma df_from_excel_bytes_ok (L : Pandas) (content : excel_bytes)
    (df : DataFrame) :
  df_from_excel_bytes L content = Ok df ->
  exists raw it iq,
    content = Ok raw
    /\ List.length (columns df) = List.length (columns raw)
    /\ getitem "ticker" (columns df) = Series it
    /\ getitem "qty" (columns df) = Series iq
    /\ rows df =
         map_col iq (coerced_or_zero L) (map_col it (upper_only L) (rows raw)).
Proof.
  unfold df_from_excel_bytes, read_excel.
  destruct content as [raw|e]; cbn [bind]; [|discriminate].
  destruct (negb _); [discriminate|].
  destruct (getitem "ticker" _) as [|it|] eqn:Et; cbn [bind];
    try discriminate.
  destruct (getitem "qty" _) as [|iq|] eqn:Eq; cbn [bind];
    try discriminate.
  intros H. injection H as <-. cbn [columns rows].
  exists raw, it, iq. repeat split; try assumption.
  unfold rename. now rewrite !length_map.
Qed.

Lemma number_above_zero (x : pyfloat) :
  notna x = true -> fle x zero = false -> positive x.
Proof.
  destruct x as [a|]; simpl; [|discriminate].
  intros _ H. float_facts. now apply positive_Fin.
Qed.

Lemma buy_stock_keeps_positive (db : Table) (t : string) (q : pyfloat)
    (e c : option pyfloat) :
  all_positive db -> notna q = true ->
  all_positive (fst (buy_stock db t q e c)).
Proof.
  intros Hdb Hn. destruct (fle q zero) eqn:Hle.
  - now rewrite buy_stock_rejects.
  - pose proof (number_above_zero _ Hn Hle) as Hq.
    destruct (get_position db t) as [p|] eqn:Hg.
    + assert (Hp : positive (qty p)).
      { apply get_position_some in Hg as [Hin _].
        exact (proj1 (Forall_forall _ _) Hdb _ Hin). }
      rewrite (buy_stock_held _ _ _ _ _ _ Hq Hg Hp). simpl.
      apply Forall_update_row; [assumption|]. simpl.
      now apply positive_add.
    + rewrite (buy_stock_new _ _ _ _ _ Hq Hg). simpl.
      apply Forall_app. split; [assumption|]. now repeat constructor.
Qed.

Lemma sell_stock_keeps_positive (db : Table) (t : string) (q : pyfloat) :
  all_positive db -> notna q = true ->
  all_positive (fst (sell_stock db t q)).
Proof.
  intros Hdb Hn. unfold sell_stock.
  destruct (fle q zero); [assumption|].
  destruct (get_position db t) as [p|] eqn:Hg; [|assumption].
  destruct (flt (or_zero (qty p)) q); [assumption|].
  rewrite (insert_position_held _ _ _ _ _ _ Hg).
  destruct (fle (qty (adjusted p (fneg q) None None)) zero) eqn:Hle; simpl.
  - now apply Forall_delete_row.
  - apply Forall_update_row; [assumption|].
    apply number_above_zero; [|assumption].
    apply get_position_some in Hg as [Hin _].
    pose proof (proj1 (Forall_forall _ _) Hdb _ Hin) as Hp. simpl in Hp.
    simpl. rewrite (or_zero_positive _ Hp). clear Hle.
    unfold positive in Hp. destruct (qty p), q; simpl in *; congruence.
Qed.

Lemma imported_rows_positive (L : Pandas) (cols : list string) (iq : nat)
    (rs : list (list cell)) (ps : list Position) :
  getitem "qty" cols = Series iq ->
  Forall (fun c => exists x, c = CFloat x /\ positive x) (map (cell_at iq) rs) ->
  row_positions L cols rs = Ok ps ->
  all_positive ps.
Proof.
  intros Hq Hall Hps. apply row_positions_ok in Hps.
  induction Hps as [|row p rs ps Hrow _ IH]; [constructor|].
  simpl in Hall. inversion Hall as [|? ? (x & Hx & Hpos) Hrest]; subst.
  constructor; [|now apply IH].
  apply row_position_ok in Hrow as [(i & Hi & Hf) _].
  rewrite Hq in Hi. injection Hi as <-. rewrite Hx in Hf. simpl in Hf.
  injection Hf as <-. exact Hpos.
Qed.

Lemma import_excel_keeps_positive (L : Pandas) (db : Table)
    (content : excel_bytes) :
  all_positive db -> sheet_positive L content ->
  all_positive (fst (import_excel L db content)).
Proof.
  intros Hdb Hsheet. unfold import_excel.
  destruct (df_from_excel_bytes L content) as [df|e] eqn:Edf; [|assumption].
  rewrite load_df_into_db_result.
  destruct (row_positions L (columns df) (rows df)) as [ps|e] eqn:Eps;
    simpl; [|constructor].
  destruct (df_from_excel_bytes_ok _ _ _ Edf)
    as (raw & it & iq & _ & _ & _ & Hq & _).
  specialize (Hsheet df Edf). unfold column_cells in Hsheet.
  rewrite Hq in Hsheet.
  exact (imported_rows_positive _ _ _ _ _ Hq Hsheet Eps).
Qed.

(** Where the invariant of the data model holds.  From a ledger whose rows
    all hold a quantity above zero (the empty one, for instance), every
    sequence of buys and sales with a finite number for quantity,
    completed or rejected, and of imports of sheets whose normalised
    quantities are all above zero, leaves a ledger whose rows all hold a
    quantity above zero: a trade that would bring a row to zero or below
    deletes the row. *)
Lemma trades_keep_quantities_positive (L : Pandas) (db : Table)
    (ops : list op) :
  all_positive db -> Forall (admissible L) ops ->
  all_positive (run L db ops).
Proof.
  intros Hdb Hops. revert db Hdb.
  induction Hops as [|o ops Ho _ IH]; intros db Hdb; simpl; [assumption|].
  apply IH. destruct o as [t q e c|t q|content]; simpl in *.
  - now apply buy_stock_keeps_positive.
  - now apply sell_stock_keeps_positive.
  - now apply import_excel_keeps_positive.
Qed.

Lemma priced_sheet_positive : sheet_positive PandasLib.pandas priced_sheet.
Proof.
  intros df H. vm_compute in H. injection H as <-.
  repeat constructor; eexists; split; reflexivity.
Defined.

Example trades_keep_quantities_positive_on_a_session :
  all_positive
    (run PandasLib.pandas []
       [ Buy "tsla" (Fin 2) None None;
         Import priced_sheet;
         Buy "aapl" (Fin 5) None (Some (Fin 170));
         Sell "msft" (Fin 4);
         Sell "aapl" (Fin 20);
         Sell "aapl" (Fin 0) ]).
Proof.
  apply trades_keep_quantities_positive.
  - constructor.
  - repeat constructor. exact priced_sheet_positive.
Defined.

(** C1.  The import breaks the invariant of the data model.  The sheet
    holds a quantity that is no number; [df_from_excel_bytes] replaces it
    by zero and [load_df_into_db] stores the row as it is: the ledger then
    holds a row whose quantity is not above zero, which [get_position]
    finds. *)
Theorem import_stores_zero_quantity :
  import_excel PandasLib.pandas [] unfilled_sheet
    = ([ {| ticker := "AAPL"; qty := Fin 0;
            exec_price := None; current_price := None |} ], Ok tt)
  /\ get_position (fst (import_excel PandasLib.pandas [] unfilled_sheet))
       "AAPL"
     = Some {| ticker := "AAPL"; qty := Fin 0;
               exec_price := None; current_price := None |}
  /\ ~ all_positive (fst (import_excel PandasLib.pandas [] unfilled_sheet)).
Proof.
  split; [reflexivity|]. split; [reflexivity|].
  intros H. inversion H as [|? ? Hp _]; subst. discriminate Hp.
Qed.

(** C2.  A buy into a holding the import left below zero does not add to
    it.  The ledger is the one the import of [short_sheet] produces, with
    the row of AAPL at -10; the buy of 5 brings the sum to -5,
    [insert_position] deletes the row and returns [None], and the
    assertion of [buy_stock] fails: no row holds the sum, and the current
    price given with the buy is stored nowhere. *)
Theorem buy_into_negative_holding_deletes_row :
  get_position (fst (import_excel PandasLib.pandas [] short_sheet)) "aapl"
    = Some {| ticker := "AAPL"; qty := Fin (-10);
              exec_price := None; current_price := None |}
  /\ buy_stock (fst (import_excel PandasLib.pandas [] short_sheet))
       "aapl" (Fin 5) None (Some (Fin 170))
     = ([], Raise AssertionError)
  /\ insert_position (fst (import_excel PandasLib.pandas [] short_sheet))
       "aapl" (Fin 5) None (Some (Fin 170))
     = ([], None).
Proof. repeat split. Qed.

(** Where the assertion of [buy_stock] holds: on a ledger whose rows all
    hold a quantity above zero the tool returns the record of a row. *)
Lemma buy_tool_returns_record (db : Table) (t : string) (q : pyfloat)
    (e c : option pyfloat) :
  all_positive db -> positive q ->
  exists pos,
    snd (Tools.buy_stock_tool db t q e c)
    = Ok (Tools._position_to_dict (Some pos))
    /\ qty pos <> NaN.
Proof.
  intros Hdb Hq. unfold Tools.buy_stock_tool.
  destruct (get_position db t) as [p|] eqn:Hg.
  - assert (Hp : positive (qty p)).
    { apply get_position_some in Hg as [Hin _].
      exact (proj1 (Forall_forall _ _) Hdb _ Hin). }
    rewrite (buy_stock_held _ _ _ _ _ _ Hq Hg Hp). cbn [snd bind].
    eexists. split; [reflexivity|]. simpl.
    pose proof (positive_add _ _ Hp Hq) as H. unfold positive in H.
    intros E. rewrite E in H. discriminate.
  - rewrite (buy_stock_new _ _ _ _ _ Hq Hg). cbn [snd bind].
    eexists. split; [reflexivity|]. simpl.
    unfold positive in Hq. intros E. rewrite E in Hq. discriminate.
Qed.

(** C9.  The assertion of [buy_stock] fails on a ledger the import
    produced: the sheet holds a negative quantity, the buy of a smaller
    quantity brings the row to a quantity below zero, [insert_position]
    deletes it and returns [None]. *)
Theorem buy_after_negative_import_fails_assertion :
  fst (import_excel PandasLib.pandas [] short_sheet)
    = [ {| ticker := "AAPL"; qty := Fin (-10);
           exec_price := None; current_price := None |} ]
  /\ Tools.buy_stock_tool (fst (import_excel PandasLib.pandas [] short_sheet))
       "AAPL" (Fin 5) None None
     = ([], Raise AssertionError).
Proof. split; reflexivity. Qed.

(* ------------------------------------------------------------------ *)
(** ** Frames: labels, cells, column updates *)

Lemma indices_spec (name : string) (cols : list string) (k i : nat) :
  In i (indices name cols k) <->
  (k <= i)%nat /\ nth_error cols (i - k) = Some name.
Proof.
  revert k. induction cols as [|c r IH]; intros k; simpl.
  - split; [contradiction|]. intros [_ H]. destruct (i - k)%nat; discriminate.
  - destruct (String.eqb_spec c name) as [E|E]; simpl; rewrite IH.
    + split.
      * intros [<-|[Hle Hn]].
        -- split; [lia|]. rewrite Nat.sub_diag. simpl. now rewrite E.
        -- split; [lia|]. replace (i - k)%nat with (S (i - S k)) by lia.
           exact Hn.
      * intros [Hle Hn]. destruct (Nat.eq_dec k i) as [->|Hne]; [now left|].
        right. split; [lia|].
        replace (i - k)%nat with (S (i - S k)) in Hn by lia. exact Hn.
    + split.
      * intros [Hle Hn]. split; [lia|].
        replace (i - k)%nat with (S (i - S k)) by lia. exact Hn.
      * intros [Hle Hn]. destruct (Nat.eq_dec k i) as [->|Hne].
        -- rewrite Nat.sub_diag in Hn. simpl in Hn. congruence.
        -- split; [lia|].
           replace (i - k)%nat with (S (i - S k)) in Hn by lia. exact Hn.
Qed.

Lemma getitem_series (name : string) (cols : list string) (i : nat) :
  getitem name cols = Series i ->
  indices name cols 0 = [i]
  /\ nth_error cols i = Some name
  /\ (i < List.length cols)%nat.
Proof.
  unfold getitem. destruct (indices name cols 0) as [|j [|k l]] eqn:E;
    try discriminate.
  intros H. injection H as <-. split; [reflexivity|].
  assert (Hin : In j (indices name cols 0)) by (rewrite E; now left).
  apply indices_spec in Hin as [_ Hn]. rewrite Nat.sub_0_r in Hn.
  split; [exact Hn|]. apply nth_error_Some. congruence.
Qed.

Lemma getitem_labels_differ (a b : string) (cols : list string) (i j : nat) :
  a <> b -> getitem a cols = Series i -> getitem b cols = Series j -> i <> j.
Proof.
  intros Hab Ha Hb E. subst j.
  apply getitem_series in Ha as (_ & Ha & _).
  apply getitem_series in Hb as (_ & Hb & _). congruence.
Qed.

Lemma indices_app (name : string) (a b : list string) (k : nat) :
  indices name (a ++ b) k
  = indices name a k ++ indices name b (k + List.length a).
Proof.
  revert k. induction a as [|c r IH]; intros k; simpl.
  - now rewrite Nat.add_0_r.
  - rewrite IH. replace (S k + List.length r)%nat
      with (k + S (List.length r))%nat by lia.
    destruct (String.eqb c name); reflexivity.
Qed.

Lemma getitem_app_other (name x : string) (cols : list string) :
  x <> name -> getitem name (cols ++ [x]) = getitem name cols.
Proof.
  intros Hx. unfold getitem. rewrite indices_app. simpl.
  destruct (String.eqb_spec x name); [contradiction|].
  now rewrite app_nil_r.
Qed.

Lemma length_update_nth {A : Type} (i : nat) (f : A -> A) (l : list A) :
  List.length (update_nth i f l) = List.length l.
Proof.
  revert i. induction l as [|x r IH]; intros [|i]; simpl; auto.
Qed.

Lemma cell_at_update_same (i : nat) (f : cell -> cell) (r : list cell) :
  (i < List.length r)%nat -> cell_at i (update_nth i f r) = f (cell_at i r).
Proof.
  unfold cell_at. revert i. induction r as [|x r IH]; intros [|i]; simpl;
    intros H; try lia; [reflexivity|]. apply IH. lia.
Qed.

Lemma cell_at_update_other (i j : nat) (f : cell -> cell) (r : list cell) :
  i <> j -> cell_at j (update_nth i f r) = cell_at j r.
Proof.
  unfold cell_at. revert i j.
  induction r as [|x r IH]; intros [|i] [|j] H; simpl; try reflexivity;
    try lia. apply IH. lia.
Qed.

Lemma cell_at_beyond (i : nat) (r : list cell) :
  (List.length r <= i)%nat -> cell_at i r = missing.
Proof. intros H. unfold cell_at. now apply nth_overflow. Qed.

Lemma cell_at_app (i : nat) (r : list cell) (v : cell) :
  (i < List.length r)%nat -> cell_at i (r ++ [v]) = cell_at i r.
Proof. intros H. unfold cell_at. now apply app_nth1. Qed.

Lemma length_set_all {A : Type} (idx : list nat) (v : A) (l : list A) :
  List.length (Api.set_all idx v l) = List.length l.
Proof.
  revert l. induction idx as [|i r IH]; intros l; simpl; [reflexivity|].
  now rewrite IH, length_update_nth.
Qed.

Lemma cell_at_set_all (idx : list nat) (v : cell) (r : list cell) (j : nat) :
  ~ In j idx -> cell_at j (Api.set_all idx v r) = cell_at j r.
Proof.
  revert r. induction idx as [|i rest IH]; intros r H; simpl; [reflexivity|].
  rewrite IH by (intros Hin; apply H; now right).
  apply cell_at_update_other. intros E. apply H. now left.
Qed.

Lemma filter_map_swap {A B : Type} (f : A -> B) (p : B -> bool) (l : list A) :
  filter p (map f l) = map f (filter (fun x => p (f x)) l).
Proof.
  induction l as [|x r IH]; simpl; [reflexivity|].
  destruct (p (f x)); simpl; now rewrite IH.
Qed.

Lemma Forall2_map_right {A B : Type} (f : A -> B) (P : A -> B -> Prop)
    (l : list A) :
  Forall (fun x => P x (f x)) l -> Forall2 P l (map f l).
Proof.
  induction 1; simpl; constructor; assumption.
Qed.

(* ------------------------------------------------------------------ *)
(** ** Replacing the ledger *)

Lemma imported_tickers (L : Pandas) (cols : list string) (it : nat)
    (rs : list (list cell)) (ps : list Position) :
  getitem "ticker" cols = Series it ->
  row_positions L cols rs = Ok ps ->
  map ticker ps = map (fun r => PyStr.upper (py_str L (cell_at it r))) rs.
Proof.
  intros Ht Hps. apply row_positions_ok in Hps.
  induction Hps as [|row p rs ps Hrow _ IH]; simpl; [reflexivity|].
  apply row_position_ok in Hrow as [_ Hrow].
  now rewrite (Hrow it Ht), IH.
Qed.

Lemma upper_only_text (L : Pandas) (c : cell) (s : string) :
  upper_only L c = CStr s -> PyStr.upper s = s.
Proof.
  unfold upper_only, str_upper.
  destruct (astype_str L c) as [x|u]; [discriminate|].
  intros H. injection H as <-. apply upper_idempotent.
Qed.

(** The ticker cells of the frame of the minimal path are upper-case texts
    (or missing). *)
Lemma normalised_tickers_upper (L : Pandas) (content : excel_bytes)
    (df : DataFrame) :
  df_from_excel_bytes L content = Ok df ->
  Forall (fun c => forall s, c = CStr s -> PyStr.upper s = s)
         (column_cells "ticker" df).
Proof.
  intros H.
  destruct (df_from_excel_bytes_ok _ _ _ H)
    as (raw & it & iq & _ & _ & Ht & Hq & Hrows).
  unfold column_cells. rewrite Ht, Hrows. unfold map_col.
  rewrite !map_map. apply Forall_map, Forall_forall. intros r _ s.
  assert (Hne : iq <> it).
  { apply (getitem_labels_differ "qty" "ticker" (columns df));
      [discriminate|assumption|assumption]. }
  rewrite cell_at_update_other by exact Hne.
  destruct (Nat.lt_ge_cases it (List.length r)) as [Hlt|Hge].
  - rewrite cell_at_update_same by exact Hlt. apply upper_only_text.
  - rewrite cell_at_beyond; [discriminate|].
    now rewrite length_update_nth.
Qed.

(** C6.  An import replaces the ledger.  Whatever the ledger held and
    whatever the import of [A] left, the completed import of [B] leaves one
    row per row of the normalised frame of [B], in its order, carrying its
    ticker: the tickers of the ledger are those of [B], so a ticker of [A]
    is there only if [B] has it too. *)
Theorem import_replaces_ledger (L : Pandas) (db : Table) (A B : excel_bytes)
    (dfB : DataFrame) :
  df_from_excel_bytes L B = Ok dfB ->
  snd (import_excel L (fst (import_excel L db A)) B) = Ok tt ->
  map ticker (fst (import_excel L (fst (import_excel L db A)) B))
    = frame_tickers L dfB
  /\ (forall t, In t (map ticker (fst (import_excel L db A))) ->
        In t (map ticker (fst (import_excel L (fst (import_excel L db A)) B)))
        -> In t (frame_tickers L dfB))
  /\ Forall (fun c => forall s, c = CStr s -> PyStr.upper s = s)
            (column_cells "ticker" dfB).
Proof.
  intros HB Hok.
  assert (Heq : map ticker
                  (fst (import_excel L (fst (import_excel L db A)) B))
                = frame_tickers L dfB).
  { revert Hok. generalize (fst (import_excel L db A)). intros db1.
    unfold import_excel. rewrite HB, load_df_into_db_result.
    destruct (row_positions L (columns dfB) (rows dfB)) as [ps|e] eqn:Eps;
      simpl; [intros _|discriminate].
    destruct (df_from_excel_bytes_ok _ _ _ HB)
      as (raw & it & iq & _ & _ & Ht & _ & _).
    rewrite (imported_tickers _ _ _ _ _ Ht Eps).
    unfold frame_tickers, column_cells. rewrite Ht. now rewrite map_map. }
  split; [exact Heq|]. split.
  - intros t _ Hin. now rewrite <- Heq.
  - now apply (normalised_tickers_upper L B).
Qed.

Lemma import_replaces_ledger_witness :
  map ticker (fst (import_excel PandasLib.pandas [aapl 5] other_sheet))
  = ["TSLA"]
  /\ map ticker
       (fst (import_excel PandasLib.pandas
               (fst (import_excel PandasLib.pandas [aapl 5] other_sheet))
               priced_sheet))
     = ["AAPL"; "MSFT"].
Proof.
  split; [reflexivity|].
  exact (proj1 (import_replaces_ledger PandasLib.pandas [aapl 5] other_sheet
                  priced_sheet
                  (mkDF ["ticker"; "qty"; "exec_price"; "current_price"]
                     [[CStr "AAPL"; CFloat (Fin 10); CFloat (Fin 150);
                       CFloat (Fin 160)];
                      [CStr "MSFT"; CFloat (Fin 4); CFloat NaN; CStr "310"]])
                  eq_refl eq_refl)).
Defined.

(* ------------------------------------------------------------------ *)
(** ** The two normalisations *)

Lemma coerce_numeric_ok (L : Pandas) (names cols : list string)
    (rs rs' : list (list cell)) :
  Api.coerce_numeric L names cols rs = Ok rs' ->
  rs' = map (coerce_row L names cols) rs
  /\ forall c, In c names -> forall idx, getitem c cols <> SubFrame idx.
Proof.
  revert rs. induction names as [|c rest IH]; intros rs; simpl.
  - intros H. injection H as <-. split; [now rewrite map_id|contradiction].
  - assert (Hrow : forall r, coerce_row L (c :: rest) cols r
                     = coerce_row L rest cols (coerce_step L cols r c))
      by reflexivity.
    destruct (getitem c cols) as [|i|idx] eqn:E; [| |discriminate].
    + intros H. apply IH in H as [-> Hsub]. split.
      * apply map_ext. intros r. rewrite Hrow. unfold coerce_step.
        now rewrite E.
      * intros c' [<-|Hin] idx; [congruence|now apply Hsub].
    + intros H. apply IH in H as [-> Hsub]. split.
      * unfold map_col. rewrite map_map. apply map_ext. intros r.
        rewrite Hrow. unfold coerce_step. now rewrite E.
      * intros c' [<-|Hin] idx; [congruence|now apply Hsub].
Qed.

Lemma length_coerce_row (L : Pandas) (names cols : list string)
    (r : list cell) :
  List.length (coerce_row L names cols r) = List.length r.
Proof.
  unfold coerce_row. revert r.
  induction names as [|c rest IH]; intros r; simpl; [reflexivity|].
  rewrite IH. unfold coerce_step.
  destruct (getitem c cols); try reflexivity. apply length_update_nth.
Qed.

Lemma coerced_twice (L : Pandas) (c : cell) :
  coerced L (coerced L c) = coerced L c.
Proof. reflexivity. Qed.

(** A cell of a coerced row: coerced when its column is one of the named
    ones, as it was otherwise. *)
Lemma cell_at_coerce_row (L : Pandas) (names cols : list string)
    (r : list cell) (i : nat) :
  (i < List.length r)%nat ->
  cell_at i (coerce_row L names cols r)
  = if existsb (fun c => match getitem c cols with
                         | Series j => Nat.eqb j i
                         | _ => false
                         end) names
    then coerced L (cell_at i r) else cell_at i r.
Proof.
  unfold coerce_row. revert r.
  induction names as [|c rest IH]; intros r Hi; simpl; [reflexivity|].
  rewrite IH.
  2:{ unfold coerce_step. destruct (getitem c cols); try assumption.
      now rewrite length_update_nth. }
  unfold coerce_step.
  destruct (getitem c cols) as [|j|idx]; simpl; try reflexivity.
  destruct (Nat.eqb_spec j i) as [->|Hne]; simpl.
  - rewrite cell_at_update_same by exact Hi.
    destruct (existsb _ rest); reflexivity.
  - now rewrite cell_at_update_other by exact Hne.
Qed.

Lemma mem_true (x : string) (xs : list string) :
  PyStr.mem x xs = true <-> In x xs.
Proof.
  unfold PyStr.mem. rewrite existsb_exists. split.
  - intros (y & Hin & E). apply String.eqb_eq in E. now subst.
  - intros H. exists x. split; [assumption|apply String.eqb_refl].
Qed.

Lemma in_getitem (name : string) (cols : list string) :
  In name cols -> getitem name cols <> NoColumn.
Proof.
  intros Hin. apply In_nth_error in Hin as [i Hi].
  assert (H : In i (indices name cols 0)).
  { apply indices_spec. split; [lia|]. now rewrite Nat.sub_0_r. }
  unfold getitem. destruct (indices name cols 0) as [|j [|k l]];
    [contradiction|discriminate|discriminate].
Qed.

Lemma missing_columns_nil (cols : list string) :
  Api.missing_columns cols = [] <->
  forall c, In c Api.required -> In c cols.
Proof.
  unfold Api.missing_columns. split.
  - intros H c Hc. destruct (PyStr.mem c cols) eqn:E; [now apply mem_true|].
    assert (Hin : In c (filter (fun c => negb (PyStr.mem c cols))
                          Api.required)).
    { apply filter_In. split; [assumption|]. now rewrite E. }
    rewrite H in Hin. contradiction.
  - intros H. induction Api.required as [|c r IH]; simpl; [reflexivity|].
    rewrite (proj2 (mem_true c cols)) by (apply H; now left). simpl.
    apply IH. intros c' Hc'. apply H. now right.
Qed.

(** The rows and labels [assign] leaves: cells under other labels are
    untouched. *)
Lemma assign_spec (name : string) (f : list cell -> cell) (df : DataFrame) :
  exists g,
    rows (Api.assign name f df) = map g (rows df)
    /\ (forall c, c <> name ->
          getitem c (columns (Api.assign name f df)) = getitem c (columns df))
    /\ (forall r j, (j < List.length r)%nat ->
          ~ In j (indices name (columns df) 0) ->
          cell_at j (g r) = cell_at j r /\ (j < List.length (g r))%nat).
Proof.
  unfold Api.assign.
  destruct (indices name (columns df) 0) as [|i idx] eqn:E.
  - exists (fun r => r ++ [f r]). simpl. split; [reflexivity|]. split.
    + intros c Hc. apply getitem_app_other. congruence.
    + intros r j Hj _. split; [now apply cell_at_app|].
      rewrite length_app. simpl. lia.
  - exists (fun r => Api.set_all (i :: idx) (f r) r). cbn [rows columns].
    split; [reflexivity|]. split; [reflexivity|].
    intros r j Hj Hnot. split.
    + now apply (cell_at_set_all (i :: idx)).
    + now rewrite (length_set_all (i :: idx)).
Qed.

Lemma label_not_indexed (c name : string) (cols : list string) (j : nat) :
  c <> name -> getitem c cols = Series j -> ~ In j (indices name cols 0).
Proof.
  intros Hne Hc Hin. apply getitem_series in Hc as (_ & Hc & _).
  apply indices_spec in Hin as [_ Hin]. rewrite Nat.sub_0_r in Hin.
  congruence.
Qed.

(** The frame [_load_excel_to_df] returns, in terms of the sheet. *)
Lemma load_excel_to_df_ok (L : Pandas) (raw df : DataFrame) :
  Api._load_excel_to_df L (Ok raw) = Ok df ->
  exists cols it f1 f2,
    cols = rename (Api.rename_map (columns raw)) (columns raw)
    /\ getitem "ticker" cols = Series it
    /\ (forall c, In c Api.required -> In c cols)
    /\ (forall c, In c Api.NUMERIC_COLS ->
          forall idx, getitem c cols <> SubFrame idx)
    /\ df = Api.assign "pnl_pct" f2
              (Api.assign "market_value" f1
                 (mkDF cols
                    (Api.dropna ["ticker"; "qty"] cols
                       (map (coerce_row L Api.NUMERIC_COLS cols)
                          (map_col it (trimmed_upper L) (rows raw)))))).
Proof.
  unfold Api._load_excel_to_df, read_excel. cbn [bind].
  set (cols := rename (Api.rename_map (columns raw)) (columns raw)).
  destruct (Api.missing_columns cols) as [|m ms] eqn:Em; [|discriminate].
  destruct (getitem "ticker" cols) as [|it|] eqn:Et; cbn [bind];
    try discriminate.
  destruct (Api.coerce_numeric L Api.NUMERIC_COLS cols _) as [rs|]
    eqn:Ec; cbn [bind]; [|discriminate].
  apply coerce_numeric_ok in Ec as [-> Hsub].
  intros H. injection H as <-.
  eexists cols, it, _, _. repeat split; try eassumption; try reflexivity.
  now apply missing_columns_nil.
Qed.

Lemma dropna_ticker_qty (cols : list string) (it iq : nat)
    (rs : list (list cell)) :
  getitem "ticker" cols = Series it -> getitem "qty" cols = Series iq ->
  Api.dropna ["ticker"; "qty"] cols rs
  = filter (fun r => cell_notna (cell_at it r) && cell_notna (cell_at iq r)) rs.
Proof.
  intros Ht Hq. unfold Api.dropna.
  apply getitem_series in Ht as (Ht & _). apply getitem_series in Hq as (Hq & _).
  apply filter_ext. intros r. simpl. rewrite Ht, Hq. simpl.
  now rewrite !andb_true_r.
Qed.

Lemma numeric_hit (cols : list string) (c : string) (i : nat) :
  In c Api.NUMERIC_COLS -> getitem c cols = Series i ->
  existsb (fun c => match getitem c cols with
                    | Series j => Nat.eqb j i
                    | _ => false
                    end) Api.NUMERIC_COLS = true.
Proof.
  intros Hin Hc. apply existsb_exists. exists c. split; [assumption|].
  rewrite Hc. apply Nat.eqb_refl.
Qed.

Lemma numeric_miss (cols : list string) (i : nat) :
  getitem "ticker" cols = Series i ->
  existsb (fun c => match getitem c cols with
                    | Series j => Nat.eqb j i
                    | _ => false
                    end) Api.NUMERIC_COLS = false.
Proof.
  intros Ht. destruct (existsb _ _) eqn:E; [|reflexivity].
  apply existsb_exists in E as (c & Hin & Hc).
  destruct (getitem c cols) as [|j|] eqn:Ec; try discriminate.
  apply Nat.eqb_eq in Hc. subst j.
  apply getitem_series in Ht as (_ & Ht & _).
  apply getitem_series in Ec as (_ & Ec & _).
  assert (c = "ticker") by congruence. subst c.
  simpl in Hin. repeat (destruct Hin as [Hin|Hin]; [discriminate|]).
  contradiction.
Qed.

(** The cleaned row of the full pipeline, cell by cell. *)
Lemma cleaned_row_cells (L : Pandas) (cols : list string) (it : nat)
    (r0 : list cell) :
  getitem "ticker" cols = Series it ->
  List.length r0 = List.length cols ->
  let r := coerce_row L Api.NUMERIC_COLS cols
             (update_nth it (trimmed_upper L) r0) in
  List.length r = List.length cols
  /\ cell_at it r = trimmed_upper L (cell_at it r0)
  /\ forall c i, In c Api.NUMERIC_COLS -> getitem c cols = Series i ->
       cell_at i r = coerced L (cell_at i r0).
Proof.
  intros Ht Hlen r. subst r.
  pose proof (getitem_series _ _ _ Ht) as (_ & _ & Hit).
  split; [now rewrite length_coerce_row, length_update_nth|]. split.
  - rewrite cell_at_coerce_row by (rewrite length_update_nth; lia).
    rewrite (numeric_miss _ _ Ht). apply cell_at_update_same. lia.
  - intros c i Hin Hc.
    pose proof (getitem_series _ _ _ Hc) as (_ & _ & Hi).
    rewrite cell_at_coerce_row by (rewrite length_update_nth; lia).
    rewrite (numeric_hit _ _ _ Hin Hc). f_equal.
    apply cell_at_update_other.
    apply (getitem_labels_differ "ticker" c cols); try assumption.
    intros <-. simpl in Hin.
    repeat (destruct Hin as [Hin|Hin]; [discriminate|]). contradiction.
Qed.

Lemma assign_cells (name : string) (f : list cell -> cell) (df : DataFrame) :
  exists g,
    rows (Api.assign name f df) = map g (rows df)
    /\ (forall c, c <> name ->
          getitem c (columns (Api.assign name f df)) = getitem c (columns df))
    /\ (forall r c j, c <> name -> getitem c (columns df) = Series j ->
          (j < List.length r)%nat ->
          cell_at j (g r) = cell_at j r /\ (j < List.length (g r))%nat).
Proof.
  destruct (assign_spec name f df) as (g & Hr & Hc & Hcell).
  exists g. repeat split; try assumption;
    apply Hcell; try assumption; now apply (label_not_indexed c).
Qed.

Lemma full_pipeline_normalises (L : Pandas) (raw df : DataFrame) :
  rectangular raw ->
  Api._load_excel_to_df L (Ok raw) = Ok df ->
  full_normal_form L raw df.
Proof.
  intros Hrect Hload.
  destruct (load_excel_to_df_ok _ _ _ Hload)
    as (cols & it & f1 & f2 & Hcols & Ht & Hreq & Hsub & ->).
  assert (Hlen : List.length cols = List.length (columns raw)).
  { subst cols. unfold rename. now rewrite length_map. }
  assert (Hq : exists iq, getitem "qty" cols = Series iq).
  { destruct (getitem "qty" cols) as [|iq|idx] eqn:E.
    - exfalso. apply (in_getitem "qty" cols); [|exact E].
      apply Hreq. simpl. tauto.
    - now exists iq.
    - exfalso. apply (Hsub "qty" ltac:(simpl; tauto) idx E). }
  destruct Hq as [iq Hq].
  rewrite (dropna_ticker_qty _ _ _ _ Ht Hq).
  set (df0 := mkDF cols _).
  destruct (assign_cells "market_value" f1 df0) as (g1 & Hr1 & Hc1 & Hcell1).
  set (df1 := Api.assign "market_value" f1 df0) in *.
  destruct (assign_cells "pnl_pct" f2 df1) as (g2 & Hr2 & Hc2 & Hcell2).
  set (df2 := Api.assign "pnl_pct" f2 df1) in *.
  assert (Hget : forall c, c <> "market_value" -> c <> "pnl_pct" ->
                   getitem c (columns df2) = getitem c cols).
  { intros c H1 H2. rewrite (Hc2 c H2). exact (Hc1 c H1). }
  exists it, iq,
    (fun r0 => cell_notna (trimmed_upper L (cell_at it r0))
               && cell_notna (coerced L (cell_at iq r0))).
  split; [rewrite Hget by discriminate; exact Ht|].
  split; [rewrite Hget by discriminate; exact Hq|].
  split; [intros r0 H; rewrite H; apply andb_false_r|].
  split; [intros r0 s0 Hs Hn; now rewrite Hs, Hn|].
  rewrite Hr2, Hr1. subst df0. cbn [rows]. unfold map_col.
  repeat (rewrite filter_map_swap || rewrite map_map).
  assert (Hrows : forall r0, In r0 (rows raw) ->
                    List.length r0 = List.length cols).
  { intros r0 Hin. rewrite Hlen.
    exact (proj1 (Forall_forall _ _) Hrect r0 Hin). }
  rewrite (filter_ext_in
             (fun r0 =>
                cell_notna
                  (cell_at it (coerce_row L Api.NUMERIC_COLS cols
                                 (update_nth it (trimmed_upper L) r0)))
                && cell_notna
                     (cell_at iq (coerce_row L Api.NUMERIC_COLS cols
                                    (update_nth it (trimmed_upper L) r0))))
             (fun r0 => cell_notna (trimmed_upper L (cell_at it r0))
                        && cell_notna (coerced L (cell_at iq r0)))).
  2:{ intros r0 Hin.
      destruct (cleaned_row_cells L cols it r0 Ht (Hrows r0 Hin))
        as (_ & Hti & Hnum).
      now rewrite Hti, (Hnum "qty" iq ltac:(simpl; tauto) Hq). }
  apply Forall2_map_right, Forall_forall.
  intros r0 Hin. apply filter_In in Hin as [Hin _].
  destruct (cleaned_row_cells L cols it r0 Ht (Hrows r0 Hin))
    as (HlenC & Hti & Hnum).
  set (r := coerce_row L Api.NUMERIC_COLS cols
              (update_nth it (trimmed_upper L) r0)) in *.
  assert (Hpass : forall c j, c <> "market_value" -> c <> "pnl_pct" ->
                    getitem c cols = Series j ->
                    cell_at j (g2 (g1 r)) = cell_at j r).
  { intros c j H1 H2 Hc.
    pose proof (getitem_series _ _ _ Hc) as (_ & _ & Hj).
    destruct (Hcell1 r c j H1 Hc ltac:(lia)) as [E1 Hj1].
    assert (Hc' : getitem c (columns df1) = Series j)
      by (rewrite (Hc1 c H1); exact Hc).
    destruct (Hcell2 (g1 r) c j H2 Hc' Hj1) as [E2 _].
    now rewrite E2, E1. }
  split.
  - rewrite (Hpass "ticker" it) by (discriminate || assumption). exact Hti.
  - intros c i HinC Hc.
    assert (H1 : c <> "market_value")
      by (intros ->; simpl in HinC; intuition discriminate).
    assert (H2 : c <> "pnl_pct")
      by (intros ->; simpl in HinC; intuition discriminate).
    rewrite (Hget c H1 H2) in Hc.
    rewrite (Hpass c i H1 H2 Hc). now apply (Hnum c).
Qed.

Lemma minimal_path_normalises (L : Pandas) (raw df : DataFrame) :
  rectangular raw ->
  df_from_excel_bytes L (Ok raw) = Ok df ->
  minimal_normal_form L raw df.
Proof.
  intros Hrect Hdf.
  destruct (df_from_excel_bytes_ok _ _ _ Hdf)
    as (raw' & it & iq & Hraw & Hlen & Ht & Hq & Hrows).
  injection Hraw as <-.
  exists it, iq. split; [exact Ht|]. split; [exact Hq|].
  rewrite Hrows. unfold map_col. rewrite map_map.
  apply Forall2_map_right, Forall_forall. intros r0 Hin.
  pose proof (proj1 (Forall_forall _ _) Hrect r0 Hin) as Hr0.
  cbv beta in Hr0.
  pose proof (getitem_series _ _ _ Ht) as (_ & _ & Hit).
  pose proof (getitem_series _ _ _ Hq) as (_ & _ & Hiq).
  assert (Hne : iq <> it).
  { apply (getitem_labels_differ "qty" "ticker" (columns df));
      [discriminate|assumption|assumption]. }
  split; [|split].
  - rewrite cell_at_update_other by exact Hne.
    apply cell_at_update_same. lia.
  - rewrite cell_at_update_same by (rewrite length_update_nth; lia).
    f_equal. apply cell_at_update_other. congruence.
  - intros i H1 H2.
    rewrite cell_at_update_other by congruence.
    apply cell_at_update_other. congruence.
Qed.

(** C5, as the code has it.  On a sheet the full pipeline
    ([_load_excel_to_df]) accepts, the rows of the result are rows of the
    sheet, in their order, each with its ticker trimmed and upper-cased and
    every numeric column coerced to numbers, a value that is no number
    becoming missing; every row whose quantity is missing after the
    coercion is dropped, and every row whose ticker cell holds a text and
    whose quantity is a number is kept.  On a sheet the minimal path
    ([df_from_excel_bytes]) accepts, the result has a row for every row of
    the sheet: the ticker upper-cased, the quantity coerced with a missing
    or non-numeric one replaced by zero, every other cell as read. *)
Theorem importers_normalise (L : Pandas) (raw : DataFrame) :
  rectangular raw ->
  (forall df, Api._load_excel_to_df L (Ok raw) = Ok df ->
     full_normal_form L raw df)
  /\ (forall df, df_from_excel_bytes L (Ok raw) = Ok df ->
        minimal_normal_form L raw df).
Proof.
  intros Hrect. split; intros df H.
  - now apply full_pipeline_normalises.
  - now apply minimal_path_normalises.
Qed.

Lemma mixed_sheet_rectangular : rectangular mixed_sheet.
Proof. repeat constructor. Defined.

Lemma gapped_sheet_rectangular : rectangular gapped_sheet.
Proof. repeat constructor. Defined.

Lemma importers_normalise_witness :
  (exists df,
     Api._load_excel_to_df PandasLib.pandas (Ok gapped_sheet) = Ok df
     /\ map (cell_at 0) (rows df) = [CStr "AAPL"; CStr "NAN"]
     /\ full_normal_form PandasLib.pandas gapped_sheet df)
  /\ (exists df,
        df_from_excel_bytes PandasLib.pandas (Ok mixed_sheet) = Ok df
        /\ List.length (rows df) = 3%nat
        /\ minimal_normal_form PandasLib.pandas mixed_sheet df).
Proof.
  split.
  - eexists. split; [vm_compute; reflexivity|]. split; [reflexivity|].
    apply (proj1 (importers_normalise PandasLib.pandas gapped_sheet
                    gapped_sheet_rectangular)).
    reflexivity.
  - eexists. split; [vm_compute; reflexivity|]. split; [reflexivity|].
    apply (proj2 (importers_normalise PandasLib.pandas mixed_sheet
                    mixed_sheet_rectangular)).
    reflexivity.
Defined.

(** Where [astype(str)] turns an empty cell into the text "nan", as pandas
    does up to its version 2, the row of [gapped_sheet] whose ticker cell
    is empty passes [dropna] under the ticker "NAN": the conversion to text
    comes before the test for missing tickers. *)
Example full_pipeline_keeps_empty_ticker :
  option_map (fun df => map (cell_at 0) (rows df))
    (match Api._load_excel_to_df PandasLib.pandas (Ok gapped_sheet) with
     | Ok df => Some df
     | Raise _ => None
     end)
  = Some [CStr "AAPL"; CStr "NAN"].
Proof. reflexivity. Qed.

(** C5, as the specification states it, fails on the minimal path: the
    ticker keeps its blanks, the quantity that is no number becomes zero
    instead of missing, and neither that row nor the row with the empty
    quantity is dropped. *)
Lemma minimal_path_keeps_unfilled_rows :
  df_from_excel_bytes PandasLib.pandas (Ok mixed_sheet)
  = Ok (mkDF ["ticker"; "qty"; "exec_price"; "current_price"]
          [[CStr " AAPL "; CFloat (Fin 10); CFloat (Fin 150); CStr "160"];
           [CStr "MSFT"; CFloat (Fin 0); CFloat (Fin 300); CFloat (Fin 310)];
           [CStr "TSLA"; CFloat (Fin 0); CStr "-"; CFloat (Fin 200)]])
  /\ PyStr.strip " AAPL " <> " AAPL "
  /\ to_numeric PandasLib.pandas (CStr "n/a") = NaN.
Proof.
  split; [reflexivity|]. split; [discriminate|reflexivity].
Qed.

(* ------------------------------------------------------------------ *)
(** ** Schema errors and the upload endpoint *)

Lemma coerce_numeric_raises (L : Pandas) (names cols : list string)
    (rs : list (list cell)) (e : exn) :
  Api.coerce_numeric L names cols rs = Raise e ->
  e = TypeError (Text "arg must be a list, tuple, 1-d array, or Series").
Proof.
  revert rs. induction names as [|c rest IH]; intros rs; simpl;
    [discriminate|].
  destruct (getitem c cols); try apply IH. intros H. now injection H as <-.
Qed.

Lemma missing_columns_some (cols : list string) :
  Api.missing_columns cols <> [] <->
  exists c, In c Api.required /\ ~ In c cols.
Proof.
  split.
  - intros H. destruct (Api.missing_columns cols) as [|c r] eqn:E;
      [contradiction|].
    assert (Hin : In c (Api.missing_columns cols)) by (rewrite E; now left).
    unfold Api.missing_columns in Hin. apply filter_In in Hin as [Hreq Hm].
    exists c. split; [assumption|]. intros Hc.
    apply mem_true in Hc. rewrite Hc in Hm. discriminate.
  - intros (c & Hreq & Hc) E. apply Hc.
    exact (proj1 (missing_columns_nil cols) E c Hreq).
Qed.

Lemma full_schema_error_iff (L : Pandas) (raw : DataFrame) :
  schema_error_full (Api._load_excel_to_df L (Ok raw)) <->
  exists c, In c Api.required /\ ~ In c (resolved_full raw).
Proof.
  rewrite <- missing_columns_some.
  unfold schema_error_full, Api._load_excel_to_df, read_excel, resolved_full.
  cbn [bind].
  set (cols := rename (Api.rename_map (columns raw)) (columns raw)).
  destruct (Api.missing_columns cols) as [|m ms] eqn:Em.
  - split; [|contradiction]. intros (missing & found & H). exfalso.
    destruct (getitem "ticker" cols); cbn [bind] in H; try discriminate.
    destruct (Api.coerce_numeric L Api.NUMERIC_COLS cols _) eqn:Ec;
      cbn [bind] in H; [discriminate|].
    apply coerce_numeric_raises in Ec. subst e. discriminate.
  - split; [discriminate|]. intros _. now exists (m :: ms), cols.
Qed.

Lemma forallb_false {A : Type} (f : A -> bool) (l : list A) :
  forallb f l = false -> exists x, In x l /\ f x = false.
Proof.
  induction l as [|x r IH]; simpl; [discriminate|].
  destruct (f x) eqn:E; simpl.
  - intros H. destruct (IH H) as (y & Hin & Hy). exists y. now split; [right|].
  - intros _. exists x. now split; [left|].
Qed.

Lemma minimal_schema_error_iff (L : Pandas) (raw : DataFrame) :
  schema_error_minimal (df_from_excel_bytes L (Ok raw)) <->
  exists c, In c Actions.required /\ ~ In c (resolved_minimal raw).
Proof.
  unfold schema_error_minimal, df_from_excel_bytes, read_excel,
    resolved_minimal. cbn [bind].
  set (cols := map PyStr.lower _).
  destruct (forallb (fun c => PyStr.mem c cols) Actions.required) eqn:E;
    cbn [negb].
  - split.
    + intros H. exfalso.
      destruct (getitem "ticker" cols); cbn [bind] in H; try discriminate.
      destruct (getitem "qty" cols); cbn [bind] in H; discriminate.
    + intros (c & Hreq & Hc). exfalso. apply Hc.
      apply mem_true. exact (proj1 (forallb_forall _ _) E c Hreq).
  - split; [|reflexivity]. intros _.
    destruct (forallb_false _ _ E) as (c & Hreq & Hc).
    exists c. split; [assumption|]. intros Hin.
    apply mem_true in Hin. congruence.
Qed.

(** C7.  Each importer raises its schema error exactly when a required
    column is absent from the header after the resolution of the aliases:
    one of ticker, qty, exec_price, current_price on the full pipeline, one
    of ticker, qty (labels compared in lower case) on the minimal path.
    The upload endpoint answers every exception of the saving, of the
    reading or of the pipeline, the schema error among them, with an
    [HTTPException] of status 400 whose detail carries the exception, and
    leaves the stored frame as it was; otherwise it stores the frame and
    reports its number of rows. *)
Theorem schema_errors_become_400 (L : Pandas) :
  (forall raw,
     schema_error_full (Api._load_excel_to_df L (Ok raw)) <->
     exists c, In c Api.required /\ ~ In c (resolved_full raw))
  /\ (forall raw,
        schema_error_minimal (df_from_excel_bytes L (Ok raw)) <->
        exists c, In c Actions.required /\ ~ In c (resolved_minimal raw))
  /\ (forall st file,
        match (_ <- Api.saved file ;;
               Api._load_excel_to_df L (Api.content file)) with
        | Raise e =>
            Api.upload_portfolio L st file
            = (st, Raise (HTTPException 400 e))
        | Ok df =>
            Api.upload_portfolio L st file
            = (Some df, Ok (Api.RowsLoaded (List.length (rows df))))
        end)
  /\ (forall st file e,
        Api.saved file = Ok tt -> Api.content file = Raise e ->
        Api.upload_portfolio L st file = (st, Raise (HTTPException 400 e))).
Proof.
  split; [exact (full_schema_error_iff L)|].
  split; [exact (minimal_schema_error_iff L)|].
  split.
  - intros st file. unfold Api.upload_portfolio.
    destruct (_ <- Api.saved file ;; _); reflexivity.
  - intros st file e Hs Hc. unfold Api.upload_portfolio.
    now rewrite Hs, Hc.
Qed.

Lemma schema_errors_become_400_witness :
  schema_error_full
    (Api._load_excel_to_df PandasLib.pandas (Ok no_quantity_sheet))
  /\ Api.upload_portfolio PandasLib.pandas None
       (Api.mkUpload (Ok tt) (Ok no_quantity_sheet))
     = (None,
        Raise (HTTPException 400
                 (ValueError
                    (MissingRequired ["qty"]
                       ["ticker"; "exec_price"; "current_price"]))))
  /\ (exists df,
        Api.upload_portfolio PandasLib.pandas None
          (Api.mkUpload (Ok tt) (Ok typo_sheet))
        = (Some df, Ok (Api.RowsLoaded 1))).
Proof.
  split; [|split].
  - apply (proj1 (schema_errors_become_400 PandasLib.pandas)
             no_quantity_sheet).
    exists "qty". split; [simpl; tauto|].
    vm_compute. intuition discriminate.
  - exact (proj1 (proj2 (proj2 (schema_errors_become_400 PandasLib.pandas)))
             None (Api.mkUpload (Ok tt) (Ok no_quantity_sheet))).
  - eexists.
    exact (proj1 (proj2 (proj2 (schema_errors_become_400 PandasLib.pandas)))
             None (Api.mkUpload (Ok tt) (Ok typo_sheet))).
Defined.

(* ------------------------------------------------------------------ *)
(** ** web_search *)

Lemma strip_not_blank (s : string) :
  PyStr.all_space s = false -> PyStr.strip s <> EmptyString.
Proof.
  unfold PyStr.strip. induction s as [|c r IH]; simpl; [discriminate|].
  destruct (PyStr.is_space c) eqn:Ec; simpl.
  - exact IH.
  - intros _. rewrite Ec. destruct (PyStr.rstrip r); discriminate.
Qed.

(** The guard of [web_search_tool] is the test for a blank query. *)
Lemma blank_guard (s : string) :
  negb (PyStr.truthy s) || negb (PyStr.truthy (PyStr.strip s))
  = PyStr.all_space s.
Proof.
  destruct (PyStr.all_space s) eqn:E.
  - rewrite (strip_blank s E). simpl. apply orb_true_r.
  - pose proof (strip_not_blank s E) as H.
    destruct s; [discriminate|]. simpl negb at 1.
    destruct (PyStr.strip _); [contradiction|reflexivity].
Qed.

Lemma collect_bound (W : Tools.Web) (max_results : Z)
    (divs : list Tools.ResultDiv) (results out : list Tools.SearchResult) :
  (Z.of_nat (List.length results) < max_results)%Z ->
  Tools.collect W max_results divs results = Ok out ->
  (Z.of_nat (List.length out) <= max_results)%Z.
Proof.
  revert results. induction divs as [|d rest IH]; intros results Hlt; simpl.
  - intros H. injection H as <-. lia.
  - destruct (Tools.result__a d) as [a|]; [|now apply IH].
    destruct (Tools.real_url W _) as [u|e]; [|discriminate].
    match goal with |- context [(?n >=? _)%Z] => set (k := n) end.
    assert (Hk : (k <= max_results)%Z).
    { subst k. rewrite length_app. simpl. lia. }
    destruct (Z.geb_spec k max_results) as [Hge|Hlt'].
    + intros H. injection H as <-. exact Hk.
    + apply IH. exact Hlt'.
Qed.

(** C8, as the code has it.  A query that is empty or all blanks gives the
    empty list and no request.  Any other query is sent once; when the
    request fails the result is the empty list.  A list that is returned
    has at most [min(10, max(1, num_results))] entries.  What follows the
    request (the parser, the loop over the results) runs outside the
    [try]: nothing is said of the exceptions raised there. *)
Theorem web_search_contract (W : Tools.Web) (query_ : string)
    (num_results : Z) :
  (PyStr.all_space query_ = true ->
   Tools.web_search_tool W query_ num_results = ([], Ok []))
  /\ (PyStr.all_space query_ = false ->
      fst (Tools.web_search_tool W query_ num_results) = [query_])
  /\ (forall e, Tools.post W query_ = Raise e ->
      snd (Tools.web_search_tool W query_ num_results) = Ok [])
  /\ (forall results,
      snd (Tools.web_search_tool W query_ num_results) = Ok results ->
      (Z.of_nat (List.length results) <= Z.min 10 (Z.max 1 num_results))%Z).
Proof.
  unfold Tools.web_search_tool. rewrite blank_guard.
  destruct (PyStr.all_space query_).
  - repeat split; try discriminate.
    intros results H. injection H as <-. simpl. lia.
  - destruct (Tools.post W query_) as [text|e0].
    + destruct (Tools.select_results W text) as [divs|e1]; simpl;
        repeat split; try discriminate.
      intros results H.
      replace (Z.min 10 (Z.max 1 num_results))
        with (Z.max 1 (Z.min 10 num_results)) by lia.
      apply (collect_bound W _ divs [] results); [simpl; lia|exact H].
    + simpl. repeat split; try discriminate.
      intros results H. injection H as <-. simpl. lia.
Qed.

Lemma web_search_contract_witness :
  Tools.web_search_tool (UrlLib.serving [redirect_result]) "   " 5 = ([], Ok [])
  /\ fst (Tools.web_search_tool (UrlLib.serving [redirect_result]) "rocq" 5)
     = ["rocq"]
  /\ (Z.of_nat
        (List.length
           [ {| Tools.title := "Rocq"; Tools.url := "https://rocq-prover.org/";
                Tools.snippet := "The Rocq prover" |} ])
      <= Z.min 10 (Z.max 1 5))%Z.
Proof.
  destruct (web_search_contract (UrlLib.serving [redirect_result]) "   " 5)
    as (H1 & _).
  destruct (web_search_contract (UrlLib.serving [redirect_result]) "rocq" 5)
    as (_ & H2 & _ & H4).
  split; [exact (H1 eq_refl)|]. split; [exact (H2 eq_refl)|].
  exact (H4 _ eq_refl).
Defined.

(** C8, as the specification states it, fails: the request succeeds, the
    page holds a result whose link [urlparse] rejects, and the
    [ValueError] leaves [web_search_tool]. *)
Lemma web_search_raises_on_malformed_link :
  Tools.web_search_tool (UrlLib.serving [redirect_result; bracket_result])
    "rocq" 5
  = (["rocq"], Raise (ValueError (Text "Invalid IPv6 URL"))).
Proof. reflexivity. Qed.

(* ------------------------------------------------------------------ *)
(** ** The key of the table under the trades *)

Lemma insert_position_keeps_key (db : Table) (t : string) (d : pyfloat)
    (e c : option pyfloat) :
  key_unique db -> key_unique (fst (insert_position db t d e c)).
Proof.
  intros Hu. destruct (get_position db t) as [p|] eqn:Hg.
  - rewrite (insert_position_held _ _ _ _ _ _ Hg).
    destruct (fle _ zero); simpl.
    + now apply key_unique_delete_row.
    + unfold key_unique. now rewrite map_ticker_update_row.
  - rewrite (insert_position_new _ _ _ _ _ Hg). simpl.
    unfold key_unique in *. rewrite map_app. simpl.
    apply NoDup_app; [assumption|repeat constructor; simpl; tauto|].
    intros x Hx [<-|[]]. revert Hx. now apply get_position_none.
Qed.

(** Buys and sales keep the tickers of the table distinct. *)
Lemma trades_keep_key (db : Table) (t : string) (q : pyfloat)
    (e c : option pyfloat) :
  key_unique db ->
  key_unique (fst (buy_stock db t q e c))
  /\ key_unique (fst (sell_stock db t q)).
Proof.
  intros Hu. split.
  - unfold buy_stock. destruct (fle q zero); [assumption|].
    pose proof (insert_position_keeps_key db t q e c Hu) as H.
    destruct (insert_position db t q e c) as [db' [p|]]; exact H.
  - unfold sell_stock. destruct (fle q zero); [assumption|].
    destruct (get_position db t) as [p|]; [|assumption].
    destruct (flt _ q); [assumption|].
    pose proof (insert_position_keeps_key db t (fneg q) None None Hu) as H.
    destruct (insert_position db t (fneg q) None None) as [db' r]; exact H.
Qed.

(* ------------------------------------------------------------------ *)
(** ** Worked examples *)

(** Two buys of one ticker show as one row holding the sum. *)
Example show_portfolio_after_two_buys :
  Tools.show_portfolio_tool
    (fst (buy_stock (fst (buy_stock [] "AAPL" (Fin 5) None None))
            "aapl" (Fin 3) None None))
  = [ [ ("ticker", Tools.JStr "AAPL");
        ("qty", Tools.JNum (Fin (5 + 3)));
        ("exec_price", Tools.JNull);
        ("current_price", Tools.JNull) ] ].
Proof. reflexivity. Qed.

(** A sale that closes the position gives the empty record. *)
Example sell_tool_closes :
  Tools.sell_stock_tool [aapl 5] "AAPL" (Fin 5) = ([], Ok []).
Proof. reflexivity. Qed.

(** The positions are listed in the order of their tickers. *)
Example list_positions_sorted :
  map ticker
    (list_positions
       (run PandasLib.pandas []
          [ Buy "msft" (Fin 1) None None;
            Buy "aapl" (Fin 2) None None;
            Buy "goog" (Fin 3) None None ]))
  = ["AAPL"; "GOOG"; "MSFT"].
Proof. reflexivity. Qed.

(** The full pipeline resolves the aliases whatever their case and accepts
    the misspelt quantity header; its check of the required labels is
    exact, so [Qty] is not [qty]. *)
Example full_pipeline_accepts_typo :
  resolved_full typo_sheet = ["ticker"; "qty"; "exec_price"; "current_price"]
  /\ resolved_full (mkDF ["ticker"; "Qty"; "exec_price"; "current_price"] [])
     = ["ticker"; "Qty"; "exec_price"; "current_price"]
  /\ schema_error_full
       (Api._load_excel_to_df PandasLib.pandas
          (Ok (mkDF ["ticker"; "Qty"; "exec_price"; "current_price"] []))).
Proof.
  split; [reflexivity|]. split; [reflexivity|].
  now exists ["qty"], ["ticker"; "Qty"; "exec_price"; "current_price"].
Qed.

(** The minimal path renames its aliases by their exact spelling and
    compares the required labels in lower case. *)
Example minimal_path_headers :
  resolved_minimal (mkDF ["TICKER"; "Qty"] []) = ["ticker"; "qty"]
  /\ resolved_minimal typo_sheet
     = ["ticker (ric)"; "qunatity"; "execution price"; "current price"]
  /\ schema_error_minimal
       (df_from_excel_bytes PandasLib.pandas (Ok typo_sheet)).
Proof. repeat split. Qed.

(** A link wrapped in the redirect of the search engine is unwrapped. *)
Example web_search_unwraps_redirect :
  Tools.web_search_tool (UrlLib.serving [redirect_result]) "rocq" 5
  = (["rocq"],
     Ok [ {| Tools.title := "Rocq";
             Tools.url := "https://rocq-prover.org/";
             Tools.snippet := "The Rocq prover" |} ]).
Proof. reflexivity. Qed.

(* ================================================================== *)
(** * Further properties of the code *)

(* ------------------------------------------------------------------ *)
(** ** Queries *)

Lemma insert_sorted_sorted (p : Position) (l : list Position) :
  Sorted ticker_le l -> Sorted ticker_le (insert_sorted p l).
Proof.
  induction l as [|q r IH]; simpl; intros Hs.
  - repeat constructor.
  - destruct (String.leb (ticker p) (ticker q)) eqn:E.
    + constructor; [assumption|]. constructor. exact E.
    + assert (Hqp : ticker_le q p).
      { destruct (String.leb_total (ticker p) (ticker q)) as [H|H];
          [congruence|exact H]. }
      inversion Hs as [|? ? Hr Hhd]; subst.
      constructor; [now apply IH|].
      destruct r as [|x r]; simpl.
      * now constructor.
      * destruct (String.leb (ticker p) (ticker x)); constructor;
          [assumption|]. now inversion Hhd.
Qed.

(** X1.  [list_positions] returns every row of the table once, in
    ascending order of the tickers. *)
Theorem list_positions_in_ticker_order (db : Table) :
  Permutation (list_positions db) db
  /\ Sorted ticker_le (list_positions db).
Proof.
  split; [apply list_positions_perm|].
  unfold list_positions. induction db as [|p r IH]; simpl.
  - constructor.
  - now apply insert_sorted_sorted.
Qed.

Lemma upper_lower_char (c : ascii) :
  PyStr.upper_char (PyStr.lower_char c) = PyStr.upper_char c.
Proof.
  destruct c as [[] [] [] [] [] [] [] []]; reflexivity.
Qed.

Lemma upper_lower (s : string) :
  PyStr.upper (PyStr.lower s) = PyStr.upper s.
Proof.
  induction s as [|c r IH]; simpl; [reflexivity|].
  now rewrite upper_lower_char, IH.
Qed.

(** X2.  [get_position] does not see the case of the ticker it is asked
    for: two spellings with the same upper-case form, such as a ticker and
    its lower-case form, find the same row; the row found carries the
    upper-case form, so a row stored under a ticker that is not in upper
    case is found by no request. *)
Theorem get_position_ignores_case (db : Table) (t : string) :
  (forall t', PyStr.upper t' = PyStr.upper t ->
     get_position db t' = get_position db t)
  /\ get_position db (PyStr.lower t) = get_position db t
  /\ (forall p, get_position db t = Some p ->
        In p db /\ ticker p = PyStr.upper t)
  /\ (forall p, PyStr.upper (ticker p) <> ticker p ->
        get_position db t <> Some p).
Proof.
  assert (H1 : forall t', PyStr.upper t' = PyStr.upper t ->
                 get_position db t' = get_position db t).
  { intros t' E. unfold get_position. now rewrite E. }
  split; [exact H1|]. split; [apply H1, upper_lower|]. split.
  - apply get_position_some.
  - intros p Hp Hg. apply get_position_some in Hg as [_ Hg].
    apply Hp. rewrite Hg. apply upper_idempotent.
Qed.

(** X4.  In a table whose tickers are distinct and in upper case, every
    row is the one [get_position] finds under the row's own ticker. *)
Theorem stored_row_is_found (db : Table) (p : Position) :
  key_unique db -> all_upper db -> In p db ->
  get_position db (ticker p) = Some p.
Proof.
  unfold key_unique, all_upper, get_position.
  induction db as [|q r IH]; simpl; intros Hu Ha Hin; [contradiction|].
  inversion Hu as [|? ? Hnot Hu']; subst.
  inversion Ha as [|? ? Hq Ha']; subst.
  destruct Hin as [->|Hin].
  - now rewrite (proj1 (Forall_forall _ _) Ha p (or_introl eq_refl)),
      String.eqb_refl.
  - specialize (IH Hu' Ha' Hin).
    rewrite (proj1 (Forall_forall _ _) Ha' p Hin) in *.
    destruct (String.eqb_spec (ticker q) (ticker p)) as [E|E].
    + exfalso. apply Hnot. rewrite E. now apply in_map.
    + exact IH.
Qed.

Lemma stored_row_is_found_witness :
  get_position [aapl 5; {| ticker := "MSFT"; qty := Fin 1;
                           exec_price := None; current_price := None |}]
    "MSFT"
  = Some {| ticker := "MSFT"; qty := Fin 1;
            exec_price := None; current_price := None |}.
Proof.
  apply (stored_row_is_found
           [aapl 5; {| ticker := "MSFT"; qty := Fin 1;
                       exec_price := None; current_price := None |}]
           {| ticker := "MSFT"; qty := Fin 1;
              exec_price := None; current_price := None |}).
  - repeat constructor; simpl; intuition discriminate.
  - repeat constructor.
  - simpl. tauto.
Defined.

(* ------------------------------------------------------------------ *)
(** ** Trades *)

Lemma get_position_app_other (db : Table) (pos : Position) (t' : string) :
  ticker pos <> PyStr.upper t' ->
  get_position (db ++ [pos]) t' = get_position db t'.
Proof.
  intros Hne. unfold get_position.
  induction db as [|q r IH]; simpl.
  - destruct (String.eqb_spec (ticker pos) (PyStr.upper t'));
      [contradiction|reflexivity].
  - now rewrite IH.
Qed.

Lemma delete_row_other (k : string) (db : Table) (t' : string) :
  PyStr.upper t' <> k ->
  get_position (delete_row k db) t' = get_position db t'.
Proof.
  intros Hne. unfold get_position.
  induction db as [|q r IH]; simpl; [reflexivity|].
  destruct (String.eqb_spec (ticker q) k) as [E|E]; simpl.
  - destruct (String.eqb_spec (ticker q) (PyStr.upper t'));
      [congruence|reflexivity].
  - now rewrite IH.
Qed.

Lemma insert_position_other (db : Table) (t t' : string) (d : pyfloat)
    (e c : option pyfloat) :
  PyStr.upper t' <> PyStr.upper t ->
  get_position (fst (insert_position db t d e c)) t' = get_position db t'.
Proof.
  intros Hne. destruct (get_position db t) as [p|] eqn:Hg.
  - pose proof (get_position_some _ _ _ Hg) as [_ Hk].
    rewrite (insert_position_held _ _ _ _ _ _ Hg).
    destruct (fle _ zero); simpl.
    + apply delete_row_other. congruence.
    + apply update_row_other; [reflexivity|congruence].
  - rewrite (insert_position_new _ _ _ _ _ Hg). simpl.
    apply get_position_app_other. simpl. congruence.
Qed.

(** X5.  A buy or a sale of one ticker, completed or rejected, leaves what
    [get_position] finds for every other ticker as it was. *)
Theorem trades_leave_other_tickers (db : Table) (t t' : string)
    (q : pyfloat) (e c : option pyfloat) :
  PyStr.upper t' <> PyStr.upper t ->
  get_position (fst (buy_stock db t q e c)) t' = get_position db t'
  /\ get_position (fst (sell_stock db t q)) t' = get_position db t'.
Proof.
  intros Hne. split.
  - unfold buy_stock. destruct (fle q zero); [reflexivity|].
    pose proof (insert_position_other db t t' q e c Hne) as H.
    destruct (insert_position db t q e c) as [db' [p|]]; exact H.
  - unfold sell_stock. destruct (fle q zero); [reflexivity|].
    destruct (get_position db t) as [p|]; [|reflexivity].
    destruct (flt _ q); [reflexivity|].
    pose proof (insert_position_other db t t' (fneg q) None None Hne) as H.
    destruct (insert_position db t (fneg q) None None) as [db' r]; exact H.
Qed.

Lemma trades_leave_other_tickers_witness :
  get_position (fst (buy_stock [aapl 5] "msft" (Fin 2) None None)) "aapl"
  = Some (aapl 5)
  /\ get_position (fst (sell_stock [aapl 5] "AAPL" (Fin 5))) "msft" = None.
Proof.
  split.
  - exact (proj1 (trades_leave_other_tickers [aapl 5] "msft" "aapl" (Fin 2)
                    None None ltac:(discriminate))).
  - exact (proj2 (trades_leave_other_tickers [aapl 5] "AAPL" "msft" (Fin 5)
                    None None ltac:(discriminate))).
Defined.

(** X6.  What [insert_position] returns is what the table holds for the
    ticker afterwards: the new row, the updated row, or nothing when the
    row was deleted (the ticker being the key of the table). *)
Theorem insert_position_returns_stored (db : Table) (t : string)
    (d : pyfloat) (e c : option pyfloat) :
  key_unique db ->
  get_position (fst (insert_position db t d e c)) t
  = snd (insert_position db t d e c).
Proof.
  intros Hu. destruct (get_position db t) as [p|] eqn:Hg.
  - rewrite (insert_position_held _ _ _ _ _ _ Hg).
    destruct (fle _ zero); simpl.
    + now apply get_position_delete.
    + now apply get_position_update.
  - rewrite (insert_position_new _ _ _ _ _ Hg). simpl.
    now apply get_position_app_new.
Qed.

Lemma insert_position_returns_stored_witness :
  get_position (fst (insert_position [aapl 5] "aapl" (Fin (-5)) None None))
    "aapl"
  = None
  /\ get_position (fst (insert_position [aapl 5] "tsla" (Fin (-1)) None None))
       "tsla"
     = Some {| ticker := "TSLA"; qty := Fin 0;
               exec_price := None; current_price := None |}.
Proof.
  split.
  - exact (insert_position_returns_stored [aapl 5] "aapl" (Fin (-5)) None None
             (key_unique_aapl 5)).
  - exact (insert_position_returns_stored [aapl 5] "tsla" (Fin (-1)) None None
             (key_unique_aapl 5)).
Defined.

Lemma insert_position_keeps_upper (db : Table) (t : string) (d : pyfloat)
    (e c : option pyfloat) :
  all_upper db -> all_upper (fst (insert_position db t d e c)).
Proof.
  intros Ha. destruct (get_position db t) as [p|] eqn:Hg.
  - rewrite (insert_position_held _ _ _ _ _ _ Hg).
    destruct (fle _ zero); simpl.
    + now apply Forall_delete_row.
    + apply Forall_update_row; [assumption|]. simpl.
      apply get_position_some in Hg as [Hin _].
      exact (proj1 (Forall_forall _ _) Ha p Hin).
  - rewrite (insert_position_new _ _ _ _ _ Hg). simpl.
    apply Forall_app. split; [assumption|].
    repeat constructor. simpl. apply upper_idempotent.
Qed.

Lemma row_position_upper (L : Pandas) (cols : list string) (row : list cell)
    (p : Position) :
  row_position L cols row = Ok p -> PyStr.upper (ticker p) = ticker p.
Proof.
  unfold row_position.
  destruct (getitem "ticker" cols) as [|it|idx]; simpl; [discriminate| |];
    (destruct (getitem "qty" cols) as [|iq|idq]; simpl;
       [discriminate| |discriminate];
     destruct (py_float L (cell_at iq row)) as [q|]; simpl; [|discriminate];
     destruct (optional_price L "exec_price" cols row) as [e|]; simpl;
       [|discriminate];
     destruct (optional_price L "current_price" cols row) as [c|]; simpl;
       [|discriminate];
     intros H; injection H as <-; simpl; apply upper_idempotent).
Qed.

Lemma import_excel_keeps_upper (L : Pandas) (db : Table)
    (content : excel_bytes) :
  all_upper db -> all_upper (fst (import_excel L db content)).
Proof.
  intros Ha. unfold import_excel.
  destruct (df_from_excel_bytes L content) as [df|e]; [|assumption].
  rewrite load_df_into_db_result.
  destruct (row_positions L (columns df) (rows df)) as [ps|e] eqn:Eps;
    simpl; [|constructor].
  apply row_positions_ok in Eps.
  induction Eps as [|row p rs ps Hrow _ IH]; constructor; [|assumption].
  now apply (row_position_upper L (columns df) row).
Qed.

(** X3.  From a table whose tickers are in upper case (the empty one, for
    instance), every sequence of buys, sales and imports, whatever their
    arguments and outcomes, leaves a table whose tickers are in upper
    case. *)
Theorem tickers_stay_upper (L : Pandas) (db : Table) (ops : list op) :
  all_upper db -> all_upper (run L db ops).
Proof.
  revert db. induction ops as [|o ops IH]; intros db Ha; simpl;
    [assumption|].
  apply IH. destruct o as [t q e c|t q|content]; simpl.
  - unfold buy_stock. destruct (fle q zero); [assumption|].
    pose proof (insert_position_keeps_upper db t q e c Ha) as H.
    destruct (insert_position db t q e c) as [db' [p|]]; exact H.
  - unfold sell_stock. destruct (fle q zero); [assumption|].
    destruct (get_position db t) as [p|]; [|assumption].
    destruct (flt _ q); [assumption|].
    pose proof (insert_position_keeps_upper db t (fneg q) None None Ha) as H.
    destruct (insert_position db t (fneg q) None None) as [db' r]; exact H.
  - now apply import_excel_keeps_upper.
Qed.

Lemma tickers_stay_upper_witness :
  all_upper
    (run PandasLib.pandas []
       [ Buy "tsla" (Fin 2) None None;
         Import priced_sheet;
         Buy "Goog" NaN None None;
         Sell "msft" (Fin 1) ]).
Proof.
  apply tickers_stay_upper. constructor.
Defined.

Lemma import_excel_keeps_key (L : Pandas) (db : Table)
    (content : excel_bytes) :
  key_unique db -> keyed L (Import content) ->
  key_unique (fst (import_excel L db content)).
Proof.
  intros Hu Hk. unfold import_excel.
  destruct (df_from_excel_bytes L content) as [df|e] eqn:Edf; [|assumption].
  rewrite load_df_into_db_result.
  destruct (row_positions L (columns df) (rows df)) as [ps|e] eqn:Eps;
    simpl; [|constructor].
  destruct (df_from_excel_bytes_ok _ _ _ Edf)
    as (raw & it & iq & _ & _ & Ht & _ & _).
  unfold key_unique. rewrite (imported_tickers _ _ _ _ _ Ht Eps).
  specialize (Hk df Edf). unfold frame_tickers, column_cells in Hk.
  rewrite Ht, map_map in Hk. exact Hk.
Qed.

(** X7.  From a table whose tickers are distinct, every sequence of buys
    and sales, and of imports of sheets whose normalised tickers are
    distinct, leaves a table whose tickers are distinct: a buy of a held
    ticker updates its row and adds none. *)
Theorem tickers_stay_distinct (L : Pandas) (db : Table) (ops : list op) :
  key_unique db -> Forall (keyed L) ops -> key_unique (run L db ops).
Proof.
  intros Hu Hops. revert db Hu.
  induction Hops as [|o ops Ho _ IH]; intros db Hu; simpl; [assumption|].
  apply IH. destruct o as [t q e c|t q|content]; simpl.
  - exact (proj1 (trades_keep_key db t q e c Hu)).
  - exact (proj2 (trades_keep_key db t q None None Hu)).
  - now apply import_excel_keeps_key.
Qed.

Lemma priced_sheet_keyed : keyed PandasLib.pandas (Import priced_sheet).
Proof.
  intros df H. vm_compute in H. injection H as <-.
  repeat constructor; simpl; intuition discriminate.
Defined.

Lemma tickers_stay_distinct_witness :
  key_unique
    (run PandasLib.pandas []
       [ Buy "aapl" (Fin 2) None None;
         Buy "AAPL" (Fin 3) None None;
         Import priced_sheet;
         Buy "msft" (Fin 1) None None;
         Sell "aapl" (Fin 10) ]).
Proof.
  apply tickers_stay_distinct.
  - constructor.
  - repeat constructor. exact priced_sheet_keyed.
Defined.

Lemma delete_row_app_new (db : Table) (t : string) (pos : Position) :
  get_position db t = None -> ticker pos = PyStr.upper t ->
  delete_row (PyStr.upper t) (db ++ [pos]) = db.
Proof.
  unfold get_position. intros Hg Ht.
  induction db as [|q r IH]; simpl in *.
  - now rewrite Ht, String.eqb_refl.
  - destruct (String.eqb (ticker q) (PyStr.upper t)); [discriminate|].
    now rewrite IH.
Qed.

Lemma update_row_twice (k : string) (p1 p2 : Position) (db : Table) :
  ticker p1 = k ->
  update_row k p2 (update_row k p1 db) = update_row k p2 db.
Proof.
  intros Hk. induction db as [|q r IH]; simpl; [reflexivity|].
  destruct (String.eqb (ticker q) k) eqn:E; simpl.
  - now rewrite Hk, String.eqb_refl.
  - now rewrite E, IH.
Qed.

Lemma feq_same (q : pyfloat) : notna q = true -> feq q q = true.
Proof.
  destruct q as [a|]; [|discriminate]. intros _. simpl.
  apply Qeq_bool_iff. reflexivity.
Qed.

Lemma positive_number (q : pyfloat) : positive q -> notna q = true.
Proof. unfold positive. destruct q; [reflexivity|discriminate]. Qed.

Lemma sum_above_part (x q : pyfloat) :
  positive x -> positive q -> flt q (fadd x q) = true.
Proof.
  intros Hx Hq.
  apply positive_inv in Hx as (a & -> & Ha).
  apply positive_inv in Hq as (b & -> & Hb).
  simpl. apply negb_true_iff, Qle_bool_false. lra.
Qed.

(** X8.  A buy of a finite quantity above zero followed by a sale of the
    same quantity.  For a ticker without a row the table is again the
    table before the buy, and the sale returns no position.  For a ticker
    with a row holding a quantity above zero the sale is not rejected: the
    shares just bought can be sold; a row the sale returns has the ticker
    of the held row, and each price whose argument was not given to the
    buy is the one before the buy. *)
Theorem buy_then_sell_restores (db : Table) (t : string) (q : pyfloat)
    (e c : option pyfloat) :
  positive q ->
  (get_position db t = None ->
   sell_stock (fst (buy_stock db t q e c)) t q = (db, Ok None))
  /\
  (forall p, get_position db t = Some p -> positive (qty p) ->
   exists r,
     snd (sell_stock (fst (buy_stock db t q e c)) t q) = Ok r
     /\ forall pos, r = Some pos ->
          ticker pos = ticker p
          /\ (e = None -> exec_price pos = exec_price p)
          /\ (c = None -> current_price pos = current_price p)).
Proof.
  intros Hq. split.
  - intros Hg. rewrite (buy_stock_new _ _ _ _ _ Hq Hg). cbn [fst].
    set (pos := {| ticker := PyStr.upper t; qty := q;
                   exec_price := or_else e c;
                   current_price := or_else c e |}).
    assert (Hg' : get_position (db ++ [pos]) t = Some pos)
      by now apply get_position_app_new.
    rewrite (sell_stock_all _ _ _ _ Hq Hg'
               (feq_same q (positive_number q Hq))).
    change (ticker pos) with (PyStr.upper t).
    now rewrite (delete_row_app_new db t pos Hg eq_refl).
  - intros p Hg Hp. rewrite (buy_stock_held _ _ _ _ _ _ Hq Hg Hp).
    cbn [fst].
    set (pos1 := {| ticker := ticker p; qty := fadd (qty p) q;
                    exec_price := or_else e (exec_price p);
                    current_price := or_else c (current_price p) |}).
    assert (Hg1 : get_position (update_row (ticker p) pos1 db) t = Some pos1)
      by now apply get_position_update.
    assert (Hlt : flt q (qty pos1) = true)
      by exact (sum_above_part _ _ Hp Hq).
    rewrite (sell_stock_part _ _ _ _ Hq Hg1 Hlt). cbv zeta. cbn [snd].
    eexists. split; [reflexivity|].
    intros pos H. injection H as <-.
    cbn [ticker exec_price current_price]. subst pos1.
    cbn [ticker exec_price current_price].
    split; [reflexivity|]. split; intros ->; reflexivity.
Qed.

Lemma buy_then_sell_restores_witness :
  sell_stock (fst (buy_stock [aapl 5] "msft" (Fin 2) (Some (Fin 300)) None))
    "MSFT" (Fin 2)
  = ([aapl 5], Ok None)
  /\ exists r,
       snd (sell_stock (fst (buy_stock [aapl 5] "aapl" (Fin 2) None None))
              "aapl" (Fin 2))
       = Ok r
       /\ forall pos, r = Some pos ->
            ticker pos = "AAPL" /\ exec_price pos = Some (Fin 150).
Proof.
  split.
  - exact (proj1 (buy_then_sell_restores [aapl 5] "msft" (Fin 2)
                    (Some (Fin 300)) None eq_refl) eq_refl).
  - destruct (proj2 (buy_then_sell_restores [aapl 5] "aapl" (Fin 2)
                       None None eq_refl) (aapl 5) eq_refl eq_refl)
      as (r & H1 & H2).
    exists r. split; [exact H1|]. intros pos Hr.
    destruct (H2 pos Hr) as (Ht & He & _).
    split; [exact Ht|exact (He eq_refl)].
Defined.

(* ------------------------------------------------------------------ *)
(** ** The import, when it fails and when it cannot *)

(** X9.  An import is not undone when it fails.  A file that
    [df_from_excel_bytes] rejects leaves the ledger as it was; a frame one
    of whose rows does not convert leaves the ledger empty, the old rows
    being deleted and committed before the rows are read.  A completed
    import leaves as many rows as the frame has. *)
Theorem import_outcomes (L : Pandas) (db : Table) (content : excel_bytes) :
  (forall e, snd (import_excel L db content) = Raise e ->
     (df_from_excel_bytes L content = Raise e
      /\ fst (import_excel L db content) = db)
     \/ (exists df,
           df_from_excel_bytes L content = Ok df
           /\ row_positions L (columns df) (rows df) = Raise e
           /\ fst (import_excel L db content) = []))
  /\ (snd (import_excel L db content) = Ok tt ->
      exists df,
        df_from_excel_bytes L content = Ok df
        /\ List.length (fst (import_excel L db content))
           = List.length (rows df)).
Proof.
  unfold import_excel.
  destruct (df_from_excel_bytes L content) as [df|e0] eqn:Edf.
  - rewrite load_df_into_db_result.
    destruct (row_positions L (columns df) (rows df)) as [ps|e1] eqn:Eps;
      simpl.
    + split; [discriminate|]. intros _. exists df. split; [reflexivity|].
      apply row_positions_ok in Eps. symmetry.
      exact (Forall2_length Eps).
    + split; [|discriminate]. intros e H. injection H as <-.
      right. exists df. now repeat split.
  - simpl. split; [|discriminate]. intros e H. injection H as <-.
    now left.
Qed.

Lemma import_outcomes_witness :
  fst (import_excel PandasLib.pandas [aapl 5] (Ok no_quantity_sheet))
  = [aapl 5]
  /\ fst (import_excel PandasLib.pandas [aapl 5] (Ok mixed_sheet)) = []
  /\ List.length (fst (import_excel PandasLib.pandas [aapl 5] priced_sheet))
     = 2%nat.
Proof.
  split; [|split].
  - destruct (proj1 (import_outcomes PandasLib.pandas [aapl 5]
                       (Ok no_quantity_sheet)) _ eq_refl)
      as [[_ H]|(df & H & _)]; [exact H|discriminate H].
  - destruct (proj1 (import_outcomes PandasLib.pandas [aapl 5]
                       (Ok mixed_sheet)) _ eq_refl)
      as [[H _]|(df & _ & _ & H)]; [discriminate H|exact H].
  - destruct (proj2 (import_outcomes PandasLib.pandas [aapl 5] priced_sheet)
                eq_refl) as (df & Hdf & Hlen).
    rewrite Hlen. vm_compute in Hdf. injection Hdf as <-. reflexivity.
Defined.

Lemma cell_at_update_float (i : nat) (f : cell -> cell) (r : list cell) :
  (forall c, exists x, f c = CFloat x) ->
  exists x, cell_at i (update_nth i f r) = CFloat x.
Proof.
  intros Hf. destruct (Nat.lt_ge_cases i (List.length r)) as [Hlt|Hge].
  - rewrite cell_at_update_same by exact Hlt. apply Hf.
  - rewrite cell_at_beyond by (now rewrite length_update_nth).
    now exists NaN.
Qed.

(** X10.  A sheet that [df_from_excel_bytes] accepts, whose normalised
    tickers are distinct and that has no [exec_price] and no
    [current_price] column is always imported: no row fails to convert,
    the ledger gets one row per row of the sheet, under the tickers of the
    sheet, which stay distinct, and every row is stored without prices. *)
Theorem import_without_price_columns (L : Pandas) (db : Table)
    (content : excel_bytes) (df : DataFrame) :
  df_from_excel_bytes L content = Ok df ->
  NoDup (frame_tickers L df) ->
  getitem "exec_price" (columns df) = NoColumn ->
  getitem "current_price" (columns df) = NoColumn ->
  exists ps,
    import_excel L db content = (ps, Ok tt)
    /\ List.length ps = List.length (rows df)
    /\ map ticker ps = frame_tickers L df
    /\ key_unique ps
    /\ Forall (fun p => exec_price p = None /\ current_price p = None) ps.
Proof.
  intros Hdf Hnd He Hc.
  destruct (df_from_excel_bytes_ok _ _ _ Hdf)
    as (raw & it & iq & _ & _ & Ht & Hq & Hrows).
  assert (Hcells : Forall (fun r => exists x, cell_at iq r = CFloat x)
                     (rows df)).
  { rewrite Hrows. unfold map_col. apply Forall_map, Forall_map.
    apply Forall_forall. intros r _. apply cell_at_update_float.
    intros c. now eexists. }
  assert (Hps : exists ps,
            row_positions L (columns df) (rows df) = Ok ps
            /\ Forall (fun p => exec_price p = None /\ current_price p = None)
                 ps).
  { clear Hrows Hdf Hnd.
    induction (rows df) as [|row rest IH]; simpl.
    - exists []. now split.
    - inversion Hcells as [|? ? (x & Hx) Hrest]; subst.
      destruct (IH Hrest) as (ps & Hps & Hall). rewrite Hps.
      unfold row_position, optional_price. rewrite Ht, Hq, He, Hc, Hx. simpl.
      eexists. split; [reflexivity|].
      constructor; [now split|assumption]. }
  destruct Hps as (ps & Hps & Hall).
  assert (Hticks : map ticker ps = frame_tickers L df).
  { rewrite (imported_tickers _ _ _ _ _ Ht Hps).
    unfold frame_tickers, column_cells. now rewrite Ht, map_map. }
  exists ps. unfold import_excel.
  rewrite Hdf, load_df_into_db_result, Hps. simpl.
  split; [reflexivity|]. split.
  { apply row_positions_ok in Hps. symmetry. exact (Forall2_length Hps). }
  split; [exact Hticks|]. split; [|exact Hall].
  unfold key_unique. now rewrite Hticks.
Qed.

Lemma import_without_price_columns_witness :
  exists ps,
    import_excel PandasLib.pandas [aapl 5] other_sheet = (ps, Ok tt)
    /\ List.length ps = 1%nat
    /\ map ticker ps = ["TSLA"]
    /\ key_unique ps
    /\ Forall (fun p => exec_price p = None /\ current_price p = None) ps.
Proof.
  apply (import_without_price_columns PandasLib.pandas [aapl 5]
           other_sheet
           (mkDF ["ticker"; "qty"] [[CStr "TSLA"; CFloat (Fin 7)]])
           eq_refl).
  - repeat constructor. simpl. tauto.
  - reflexivity.
  - reflexivity.
Defined.

(* ------------------------------------------------------------------ *)
(** ** The tools *)

Lemma length_update_row (k : string) (p' : Position) (db : Table) :
  List.length (update_row k p' db) = List.length db.
Proof.
  induction db as [|q r IH]; simpl; [reflexivity|].
  destruct (String.eqb (ticker q) k); simpl; [reflexivity|now rewrite IH].
Qed.

Lemma length_delete_row (db : Table) (t : string) (p : Position) :
  get_position db t = Some p ->
  Datatypes.S (List.length (delete_row (ticker p) db)) = List.length db.
Proof.
  intros Hg. pose proof (get_position_some _ _ _ Hg) as [_ Hk].
  rewrite Hk. clear Hk. unfold get_position in Hg.
  induction db as [|q r IH]; simpl in *; [discriminate|].
  destruct (String.eqb (ticker q) (PyStr.upper t)); simpl;
    [reflexivity|]. now rewrite IH.
Qed.

(** X11.  The record of a position determines the position, and the empty
    record stands for no position and for nothing else. *)
Theorem position_record_is_faithful (a b : option Position) :
  (Tools._position_to_dict a = Tools._position_to_dict b -> a = b)
  /\ (Tools._position_to_dict a = [] <-> a = None).
Proof.
  split.
  - destruct a as [[t1 q1 e1 c1]|], b as [[t2 q2 e2 c2]|]; simpl;
      try discriminate; [|reflexivity].
    intros H. injection H as Ht Hq He Hc. subst.
    destruct e1, e2, c1, c2; simpl in *; congruence.
  - destruct a; simpl; split; congruence.
Qed.

(** X12.  [show_portfolio] returns one record for every row of the table,
    each row once, none of them empty; two tables with the same listing
    have the same rows in ticker order. *)
Theorem show_portfolio_lists_every_row (db : Table) :
  Permutation (Tools.show_portfolio_tool db)
    (map (fun p => Tools._position_to_dict (Some p)) db)
  /\ List.length (Tools.show_portfolio_tool db) = List.length db
  /\ Forall (fun d => d <> []) (Tools.show_portfolio_tool db)
  /\ (forall db', Tools.show_portfolio_tool db = Tools.show_portfolio_tool db'
        -> list_positions db = list_positions db').
Proof.
  unfold Tools.show_portfolio_tool. split; [|split; [|split]].
  - apply Permutation_map, list_positions_perm.
  - rewrite length_map. apply Permutation_length, list_positions_perm.
  - apply Forall_map, Forall_forall. intros p _. discriminate.
  - generalize (list_positions db). intros l db'.
    generalize (list_positions db'). clear db db'.
    induction l as [|p l IH]; intros [|q l']; simpl; try discriminate;
      [reflexivity|].
    intros H. injection H as Ht Hq He Hc Hl.
    rewrite (IH l' Hl). f_equal.
    destruct p as [t1 q1 e1 c1], q as [t2 q2 e2 c2]. simpl in *. subst.
    destruct e1, e2, c1, c2; simpl in *; congruence.
Qed.

(** X13.  When the sell tool returns, the empty record means that the
    position was closed and its row deleted; any other record is the record
    of the row that stays, and the table has as many rows as before. *)
Theorem sell_tool_empty_means_closed (db : Table) (t : string) (s : pyfloat)
    (d : list (string * Tools.json)) :
  snd (Tools.sell_stock_tool db t s) = Ok d ->
  (d = [] ->
   snd (sell_stock db t s) = Ok None
   /\ Datatypes.S (List.length (fst (Tools.sell_stock_tool db t s)))
      = List.length db)
  /\ (d <> [] ->
      List.length (fst (Tools.sell_stock_tool db t s)) = List.length db
      /\ exists pos,
           snd (sell_stock db t s) = Ok (Some pos)
           /\ get_position (fst (Tools.sell_stock_tool db t s)) t = Some pos
           /\ d = Tools._position_to_dict (Some pos)).
Proof.
  unfold Tools.sell_stock_tool, sell_stock.
  destruct (fle s zero); [discriminate|].
  destruct (get_position db t) as [p|] eqn:Hg; [|discriminate].
  destruct (flt _ s); [discriminate|].
  rewrite (insert_position_held _ _ _ _ _ _ Hg).
  destruct (fle _ zero); cbn [fst snd bind]; intros H; injection H as <-.
  - split; [|congruence]. intros _. split; [reflexivity|].
    now apply (length_delete_row db t).
  - split; [discriminate|]. intros _. split; [apply length_update_row|].
    eexists. split; [reflexivity|].
    split; [now apply get_position_update|reflexivity].
Qed.

Lemma sell_tool_empty_means_closed_witness :
  (snd (sell_stock [aapl 5] "aapl" (Fin 5)) = Ok None
   /\ Datatypes.S
        (List.length (fst (Tools.sell_stock_tool [aapl 5] "aapl" (Fin 5))))
      = 1%nat)
  /\ List.length (fst (Tools.sell_stock_tool [aapl 5] "aapl" (Fin 1)))
     = 1%nat.
Proof.
  split.
  - exact (proj1 (sell_tool_empty_means_closed [aapl 5] "aapl" (Fin 5) []
                    eq_refl) eq_refl).
  - exact (proj1 (proj2 (sell_tool_empty_means_closed [aapl 5] "aapl" (Fin 1)
                           _ eq_refl) ltac:(discriminate))).
Defined.

(** X14.  On a ledger whose rows all hold a quantity above zero the buy
    tool, given a quantity above zero, does not raise: it returns the
    record of the row the table then holds for the ticker, with the ticker
    in upper case and a quantity above zero. *)
Theorem buy_tool_returns_stored_row (db : Table) (t : string) (q : pyfloat)
    (e c : option pyfloat) :
  all_positive db -> positive q ->
  exists pos,
    snd (Tools.buy_stock_tool db t q e c)
    = Ok (Tools._position_to_dict (Some pos))
    /\ get_position (fst (Tools.buy_stock_tool db t q e c)) t = Some pos
    /\ ticker pos = PyStr.upper t
    /\ positive (qty pos).
Proof.
  intros Hdb Hq. unfold Tools.buy_stock_tool.
  destruct (get_position db t) as [p|] eqn:Hg.
  - pose proof (get_position_some _ _ _ Hg) as [Hin Hk].
    assert (Hp : positive (qty p))
      by exact (proj1 (Forall_forall _ _) Hdb _ Hin).
    rewrite (buy_stock_held _ _ _ _ _ _ Hq Hg Hp). cbn [fst snd bind].
    eexists. split; [reflexivity|].
    split; [now apply get_position_update|].
    split; [exact Hk|]. now apply positive_add.
  - rewrite (buy_stock_new _ _ _ _ _ Hq Hg). cbn [fst snd bind].
    eexists. split; [reflexivity|].
    split; [now apply get_position_app_new|]. now split.
Qed.

Lemma buy_tool_returns_stored_row_witness :
  exists pos,
    snd (Tools.buy_stock_tool [aapl 5] "aapl" (Fin 3) None None)
    = Ok (Tools._position_to_dict (Some pos))
    /\ ticker pos = "AAPL"
    /\ positive (qty pos).
Proof.
  destruct (buy_tool_returns_stored_row [aapl 5] "aapl" (Fin 3) None None
              ltac:(repeat constructor) eq_refl) as (pos & H1 & _ & H3 & H4).
  exists pos. now repeat split.
Defined.

(* ------------------------------------------------------------------ *)
(** ** The results of web_search *)

Lemma real_url_returns (W : Tools.Web) (h : string) (r : Tools.ParseResult) :
  Tools.urlparse W h = Ok r -> exists u, Tools.real_url W h = Ok u.
Proof.
  intros H. unfold Tools.real_url. rewrite H. cbn [bind].
  destruct (_ && _); [|now eexists].
  destruct (Tools.qs_get _ _) as [[|v l]|]; now eexists.
Qed.

Lemma collect_titles (W : Tools.Web) (max_results : Z)
    (divs : list Tools.ResultDiv) (acc : list Tools.SearchResult) :
  links_parse W divs ->
  (Z.of_nat (List.length acc) < max_results)%Z ->
  exists out,
    Tools.collect W max_results divs acc = Ok out
    /\ map Tools.title out
       = map Tools.title acc
         ++ firstn (Z.to_nat max_results - List.length acc)
              (linked_titles divs).
Proof.
  revert acc. induction divs as [|d rest IH]; intros acc Hparse Hlt.
  - exists acc. split; [reflexivity|]. simpl.
    now rewrite firstn_nil, app_nil_r.
  - assert (Hrest : links_parse W rest).
    { intros d' a Hin. apply Hparse. now right. }
    simpl. unfold linked_titles. simpl. fold (linked_titles rest).
    destruct (Tools.result__a d) as [a|] eqn:Ea; [|now apply IH].
    destruct (Hparse d a (or_introl eq_refl) Ea) as [r Hr].
    destruct (real_url_returns W _ r Hr) as [u Hu]. rewrite Hu.
    match goal with |- context [(?n >=? _)%Z] => set (k := n) end.
    assert (Hk : k = (Z.of_nat (List.length acc) + 1)%Z).
    { subst k. rewrite length_app. simpl. lia. }
    destruct (Z.geb_spec k max_results) as [Hge|Hlt'].
    + eexists. split; [reflexivity|]. rewrite map_app. simpl. f_equal.
      replace (Z.to_nat max_results - List.length acc)%nat with 1%nat by lia.
      reflexivity.
    + destruct (IH (acc ++ [ {| Tools.title := Tools.anchor_text a;
                                Tools.url := u;
                                Tools.snippet :=
                                  match or_else (Tools.a_result__snippet d)
                                          (Tools.div_result__snippet d) with
                                  | Some s => s
                                  | None => ""
                                  end |} ]) Hrest Hlt')
        as (out & Hout & Htitles).
      exists out. split; [exact Hout|]. rewrite Htitles.
      rewrite map_app, length_app. simpl. rewrite <- app_assoc. simpl.
      f_equal.
      replace (Z.to_nat max_results - List.length acc)%nat
        with (Datatypes.S (Z.to_nat max_results - (List.length acc + 1)))
        by lia.
      reflexivity.
Qed.

(** X15.  For a query that is not blank, answered by a page the parser
    accepts and all of whose links [urlparse] accepts, [web_search]
    returns the results that carry a link, in the order of the page, cut
    after the first [max(1, min(10, num_results))] of them; results
    without a link are skipped and do not count. *)
Theorem web_search_returns_first_links (W : Tools.Web) (query_ : string)
    (num_results : Z) (text : string) (divs : list Tools.ResultDiv) :
  PyStr.all_space query_ = false ->
  Tools.post W query_ = Ok text ->
  Tools.select_results W text = Ok divs ->
  links_parse W divs ->
  exists results,
    Tools.web_search_tool W query_ num_results = ([query_], Ok results)
    /\ map Tools.title results
       = firstn (Z.to_nat (Z.max 1 (Z.min 10 num_results)))
           (linked_titles divs).
Proof.
  intros Hq Hpost Hsoup Hparse. unfold Tools.web_search_tool.
  rewrite blank_guard, Hq, Hpost, Hsoup.
  destruct (collect_titles W (Z.max 1 (Z.min 10 num_results))
              divs [] Hparse ltac:(simpl; lia))
    as (out & Hout & Htitles).
  exists out. split; [now rewrite Hout|].
  rewrite Htitles. simpl. now rewrite Nat.sub_0_r.
Qed.

Lemma web_search_returns_first_links_witness :
  exists results,
    Tools.web_search_tool (UrlLib.serving sample_page) "rocq" 2
    = (["rocq"], Ok results)
    /\ map Tools.title results = ["Rocq"; "Example"].
Proof.
  apply (web_search_returns_first_links (UrlLib.serving sample_page)
           "rocq" 2 "" sample_page eq_refl eq_refl eq_refl).
  intros d a Hin Ha. simpl in Hin.
  destruct Hin as [<-|[<-|[<-|[<-|[]]]]]; simpl in Ha;
    try discriminate; injection Ha as <-; vm_compute; now eexists.
Defined.

(* ------------------------------------------------------------------ *)
(** ** The command line of the agent *)

Lemma loop_line {S : Type} (invoke : S -> string -> S * Agent.reply)
    (st : S) (s : string) (rest : list Agent.event) :
  Agent.loop invoke st (Agent.Line s :: rest)
  = if leaves s
    then {| Agent.asked := []; Agent.printed := []; Agent.escaped := false |}
    else if negb (PyStr.truthy (PyStr.strip s))
    then Agent.loop invoke st rest
    else
      match invoke st (PyStr.strip s) with
      | (st', Agent.Answer output) =>
          Agent.ask (PyStr.strip s) ("Agent> " ++ output)
            (Agent.loop invoke st' rest)
      | (st', Agent.Error msg) =>
          Agent.ask (PyStr.strip s) ("Agent error: " ++ msg)
            (Agent.loop invoke st' rest)
      | (_, Agent.Abort) =>
          {| Agent.asked := [PyStr.strip s]; Agent.printed := [];
             Agent.escaped := true |}
      end.
Proof. reflexivity. Qed.

Lemma loop_asks_questions {S : Type} (invoke : S -> string -> S * Agent.reply)
    (st : S) (terminal : list Agent.event) :
  Forall (fun u => exists s,
            In (Agent.Line s) terminal /\ u = PyStr.strip s
            /\ u <> EmptyString /\ leaves s = false)
         (Agent.asked (Agent.loop invoke st terminal)).
Proof.
  revert st. induction terminal as [|ev rest IH]; intros st.
  - constructor.
  - assert (Hweak : forall st',
              Forall (fun u => exists s,
                        In (Agent.Line s) (ev :: rest)
                        /\ u = PyStr.strip s
                        /\ u <> EmptyString /\ leaves s = false)
                     (Agent.asked (Agent.loop invoke st' rest))).
    { intros st'. eapply Forall_impl; [|apply IH].
      intros u (s & Hin & H). exists s. split; [now right|exact H]. }
    destruct ev as [s|]; [|constructor].
    rewrite loop_line.
    destruct (leaves s) eqn:El; [constructor|].
    destruct (PyStr.truthy (PyStr.strip s)) eqn:Et; cbn [negb];
      [|apply Hweak].
    assert (Hs : exists s0,
              In (Agent.Line s0) (Agent.Line s :: rest)
              /\ PyStr.strip s = PyStr.strip s0
              /\ PyStr.strip s <> EmptyString /\ leaves s0 = false).
    { exists s. split; [now left|]. split; [reflexivity|].
      split; [|exact El]. intros E. rewrite E in Et. discriminate. }
    destruct (invoke st (PyStr.strip s)) as [st' [out|msg|]];
      cbn [Agent.ask Agent.asked];
      constructor; try apply Hweak; try exact Hs. constructor.
Qed.

(** X16.  Whatever the key, the libraries, the agent and the terminal do,
    every text [run_cli] gives to the agent is a line of the terminal with
    its blanks trimmed, is not empty, and is not one of the words [exit]
    and [quit] in any case. *)
Theorem cli_asks_only_questions {S : Type} (key : option string)
    (built : Agent.result unit) (invoke : S -> string -> S * Agent.reply)
    (st : S) (terminal : list Agent.event) :
  Forall (fun u => exists s,
            In (Agent.Line s) terminal /\ u = PyStr.strip s
            /\ u <> EmptyString /\ leaves s = false)
         (Agent.asked (Agent.run_cli key built invoke st terminal)).
Proof.
  unfold Agent.run_cli. destruct (Agent.get_agent _ _ _ _); simpl.
  - apply loop_asks_questions.
  - constructor.
Qed.

(** X17.  Without a key in the environment ([OPENAI_API_KEY] unset or
    empty), or when the construction of the agent raises, [run_cli] reads
    nothing from the terminal and asks the agent nothing: it prints the
    banner and the failure, and returns. *)
Theorem cli_needs_an_agent {S : Type} (key : option string)
    (built : Agent.result unit) (invoke : S -> string -> S * Agent.reply)
    (st : S) (terminal : list Agent.event) :
  ((key = None \/ key = Some EmptyString) ->
   Agent.run_cli key built invoke st terminal
   = {| Agent.asked := [];
        Agent.printed :=
          [ "Finsight Assistant - type 'exit' to quit";
            "Failed to initialize agent: OPENAI_API_KEY is not set. Add it to your environment or a .env file." ];
        Agent.escaped := false |})
  /\ (forall f, built = Agent.Failed f ->
        Agent.asked (Agent.run_cli key built invoke st terminal) = []
        /\ Agent.escaped (Agent.run_cli key built invoke st terminal) = false
        /\ List.length
             (Agent.printed (Agent.run_cli key built invoke st terminal))
           = 2%nat)
  /\ (Agent.asked (Agent.run_cli key built invoke st terminal) <> [] ->
      built = Agent.Done tt /\ exists c k, key = Some (String c k)).
Proof.
  split; [|split].
  - intros [->| ->]; reflexivity.
  - intros f ->. unfold Agent.run_cli, Agent.get_agent.
    destruct (Agent._load_openai_key_from_env key); simpl; now repeat split.
  - unfold Agent.run_cli, Agent.get_agent, Agent._load_openai_key_from_env.
    destruct key as [[|c k]|]; simpl; try congruence.
    destruct built as [[]|f]; simpl; [|congruence].
    intros _. split; [reflexivity|]. now exists c, k.
Qed.

Lemma cli_needs_an_agent_witness :
  Agent.asked
    (Agent.run_cli (Some "") (Agent.Done tt) echo 0%nat
       [Agent.Line "what do I hold?"])
  = []
  /\ Agent.asked
       (Agent.run_cli (Some "sk-test")
          (Agent.Failed (Agent.LibraryError "no network")) echo 0%nat
          [Agent.Line "what do I hold?"])
     = [].
Proof.
  split.
  - rewrite (proj1 (cli_needs_an_agent (Some "") (Agent.Done tt) echo 0%nat
                      [Agent.Line "what do I hold?"]) (or_intror eq_refl)).
    reflexivity.
  - exact (proj1 (proj1 (proj2 (cli_needs_an_agent (Some "sk-test")
                                  (Agent.Failed (Agent.LibraryError "no network"))
                                  echo 0%nat [Agent.Line "what do I hold?"]))
                    _ eq_refl)).
Defined.

(** X18.  The command line reads nothing after the line that ends the
    session ([exit] or [quit], in any case, blanks around it allowed) and
    nothing after an interrupt or the end of the input: what follows in the
    terminal changes neither what the agent is asked nor what is
    printed. *)
Theorem cli_stops_at_exit {S : Type} (invoke : S -> string -> S * Agent.reply)
    (st : S) (before after : list Agent.event) (ev : Agent.event) :
  match ev with
  | Agent.Line s => leaves s = true
  | Agent.Interrupt => True
  end ->
  Agent.loop invoke st (before ++ ev :: after)
  = Agent.loop invoke st (before ++ [ev]).
Proof.
  intros Hev. revert st.
  induction before as [|b rest IH]; intros st; cbn [app].
  - destruct ev as [s|]; [|reflexivity].
    now rewrite !loop_line, Hev.
  - destruct b as [s|]; [|reflexivity].
    rewrite !loop_line.
    destruct (leaves s); [reflexivity|].
    destruct (negb _); [apply IH|].
    destruct (invoke st (PyStr.strip s)) as [st' [out|msg|]];
      try reflexivity; now rewrite IH.
Qed.

Lemma cli_stops_at_exit_witness :
  Agent.loop echo 0%nat
    [Agent.Line "hello"; Agent.Line "  QUIT "; Agent.Line "buy 5 AAPL"]
  = {| Agent.asked := ["hello"]; Agent.printed := ["Agent> hello"];
       Agent.escaped := false |}.
Proof.
  exact (eq_trans
           (cli_stops_at_exit echo 0%nat [Agent.Line "hello"]
              [Agent.Line "buy 5 AAPL"] (Agent.Line "  QUIT ") eq_refl)
           eq_refl).
Defined.

(** X19.  An error of the agent does not end the session.  On a terminal
    that holds only lines, none of them ending the session, with an agent
    that answers or raises an ordinary exception, every line that is not
    blank is asked, trimmed and in order, each gets one printed line, and
    the session ends at the end of the input with the closing newline. *)
Theorem cli_answers_every_question {S : Type}
    (invoke : S -> string -> S * Agent.reply) (st : S)
    (terminal : list Agent.event) :
  uninterrupted terminal ->
  (forall st' u, snd (invoke st' u) <> Agent.Abort) ->
  Agent.asked (Agent.loop invoke st terminal) = questions terminal
  /\ List.length (Agent.printed (Agent.loop invoke st terminal))
     = Datatypes.S (List.length (questions terminal))
  /\ Agent.escaped (Agent.loop invoke st terminal) = false.
Proof.
  intros Hterm Hinv. revert st.
  induction Hterm as [|ev rest Hev _ IH]; intros st.
  - now repeat split.
  - destruct ev as [s|]; [|contradiction].
    rewrite loop_line, Hev. cbn [questions].
    destruct (PyStr.truthy (PyStr.strip s)); cbn [negb]; [|apply IH].
    pose proof (Hinv st (PyStr.strip s)) as Hno.
    destruct (invoke st (PyStr.strip s)) as [st' [out|msg|]];
      cbn [snd] in Hno; try congruence;
      destruct (IH st') as (H1 & H2 & H3);
      cbn [Agent.ask Agent.asked Agent.printed Agent.escaped List.length];
      now rewrite H1, H2, H3.
Qed.

Lemma cli_answers_every_question_witness :
  Agent.asked
    (Agent.loop echo 0%nat
       [Agent.Line " fail"; Agent.Line "   "; Agent.Line "what do I hold? "])
  = ["fail"; "what do I hold?"]
  /\ List.length
       (Agent.printed
          (Agent.loop echo 0%nat
             [Agent.Line " fail"; Agent.Line "   ";
              Agent.Line "what do I hold? "]))
     = 3%nat.
Proof.
  destruct (cli_answers_every_question echo 0%nat
              [Agent.Line " fail"; Agent.Line "   ";
               Agent.Line "what do I hold? "]) as (H1 & H2 & _).
  - repeat constructor.
  - intros st' u. unfold echo. simpl. destruct (String.eqb u "fail");
      discriminate.
  - split; [exact H1|exact H2].
Defined.

(* ------------------------------------------------------------------ *)
(** ** Upload and read back *)

Lemma assign_shape (name : string) (f : list cell -> cell) (df : DataFrame) :
  columns (Api.assign name f df) <> []
  /\ List.length (rows (Api.assign name f df)) = List.length (rows df).
Proof.
  unfold Api.assign.
  destruct (indices name (columns df) 0) as [|i idx] eqn:E; simpl.
  - split; [|apply length_map].
    destruct (columns df); discriminate.
  - split; [|apply length_map].
    intros Hc. rewrite Hc in E. discriminate.
Qed.

Lemma filter_length {A : Type} (f : A -> bool) (l : list A) :
  (List.length (filter f l) <= List.length l)%nat.
Proof.
  induction l as [|x r IH]; simpl; [lia|].
  destruct (f x); simpl; lia.
Qed.

(** X20.  After an upload that succeeds, the handler [get_portfolio]
    returns as many records as the upload reported rows, and that number
    is at most the number of rows of the sheet; after an upload that fails
    the handler returns what it returned before.  The statement is about
    the value the handler returns, not about the response the framework
    encodes from it. *)
Theorem upload_then_read (L : Pandas) (st : option DataFrame)
    (file : Api.UploadFile) :
  (forall n, snd (Api.upload_portfolio L st file) = Ok (Api.RowsLoaded n) ->
     List.length (Api.get_portfolio (fst (Api.upload_portfolio L st file)))
     = n
     /\ exists raw,
          Api.content file = Ok raw /\ (n <= List.length (rows raw))%nat)
  /\ (forall e, snd (Api.upload_portfolio L st file) = Raise e ->
        Api.get_portfolio (fst (Api.upload_portfolio L st file))
        = Api.get_portfolio st).
Proof.
  unfold Api.upload_portfolio.
  destruct (Api.saved file) as [[]|e0]; cbn [bind];
    [|split; [discriminate|reflexivity]].
  destruct (Api.content file) as [raw|e1];
    [|split; [discriminate|reflexivity]].
  destruct (Api._load_excel_to_df L (Ok raw)) as [df|e2] eqn:Eload;
    cbn [fst snd]; [|split; [discriminate|reflexivity]].
  split; [|discriminate]. intros n H. injection H as <-.
  destruct (load_excel_to_df_ok _ _ _ Eload)
    as (cols & it & f1 & f2 & _ & _ & _ & _ & ->).
  match goal with |- context [Api.assign "pnl_pct" f2 ?d] =>
    destruct (assign_shape "pnl_pct" f2 d) as [Hc2 Hl2];
    set (df2 := Api.assign "pnl_pct" f2 d) in * end.
  match type of Hl2 with _ = List.length (rows (Api.assign _ _ ?d)) =>
    destruct (assign_shape "market_value" f1 d) as [_ Hl1] end.
  split.
  - unfold Api.get_portfolio, Api.empty.
    destruct (columns df2) as [|c cs]; [contradiction|].
    destruct (rows df2) as [|r rs]; [reflexivity|]. apply length_map.
  - exists raw. split; [reflexivity|].
    rewrite Hl2, Hl1. cbn [rows]. unfold Api.dropna, map_col.
    eapply Nat.le_trans; [apply filter_length|]. now rewrite !length_map.
Qed.

Lemma upload_then_read_witness :
  List.length
    (Api.get_portfolio
       (fst (Api.upload_portfolio PandasLib.pandas None
               (Api.mkUpload (Ok tt) (Ok mixed_sheet)))))
  = 1%nat
  /\ Api.get_portfolio
       (fst (Api.upload_portfolio PandasLib.pandas (Some typo_sheet)
               (Api.mkUpload (Ok tt) (Ok no_quantity_sheet))))
     = Api.get_portfolio (Some typo_sheet).
Proof.
  split.
  - exact (proj1 (proj1 (upload_then_read PandasLib.pandas None
                           (Api.mkUpload (Ok tt) (Ok mixed_sheet)))
                    1%nat eq_refl)).
  - exact (proj2 (upload_then_read PandasLib.pandas (Some typo_sheet)
                    (Api.mkUpload (Ok tt) (Ok no_quantity_sheet)))
             _ eq_refl).
Defined.

(* ------------------------------------------------------------------ *)
(** ** The aliases of the full pipeline *)

Lemma dict_get_set (d : dict) (k v k' : string) :
  dict_get (dict_set d k v) k'
  = if String.eqb k k' then Some v else dict_get d k'.
Proof.
  induction d as [|[k0 v0] r IH]; simpl; [reflexivity|].
  destruct (String.eqb_spec k0 k) as [->|Hne]; simpl.
  - destruct (String.eqb k k'); reflexivity.
  - rewrite IH. destruct (String.eqb_spec k0 k') as [->|Hne'];
      [|reflexivity].
    destruct (String.eqb_spec k k'); [congruence|reflexivity].
Qed.

Lemma lower_map_fold_miss (cols : list string) (d0 : dict) (l : string) :
  (forall c', In c' cols -> PyStr.lower c' <> l) ->
  dict_get (fold_left (fun d c => dict_set d (PyStr.lower c) c) cols d0) l
  = dict_get d0 l.
Proof.
  revert d0. induction cols as [|x r IH]; intros d0 H; simpl;
    [reflexivity|].
  rewrite IH by (intros c' Hin; apply H; now right).
  rewrite dict_get_set.
  destruct (String.eqb_spec (PyStr.lower x) l) as [E|E]; [|reflexivity].
  exfalso. apply (H x); [now left|exact E].
Qed.

Lemma lower_map_fold_hit (cols : list string) (d0 : dict) (c : string) :
  In c cols ->
  (forall c', In c' cols -> PyStr.lower c' = PyStr.lower c -> c' = c) ->
  dict_get (fold_left (fun d c => dict_set d (PyStr.lower c) c) cols d0)
    (PyStr.lower c)
  = Some c.
Proof.
  revert d0. induction cols as [|x r IH]; intros d0 Hin Hu; simpl;
    [contradiction|].
  destruct (in_dec string_dec c r) as [Hr|Hr].
  - apply IH; [exact Hr|]. intros c' Hc'. apply Hu. now right.
  - destruct Hin as [->|Hin]; [|contradiction].
    rewrite lower_map_fold_miss.
    + now rewrite dict_get_set, String.eqb_refl.
    + intros c' Hc' E. apply Hr. rewrite <- (Hu c' (or_intror Hc') E).
      exact Hc'.
Qed.

Lemma lower_map_fold_sound (cols : list string) (d0 : dict) (l c : string) :
  dict_get (fold_left (fun d c => dict_set d (PyStr.lower c) c) cols d0) l
  = Some c ->
  PyStr.lower c = l \/ dict_get d0 l = Some c.
Proof.
  revert d0. induction cols as [|x r IH]; intros d0; simpl; [now right|].
  intros H. apply IH in H as [H|H]; [now left|].
  rewrite dict_get_set in H.
  destruct (String.eqb_spec (PyStr.lower x) l) as [E|E]; [|now right].
  injection H as <-. now left.
Qed.

(** The step of the loop that fills [rename_map]. *)
Lemma rename_fold_miss (lm : dict) (al : dict) (d0 : dict) (c : string) :
  (forall kv, In kv al -> dict_get lm (PyStr.lower (fst kv)) <> Some c) ->
  dict_get
    (fold_left
       (fun d kv => match dict_get lm (PyStr.lower (fst kv)) with
                    | Some c' => dict_set d c' (snd kv)
                    | None => d
                    end) al d0) c
  = dict_get d0 c.
Proof.
  revert d0. induction al as [|kv r IH]; intros d0 H; simpl; [reflexivity|].
  rewrite IH by (intros kv' Hin; apply H; now right).
  destruct (dict_get lm (PyStr.lower (fst kv))) as [c'|] eqn:E;
    [|reflexivity].
  rewrite dict_get_set.
  destruct (String.eqb_spec c' c) as [->|Hne]; [|reflexivity].
  exfalso. exact (H kv (or_introl eq_refl) E).
Qed.

Lemma rename_fold_hit (lm : dict) (al : dict) (d0 : dict) (k v c : string) :
  NoDup (map (fun kv => PyStr.lower (fst kv)) al) ->
  (forall k' c', dict_get lm k' = Some c' -> PyStr.lower c' = k') ->
  In (k, v) al ->
  dict_get lm (PyStr.lower k) = Some c ->
  dict_get
    (fold_left
       (fun d kv => match dict_get lm (PyStr.lower (fst kv)) with
                    | Some c' => dict_set d c' (snd kv)
                    | None => d
                    end) al d0) c
  = Some v.
Proof.
  intros Hnd Hlm. revert d0.
  induction al as [|kv r IH]; intros d0 Hin Hk; simpl; [contradiction|].
  inversion Hnd as [|? ? Hnot Hnd']; subst.
  destruct Hin as [->|Hin].
  - simpl. rewrite Hk, rename_fold_miss.
    + now rewrite dict_get_set, String.eqb_refl.
    + intros kv' Hin' E. apply Hnot. simpl.
      rewrite <- (Hlm _ _ Hk), (Hlm _ _ E).
      now apply (in_map (fun kv => PyStr.lower (fst kv))).
  - now apply IH.
Qed.

Lemma col_rename_keys_distinct :
  NoDup (map (fun kv => PyStr.lower (fst kv)) Api.COL_RENAME).
Proof.
  repeat constructor; simpl; intuition discriminate.
Qed.

(** X21.  The full pipeline resolves aliases without regard to case.  A
    column whose header equals the key of an alias up to case, and is the
    only header of the sheet with that lower-case form, gets the name of
    the alias; a column whose header matches no key up to case keeps its
    header; the header keeps its length and order. *)
Theorem aliases_match_any_case (raw : DataFrame) (c : string) (i : nat) :
  nth_error (columns raw) i = Some c ->
  (forall k v, In (k, v) Api.COL_RENAME ->
     PyStr.lower k = PyStr.lower c ->
     (forall c', In c' (columns raw) ->
        PyStr.lower c' = PyStr.lower c -> c' = c) ->
     nth_error (resolved_full raw) i = Some v)
  /\ ((forall k v, In (k, v) Api.COL_RENAME ->
         PyStr.lower k <> PyStr.lower c) ->
      nth_error (resolved_full raw) i = Some c)
  /\ List.length (resolved_full raw) = List.length (columns raw).
Proof.
  intros Hi. unfold resolved_full, rename.
  assert (Hlm : forall k' c', dict_get (Api.lower_map (columns raw)) k'
                              = Some c' -> PyStr.lower c' = k').
  { intros k' c' H. apply lower_map_fold_sound in H as [H|H];
      [exact H|discriminate]. }
  split; [|split].
  - intros k v Hin Hk Hu.
    rewrite nth_error_map, Hi. simpl. f_equal.
    unfold Api.rename_map.
    rewrite (rename_fold_hit _ _ [] k v c col_rename_keys_distinct Hlm Hin);
      [reflexivity|].
    rewrite Hk. apply lower_map_fold_hit; [|exact Hu].
    eapply nth_error_In. exact Hi.
  - intros Hno. rewrite nth_error_map, Hi. simpl. f_equal.
    unfold Api.rename_map. rewrite rename_fold_miss; [reflexivity|].
    intros [k v] Hin E. apply Hlm in E. simpl in E.
    exact (Hno k v Hin (eq_sym E)).
  - apply length_map.
Qed.

Lemma aliases_match_any_case_witness :
  nth_error (resolved_full shouted_sheet) 1 = Some "qty"
  /\ nth_error (resolved_full shouted_sheet) 4 = Some "Notes".
Proof.
  split.
  - apply (proj1 (aliases_match_any_case shouted_sheet "QUANTITY" 1 eq_refl)
             "quantity" "qty").
    + simpl. tauto.
    + reflexivity.
    + intros c' Hin E. simpl in Hin.
      repeat (destruct Hin as [<-|Hin]; [try reflexivity; discriminate E|]).
      contradiction.
  - apply (proj1 (proj2 (aliases_match_any_case shouted_sheet "Notes" 4
                           eq_refl))).
    intros k v Hin. simpl in Hin.
    repeat (destruct Hin as [E|Hin]; [injection E as <- <-; discriminate|]).
    contradiction.
Defined.

(* ------------------------------------------------------------------ *)
(** ** The derived columns of the full pipeline *)

Lemma indices_absent (name : string) (cols : list string) (k : nat) :
  ~ In name cols -> indices name cols k = [].
Proof.
  revert k. induction cols as [|c r IH]; intros k H; simpl; [reflexivity|].
  destruct (String.eqb_spec c name) as [E|E].
  - exfalso. apply H. now left.
  - apply IH. intros Hin. apply H. now right.
Qed.

Lemma getitem_app_new (name : string) (cols : list string) :
  ~ In name cols -> getitem name (cols ++ [name]) = Series (List.length cols).
Proof.
  intros H. unfold getitem. rewrite indices_app, (indices_absent _ _ _ H).
  simpl. now rewrite String.eqb_refl.
Qed.

Lemma value_extend (name x : string) (cols : list string) (r : list cell)
    (v : cell) :
  x <> name -> List.length r = List.length cols ->
  Api.value name (cols ++ [x]) (r ++ [v]) = Api.value name cols r.
Proof.
  intros Hx Hlen. unfold Api.value. rewrite (getitem_app_other _ _ _ Hx).
  destruct (getitem name cols) as [|i|idx] eqn:E; try reflexivity.
  apply getitem_series in E as (_ & _ & Hi).
  rewrite cell_at_app by lia. reflexivity.
Qed.

Lemma value_new (name : string) (cols : list string) (r : list cell)
    (x : pyfloat) :
  ~ In name cols -> List.length r = List.length cols ->
  Api.value name (cols ++ [name]) (r ++ [CFloat x]) = x.
Proof.
  intros H Hlen. unfold Api.value. rewrite (getitem_app_new _ _ H).
  unfold cell_at. rewrite <- Hlen, nth_middle. reflexivity.
Qed.

Lemma cleaned_rows_rectangular (L : Pandas) (cols : list string) (it : nat)
    (rs : list (list cell)) :
  Forall (fun r => List.length r = List.length cols) rs ->
  Forall (fun r => List.length r = List.length cols)
    (Api.dropna ["ticker"; "qty"] cols
       (map (coerce_row L Api.NUMERIC_COLS cols)
          (map_col it (trimmed_upper L) rs))).
Proof.
  intros H. unfold Api.dropna, map_col. apply Forall_forall.
  intros r Hin. apply filter_In in Hin as [Hin _].
  apply in_map_iff in Hin as (r1 & <- & Hin).
  apply in_map_iff in Hin as (r0 & <- & Hin).
  rewrite length_coerce_row, length_update_nth.
  exact (proj1 (Forall_forall _ _) H r0 Hin).
Qed.

(** X22.  On a sheet the full pipeline accepts, whose header has no
    [market_value] and no [pnl_pct] column of its own, every row of the
    result carries its market value, the product of its quantity and its
    current price, and its profit in percent, the current price less the
    execution price, divided by the execution price, times 100, each
    computed from the cleaned values of the same row. *)
Theorem derived_columns (L : Pandas) (raw df : DataFrame) :
  rectangular raw ->
  Api._load_excel_to_df L (Ok raw) = Ok df ->
  ~ In "market_value" (resolved_full raw) ->
  ~ In "pnl_pct" (resolved_full raw) ->
  columns df = resolved_full raw ++ ["market_value"; "pnl_pct"]
  /\ Forall
       (fun r =>
          Api.value "market_value" (columns df) r
          = fmul (Api.value "qty" (columns df) r)
                 (Api.value "current_price" (columns df) r)
          /\ Api.value "pnl_pct" (columns df) r
             = fmul
                 (fdiv L
                    (fadd (Api.value "current_price" (columns df) r)
                          (fneg (Api.value "exec_price" (columns df) r)))
                    (Api.value "exec_price" (columns df) r))
                 (Fin 100))
       (rows df).
Proof.
  intros Hrect Hload Hmv Hpnl. revert Hload Hmv Hpnl.
  unfold Api._load_excel_to_df, read_excel, resolved_full. cbn [bind].
  set (cols := rename (Api.rename_map (columns raw)) (columns raw)).
  intros Hload Hmv Hpnl.
  assert (Hlen : List.length cols = List.length (columns raw)).
  { subst cols. unfold rename. now rewrite length_map. }
  destruct (Api.missing_columns cols) as [|m ms]; [|discriminate].
  destruct (getitem "ticker" cols) as [|it|] eqn:Et; cbn [bind] in Hload;
    try discriminate.
  destruct (Api.coerce_numeric L Api.NUMERIC_COLS cols _) as [rs|] eqn:Ec;
    cbn [bind] in Hload; [|discriminate].
  apply coerce_numeric_ok in Ec as [-> _].
  assert (Hrs : Forall (fun r => List.length r = List.length cols)
                  (Api.dropna ["ticker"; "qty"] cols
                     (map (coerce_row L Api.NUMERIC_COLS cols)
                        (map_col it (trimmed_upper L) (rows raw))))).
  { apply cleaned_rows_rectangular. unfold rectangular in Hrect.
    now rewrite Hlen. }
  unfold trimmed_upper in Hrs. revert Hload Hrs.
  generalize (Api.dropna ["ticker"; "qty"] cols
                (map (coerce_row L Api.NUMERIC_COLS cols)
                   (map_col it
                      (fun c => str_upper (str_strip (astype_str L c)))
                      (rows raw)))).
  intros rs Hload Hrs.
  assert (Hpnl' : ~ In "pnl_pct" (cols ++ ["market_value"])).
  { intros Hin. apply in_app_or in Hin as [Hin|[Hin|[]]];
      [contradiction|discriminate]. }
  unfold Api.assign in Hload. cbn [columns rows] in Hload.
  rewrite (indices_absent _ _ _ Hmv) in Hload. cbn [columns rows] in Hload.
  rewrite (indices_absent _ _ _ Hpnl') in Hload.
  injection Hload as <-. cbn [columns rows].
  split; [now rewrite <- app_assoc|].
  rewrite map_map. apply Forall_map, Forall_forall. intros r Hin.
  pose proof (proj1 (Forall_forall _ _) Hrs r Hin) as Hr. cbv beta in Hr.
  set (mv := fmul (Api.value "qty" cols r) (Api.value "current_price" cols r)).
  assert (Hr1 : List.length (r ++ [CFloat mv])
                = List.length (cols ++ ["market_value"])).
  { rewrite !length_app. simpl. lia. }
  assert (Hpass : forall name, name <> "market_value" -> name <> "pnl_pct" ->
            forall v,
            Api.value name ((cols ++ ["market_value"]) ++ ["pnl_pct"])
              ((r ++ [CFloat mv]) ++ [v])
            = Api.value name cols r).
  { intros name H1 H2 v.
    rewrite (value_extend name "pnl_pct") by (congruence || exact Hr1).
    apply value_extend; congruence. }
  split.
  - rewrite (value_extend "market_value" "pnl_pct")
      by (discriminate || exact Hr1).
    rewrite (value_new "market_value" cols r mv Hmv Hr).
    now rewrite !Hpass by discriminate.
  - rewrite (value_new "pnl_pct" (cols ++ ["market_value"])
               (r ++ [CFloat mv]) _ Hpnl' Hr1).
    rewrite !Hpass by discriminate.
    now rewrite !(value_extend _ "market_value") by (discriminate || exact Hr).
Qed.

Lemma shouted_sheet_rectangular : rectangular shouted_sheet.
Proof. repeat constructor. Defined.

Lemma derived_columns_witness :
  exists df,
    Api._load_excel_to_df PandasLib.pandas (Ok shouted_sheet) = Ok df
    /\ columns df
       = ["ticker"; "qty"; "exec_price"; "current_price"; "Notes";
          "market_value"; "pnl_pct"]
    /\ Forall
         (fun r =>
            Api.value "market_value" (columns df) r
            = fmul (Api.value "qty" (columns df) r)
                   (Api.value "current_price" (columns df) r))
         (rows df).
Proof.
  eexists. split; [vm_compute; reflexivity|].
  destruct (derived_columns PandasLib.pandas shouted_sheet _
              shouted_sheet_rectangular eq_refl) as [Hc Hr].
  - vm_compute. intuition discriminate.
  - vm_compute. intuition discriminate.
  - split; [exact Hc|].
    eapply Forall_impl; [|exact Hr]. intros r [H _]. exact H.
Defined.
